(** * Subscription status reconciliation (src/routes/subscription.ts)

    A shallow embedding of the subscription router of the caffeine tracker
    backend: the timestamp normalizer [timestampToISOString], the period-end
    fallback and status classification that every route inlines, and the
    route handlers [/create], [/status], [/cancel], [/reactivate] and
    [/webhook], run against a model of the [user_profiles] table and of the
    payment provider's client.

    JavaScript numbers are IEEE binary64 values, modelled by Rocq's
    primitive floats; the table is a finite map from the primary key [id]
    to a row; the provider is a record of oracle functions, one per client
    call the handlers make.  Console output is not modelled. *)

From Stdlib Require Import ZArith Floats String Ascii List Bool Lia.
From stdpp Require Import base option gmap strings fin_maps.

Local Open Scope string_scope.
Local Open Scope Z_scope.

(* ===================================================================== *)
(** ** JavaScript values *)
(* ===================================================================== *)

(** The primitive values the handlers inspect.  Fields read through
    [(subscription as any)] are of this type: the code makes no assumption
    about what the provider put there. *)
Inductive JsValue : Type :=
| JUndefined
| JNull
| JBool (b : bool)
| JNumber (n : float)
| JString (s : string).

(** ToBoolean: [if (v)], [!v], [a && b]. *)
Definition truthy (v : JsValue) : bool :=
  match v with
  | JUndefined | JNull => false
  | JBool b => b
  | JNumber n => negb (PrimFloat.is_zero n || PrimFloat.is_nan n)
  | JString s => negb (String.eqb s "")
  end.

(** [typeof v === 'number'] *)
Definition is_number (v : JsValue) : bool :=
  match v with JNumber _ => true | _ => false end.

(** A field is present when it is neither [undefined] nor [null]. *)
Definition present (v : JsValue) : bool :=
  match v with JUndefined | JNull => false | _ => true end.

(** The number of seconds the fallback adds: [30 * 24 * 60 * 60]. *)
Definition THIRTY_DAYS : float := (30 * 24 * 60 * 60)%float.

(** [v + (30 * 24 * 60 * 60)]: the addition operator with a number on the
    right.  A string on the left concatenates; every other primitive is
    converted by ToNumber ([undefined] to NaN, [null] and [false] to 0,
    [true] to 1). *)
Definition js_add_thirty_days (v : JsValue) : JsValue :=
  match v with
  | JNumber n => JNumber (n + THIRTY_DAYS)%float
  | JString s => JString (s +:+ "2592000")
  | JBool true => JNumber (1 + THIRTY_DAYS)%float
  | JBool false | JNull => JNumber (0 + THIRTY_DAYS)%float
  | JUndefined => JNumber PrimFloat.nan
  end.

(** Completion of an evaluation: a value, or a thrown exception. *)
Inductive Completion (A : Type) : Type :=
| Normal (a : A)
| Throw (e : string).
Arguments Normal {A} a.
Arguments Throw {A} e.

(* ===================================================================== *)
(** ** The Date object (ECMA-262, section 21.4) *)
(* ===================================================================== *)

(** A time value is NaN ([None]) or an integral number of milliseconds
    since the epoch, of magnitude at most 8.64e15. *)
Definition TimeValue : Type := option Z.

(** Truncation of a finite binary64 value toward zero
    (ToIntegerOrInfinity on a finite number). *)
Definition float_trunc (x : float) : option Z :=
  match Prim2SF x with
  | S754_zero _ => Some 0
  | S754_finite s m e =>
      let mag := Z.shiftl (Z.pos m) e in
      Some (if s then - mag else mag)
  | S754_infinity _ | S754_nan => None
  end.

(** TimeClip(time) *)
Definition TimeClip (time : float) : TimeValue :=
  if PrimFloat.is_nan time || PrimFloat.is_infinity time then None
  else if (8.64e15 <? PrimFloat.abs time)%float then None
  else float_trunc time.

Definition msPerDay : Z := 86400000.
Definition msPerHour : Z := 3600000.
Definition msPerMinute : Z := 60000.
Definition msPerSecond : Z := 1000.

Definition Day (t : Z) : Z := t / msPerDay.
Definition TimeWithinDay (t : Z) : Z := t mod msPerDay.

Definition DaysInYear (y : Z) : Z :=
  if negb (y mod 4 =? 0) then 365
  else if negb (y mod 100 =? 0) then 366
  else if negb (y mod 400 =? 0) then 365
  else 366.

Definition DayFromYear (y : Z) : Z :=
  365 * (y - 1970) + (y - 1969) / 4 - (y - 1901) / 100 + (y - 1601) / 400.

Definition TimeFromYear (y : Z) : Z := msPerDay * DayFromYear y.

(** YearFromTime(t) is specified as the largest [y] with
    [TimeFromYear y <= t].  It is computed from the mean length of a
    Gregorian year (146097 days in 400 years), which is off by at most one;
    [YearFromTime_spec] below shows that this is the specified year. *)
Definition YearFromTime (t : Z) : Z :=
  let d := Day t in
  let y0 := 1970 + (400 * d) / 146097 in
  if d <? DayFromYear y0 then y0 - 1
  else if DayFromYear (y0 + 1) <=? d then y0 + 1
  else y0.

Definition InLeapYear (t : Z) : Z :=
  if DaysInYear (YearFromTime t) =? 366 then 1 else 0.

Definition DayWithinYear (t : Z) : Z := Day t - DayFromYear (YearFromTime t).

Definition MonthFromTime (t : Z) : Z :=
  let d := DayWithinYear t in
  let l := InLeapYear t in
  if d <? 31 then 0
  else if d <? 59 + l then 1
  else if d <? 90 + l then 2
  else if d <? 120 + l then 3
  else if d <? 151 + l then 4
  else if d <? 181 + l then 5
  else if d <? 212 + l then 6
  else if d <? 243 + l then 7
  else if d <? 273 + l then 8
  else if d <? 304 + l then 9
  else if d <? 334 + l then 10
  else 11.

Definition DateFromTime (t : Z) : Z :=
  let d := DayWithinYear t in
  let l := InLeapYear t in
  match MonthFromTime t with
  | 0 => d + 1
  | 1 => d - 30
  | 2 => d - 58 - l
  | 3 => d - 89 - l
  | 4 => d - 119 - l
  | 5 => d - 150 - l
  | 6 => d - 180 - l
  | 7 => d - 211 - l
  | 8 => d - 242 - l
  | 9 => d - 272 - l
  | 10 => d - 303 - l
  | _ => d - 333 - l
  end.

Definition HourFromTime (t : Z) : Z := (t / msPerHour) mod 24.
Definition MinFromTime (t : Z) : Z := (t / msPerMinute) mod 60.
Definition SecFromTime (t : Z) : Z := (t / msPerSecond) mod 60.
Definition msFromTime (t : Z) : Z := t mod msPerSecond.

(** The inverse direction, used to say which instant a set of calendar
    fields denotes: MakeTime, MakeDay (for a month already in 0..11) and
    MakeDate. *)
Definition MakeTime (hour min sec ms : Z) : Z :=
  hour * msPerHour + min * msPerMinute + sec * msPerSecond + ms.

Definition DaysBeforeMonth (year month : Z) : Z :=
  let l := if DaysInYear year =? 366 then 1 else 0 in
  match month with
  | 0 => 0
  | 1 => 31
  | 2 => 59 + l
  | 3 => 90 + l
  | 4 => 120 + l
  | 5 => 151 + l
  | 6 => 181 + l
  | 7 => 212 + l
  | 8 => 243 + l
  | 9 => 273 + l
  | 10 => 304 + l
  | _ => 334 + l
  end.

Definition MakeDay (year month date : Z) : Z :=
  DayFromYear year + DaysBeforeMonth year month + date - 1.

Definition MakeDate (day time : Z) : Z := day * msPerDay + time.

(** Decimal rendering of a non-negative field on exactly [width] digits. *)
Definition digit (n : Z) : ascii := ascii_of_nat (48 + Z.to_nat (n mod 10)).

Fixpoint pad (width : nat) (n : Z) : string :=
  match width with
  | O => ""
  | S w => pad w (n / 10) +:+ String (digit n) ""
  end.

(** The year of the ISO format: four digits for 0..9999, otherwise a sign
    and six digits. *)
Definition iso_year (y : Z) : string :=
  if (0 <=? y) && (y <=? 9999) then pad 4 y
  else (if y <? 0 then "-" else "+") +:+ pad 6 (Z.abs y).

(** The calendar fields of a time value, as the ISO format prints them. *)
Record DateFields : Type := mkFields {
  f_year : Z; f_month : Z; f_date : Z;
  f_hours : Z; f_minutes : Z; f_seconds : Z; f_ms : Z
}.

Definition fields_of_time (t : Z) : DateFields :=
  {| f_year := YearFromTime t; f_month := MonthFromTime t;
     f_date := DateFromTime t; f_hours := HourFromTime t;
     f_minutes := MinFromTime t; f_seconds := SecFromTime t;
     f_ms := msFromTime t |}.

(** The instant a set of fields denotes. *)
Definition time_of_fields (f : DateFields) : Z :=
  MakeDate (MakeDay (f_year f) (f_month f) (f_date f))
           (MakeTime (f_hours f) (f_minutes f) (f_seconds f) (f_ms f)).

(** YYYY-MM-DDTHH:mm:ss.sssZ *)
Definition format_iso (f : DateFields) : string :=
  iso_year (f_year f) +:+ "-" +:+ pad 2 (f_month f + 1) +:+ "-" +:+
  pad 2 (f_date f) +:+ "T" +:+ pad 2 (f_hours f) +:+ ":" +:+
  pad 2 (f_minutes f) +:+ ":" +:+ pad 2 (f_seconds f) +:+ "." +:+
  pad 3 (f_ms f) +:+ "Z".

(** [new Date(value)] for a number, [date.getTime()] and
    [date.toISOString()], which throws a RangeError on an invalid date. *)
Definition Date_of_number (value : float) : TimeValue := TimeClip value.

Definition Date_getTime (d : TimeValue) : TimeValue := d.

Definition Date_toISOString (d : TimeValue) : Completion string :=
  match d with
  | None => Throw "RangeError: Invalid time value"
  | Some t => Normal (format_iso (fields_of_time t))
  end.

(* ===================================================================== *)
(** ** The timestamp normalizer *)
(* ===================================================================== *)

(** [isNaN(v)] once [typeof v === 'number'] holds is [is_nan]; on the other
    primitives the guard has already answered. *)
Definition js_isNaN (v : JsValue) : bool :=
  match v with
  | JNumber n => PrimFloat.is_nan n
  | JUndefined => true
  | JNull | JBool _ => false
  | JString s => negb (String.eqb s "")
  end.

(** The [try { ... } catch (error) { return null; }] of the helper. *)
Definition try_or_null (c : Completion (option string))
  : Completion (option string) :=
  match c with
  | Normal r => Normal r
  | Throw _ => Normal None
  end.

(** [timestampToISOString(timestamp)]; the result [None] is [null]. *)
Definition timestampToISOString (timestamp : JsValue)
  : Completion (option string) :=
  if negb (truthy timestamp) || negb (is_number timestamp)
     || js_isNaN timestamp
  then Normal None
  else
    match timestamp with
    | JNumber n =>
        try_or_null
          (let date := Date_of_number (n * 1000)%float in
           match Date_getTime date with
           | None => Normal None
           | Some _ =>
               match Date_toISOString date with
               | Normal s => Normal (Some s)
               | Throw e => Throw e
               end
           end)
    | _ => Normal None
    end.

(* ===================================================================== *)
(** ** The period-end fallback *)
(* ===================================================================== *)

(** The block every route repeats on the provider's subscription object
    (/create, /status, /cancel and the webhook's update case):

      let periodEnd = subscription.current_period_end;
      if (!periodEnd && subscription.billing_cycle_anchor) {
        periodEnd = subscription.billing_cycle_anchor + (30 * 24 * 60 * 60);
      }
*)
Definition resolve_period_end (current_period_end billing_cycle_anchor : JsValue)
  : JsValue :=
  if negb (truthy current_period_end) && truthy billing_cycle_anchor
  then js_add_thirty_days billing_cycle_anchor
  else current_period_end.

(** [periodEnd ? timestampToISOString(periodEnd) : null], the guarded call
    of /create, /status and /cancel. *)
Definition expires_at_guarded (periodEnd : JsValue) : Completion (option string) :=
  if truthy periodEnd then timestampToISOString periodEnd else Normal None.

(* ===================================================================== *)
(** ** The user_profiles table *)
(* ===================================================================== *)

(** The columns of a row that the subscription routes read or write; the
    primary key [id] is the key of the table.  [None] is SQL NULL. *)
Record Profile : Type := mkProfile {
  stripe_customer_id : option string;
  subscription_id : option string;
  subscription_status : option string;
  subscription_expires_at : option string
}.

(** The object passed to [.update(...)]: column name to new value. *)
Abbreviation UpdateData := (gmap string (option string)).

Definition set_column (col : string) (data : UpdateData) (old : option string)
  : option string :=
  match data !! col with
  | Some v => v
  | None => old
  end.

Definition apply_update (data : UpdateData) (p : Profile) : Profile :=
  {| stripe_customer_id :=
       set_column "stripe_customer_id" data (stripe_customer_id p);
     subscription_id := set_column "subscription_id" data (subscription_id p);
     subscription_status :=
       set_column "subscription_status" data (subscription_status p);
     subscription_expires_at :=
       set_column "subscription_expires_at" data (subscription_expires_at p) |}.

Abbreviation Table := (gmap string Profile).

(** [.eq('id', uid)] and [.eq('stripe_customer_id', c)] *)
Inductive Filter : Type :=
| EqId (uid : string)
| EqStripeCustomerId (c : string).

Definition update_where (flt : Filter) (data : UpdateData) (t : Table) : Table :=
  match flt with
  | EqId uid => alter (apply_update data) uid t
  | EqStripeCustomerId c =>
      (λ p, if bool_decide (stripe_customer_id p = Some c)
            then apply_update data p else p) <$> t
  end.

(** A nullable string column read into JavaScript: truthy when it is a
    non-empty string. *)
Definition column_truthy (v : option string) : bool :=
  match v with
  | Some s => negb (String.eqb s "")
  | None => false
  end.

Definition js_of_column (v : option string) : JsValue :=
  match v with
  | Some s => JString s
  | None => JNull
  end.

(* ===================================================================== *)
(** ** The payment provider *)
(* ===================================================================== *)

(** The fields of the provider's subscription object that the routes read;
    the object of a subscription webhook event is one of these too. *)
Record Subscription : Type := mkSubscription {
  sub_id : string;
  sub_status : string;
  sub_customer : string;
  sub_current_period_end : JsValue;
  sub_cancel_at_period_end : JsValue;
  sub_billing_cycle_anchor : JsValue
}.

Record SetupIntent : Type := mkSetupIntent {
  si_payment_method : JsValue;
  si_status : string
}.

Record Event : Type := mkEvent {
  ev_type : string;
  ev_object : Subscription
}.

(** The client calls the routes make; each either returns or throws.
    [webhooks_constructEvent body signature secret] verifies the signature
    of a raw body and parses it. *)
Record StripeClient : Type := mkStripe {
  setupIntents_retrieve : JsValue → Completion SetupIntent;
  paymentMethods_list : JsValue → Completion (list string);
  subscriptions_create : JsValue → JsValue → JsValue → Completion Subscription;
  subscriptions_retrieve : string → Completion Subscription;
  subscriptions_update : string → bool → Completion Subscription;
  webhooks_constructEvent : string → JsValue → JsValue → Completion Event
}.

(** [process.env] *)
Record Env : Type := mkEnv {
  STRIPE_PRICE_ID : JsValue;
  STRIPE_WEBHOOK_SECRET : JsValue
}.

(* ===================================================================== *)
(** ** Effects of a handler *)
(* ===================================================================== *)

(** What a handler does to the outside: requests to the provider that go
    over the network, and writes to the table. *)
Inductive Effect : Type :=
| SetupIntentsRetrieve (id : JsValue)
| PaymentMethodsList (customer : JsValue)
| SubscriptionsCreate (customer price payment_method : JsValue)
| SubscriptionsRetrieve (id : string)
| SubscriptionsUpdate (id : string) (cancel_at_period_end : bool)
| StoreUpdate (flt : Filter) (data : UpdateData).

Definition is_store_write (e : Effect) : bool :=
  match e with StoreUpdate _ _ => true | _ => false end.

Definition is_provider_mutation (e : Effect) : bool :=
  match e with
  | SubscriptionsCreate _ _ _ | SubscriptionsUpdate _ _ => true
  | _ => false
  end.

Definition is_provider_call (e : Effect) : bool := negb (is_store_write e).

(** A handler runs on the table and yields a completion, the table it
    leaves and the effects it performed, in order. *)
Definition Handler (A : Type) : Type :=
  Table → Completion A * Table * list Effect.

#[export] Instance handler_ret : MRet Handler :=
  λ A a t, (Normal a, t, []).

#[export] Instance handler_bind : MBind Handler :=
  λ A B k m t,
    match m t with
    | (Normal a, t1, es1) =>
        match k a t1 with
        | (r, t2, es2) => (r, t2, (es1 ++ es2)%list)
        end
    | (Throw e, t1, es1) => (Throw e, t1, es1)
    end.

(** [try { m } catch (error) { h }] *)
Definition try_catch {A} (m : Handler A) (h : Handler A) : Handler A :=
  λ t,
    match m t with
    | (Normal a, t1, es1) => (Normal a, t1, es1)
    | (Throw _, t1, es1) =>
        match h t1 with
        | (r, t2, es2) => (r, t2, (es1 ++ es2)%list)
        end
    end.

(** A completion computed without touching the table. *)
Definition lift {A} (c : Completion A) : Handler A := λ t, (c, t, []).

(** A request to the provider: recorded, then answered by the client. *)
Definition provider {A} (e : Effect) (c : Completion A) : Handler A :=
  λ t, (c, t, [e]).

(** [supabase.from('user_profiles').select(...).eq('id', uid).single()]:
    the row, or [null] when there is none. *)
Definition select_single (uid : string) : Handler (option Profile) :=
  λ t, (Normal (t !! uid), t, []).

(** [supabase.from('user_profiles').update(data).eq(...)] *)
Definition store_update (flt : Filter) (data : UpdateData) : Handler unit :=
  λ t, (Normal tt, update_where flt data t, [StoreUpdate flt data]).

(** [res.status(code).json(body)] *)
Record Response : Type := mkResponse {
  res_status : Z;
  res_body : list (string * JsValue)
}.

Definition json (body : list (string * JsValue)) : Response :=
  {| res_status := 200; res_body := body |}.

Definition error_response (code : Z) (msg : string) : Response :=
  {| res_status := code; res_body := [("error", JString msg)] |}.

(* ===================================================================== *)
(** ** The routes *)
(* ===================================================================== *)

(** [profile?.subscription_id] *)
Definition profile_subscription_id (profile : option Profile) : option string :=
  match profile with
  | Some p => subscription_id p
  | None => None
  end.

(** [status = 'active'; if (cancelAtPeriodEnd) status = 'active_until_period_end'] *)
Definition active_status (cancelAtPeriodEnd : JsValue) : string :=
  if truthy cancelAtPeriodEnd then "active_until_period_end" else "active".

(** POST /create, for the authenticated user [uid] and the request body's
    [customer_id] and [setup_intent_id]. *)
Definition create (stripe : StripeClient) (env : Env) (uid : string)
  (customer_id setup_intent_id : JsValue) : Handler Response :=
  try_catch
    (if negb (truthy customer_id)
     then mret (error_response 400 "customer_id is required")
     else
       fromIntent ←
         (if truthy setup_intent_id
          then
            setupIntent ← provider (SetupIntentsRetrieve setup_intent_id)
                            (setupIntents_retrieve stripe setup_intent_id);
            mret (if truthy (si_payment_method setupIntent)
                     && String.eqb (si_status setupIntent) "succeeded"
                  then si_payment_method setupIntent else JNull)
          else mret JNull);
       defaultPaymentMethod ←
         (if negb (truthy fromIntent)
          then
            paymentMethods ← provider (PaymentMethodsList customer_id)
                               (paymentMethods_list stripe customer_id);
            mret (match paymentMethods with
                  | pm :: _ => JString pm
                  | [] => fromIntent
                  end)
          else mret fromIntent);
       if negb (truthy defaultPaymentMethod)
       then mret (error_response 400 "No payment method found")
       else
         subscription ←
           provider (SubscriptionsCreate customer_id (STRIPE_PRICE_ID env)
                       defaultPaymentMethod)
             (subscriptions_create stripe customer_id (STRIPE_PRICE_ID env)
                defaultPaymentMethod);
         if String.eqb (sub_status subscription) "active"
         then
           let periodEnd :=
             resolve_period_end (sub_current_period_end subscription)
               (sub_billing_cycle_anchor subscription) in
           expiresAt ← lift (expires_at_guarded periodEnd);
           let updateData0 : UpdateData :=
             <["subscription_status" := Some (sub_status subscription)]>
               {["subscription_id" := Some (sub_id subscription)]} in
           let updateData : UpdateData :=
             if column_truthy expiresAt
             then <["subscription_expires_at" := expiresAt]> updateData0
             else updateData0 in
           _ ← store_update (EqId uid) updateData;
           mret (json [("subscription_id", JString (sub_id subscription));
                       ("status", JString (sub_status subscription));
                       ("current_period_end", periodEnd);
                       ("expires_at", js_of_column expiresAt)])
         else mret (error_response 400 "Subscription creation failed"))
    (mret (error_response 500 "Failed to create subscription")).

(** GET /status, for the authenticated user [uid]. *)
Definition get_status (stripe : StripeClient) (uid : string) : Handler Response :=
  try_catch
    (profile ← select_single uid;
     match profile with
     | Some profile =>
         if negb (column_truthy (subscription_id profile))
         then mret (json [("status", JString "inactive")])
         else
           let id := default "" (subscription_id profile) in
           subscription ← provider (SubscriptionsRetrieve id)
                            (subscriptions_retrieve stripe id);
           if String.eqb (sub_status subscription) "active"
           then
             let periodEnd :=
               resolve_period_end (sub_current_period_end subscription)
                 (sub_billing_cycle_anchor subscription) in
             let cancelAtPeriodEnd := sub_cancel_at_period_end subscription in
             expiresAt ← lift (expires_at_guarded periodEnd);
             let status := active_status cancelAtPeriodEnd in
             let updateData0 : UpdateData :=
               {["subscription_status" := Some status]} in
             let updateData : UpdateData :=
               if column_truthy expiresAt
                  && negb (bool_decide
                             (expiresAt = subscription_expires_at profile))
               then <["subscription_expires_at" := expiresAt]> updateData0
               else updateData0 in
             _ ← (if (1 <? size updateData)%nat
                     || negb (bool_decide
                                (updateData !! "subscription_status"
                                 = Some (subscription_status profile)))
                  then store_update (EqId uid) updateData
                  else mret tt);
             mret (json [("status", JString status);
                         ("current_period_end", periodEnd);
                         ("cancel_at_period_end", cancelAtPeriodEnd);
                         ("expires_at", js_of_column expiresAt);
                         ("will_renew", JBool (negb (truthy cancelAtPeriodEnd)))])
           else
             _ ← store_update (EqId uid)
                   (<["subscription_status" := Some "inactive"]>
                      (<["subscription_id" := None]>
                         {["subscription_expires_at" := None]}));
             mret (json [("status", JString "inactive")])
     | None => mret (json [("status", JString "inactive")])
     end)
    (mret (error_response 500 "Failed to get subscription status")).

(** POST /cancel, for the authenticated user [uid]. *)
Definition cancel (stripe : StripeClient) (uid : string) : Handler Response :=
  try_catch
    (profile ← select_single uid;
     if negb (column_truthy (profile_subscription_id profile))
     then mret (error_response 404 "No active subscription found")
     else
       let id := default "" (profile_subscription_id profile) in
       subscription ← provider (SubscriptionsUpdate id true)
                        (subscriptions_update stripe id true);
       _ ← store_update (EqId uid)
             {["subscription_status" := Some "active_until_period_end"]};
       let periodEnd :=
         resolve_period_end (sub_current_period_end subscription)
           (sub_billing_cycle_anchor subscription) in
       periodEndDate ← lift (expires_at_guarded periodEnd);
       mret (json [("message",
                    JString "Subscription cancelled - access until period end");
                   ("cancel_at_period_end", JBool true);
                   ("current_period_end", periodEnd);
                   ("access_until", js_of_column periodEndDate);
                   ("status", JString "active_until_period_end")]))
    (mret (error_response 500 "Failed to cancel subscription")).

(** POST /reactivate, for the authenticated user [uid]. *)
Definition reactivate (stripe : StripeClient) (uid : string) : Handler Response :=
  try_catch
    (profile ← select_single uid;
     if negb (column_truthy (profile_subscription_id profile))
     then mret (error_response 404 "No subscription found")
     else
       let id := default "" (profile_subscription_id profile) in
       subscription ← provider (SubscriptionsUpdate id false)
                        (subscriptions_update stripe id false);
       _ ← store_update (EqId uid) {["subscription_status" := Some "active"]};
       mret (json [("message", JString "Subscription reactivated successfully");
                   ("status", JString "active");
                   ("will_renew", JBool true)]))
    (mret (error_response 500 "Failed to reactivate subscription")).

(** The [switch (event.type)] of the webhook, on a verified event. *)
Definition handle_event (event : Event) : Handler unit :=
  let eventObject := ev_object event in
  if String.eqb (ev_type event) "customer.subscription.deleted"
  then
    store_update (EqStripeCustomerId (sub_customer eventObject))
      (<["subscription_status" := Some "cancelled"]>
         (<["subscription_id" := None]>
            {["subscription_expires_at" := None]}))
  else if String.eqb (ev_type event) "customer.subscription.updated"
  then
    if String.eqb (sub_status eventObject) "active"
    then
      let updatedPeriodEnd :=
        resolve_period_end (sub_current_period_end eventObject)
          (sub_billing_cycle_anchor eventObject) in
      let cancelAtPeriodEnd := sub_cancel_at_period_end eventObject in
      updatedExpiresAt ← lift (timestampToISOString updatedPeriodEnd);
      let status := active_status cancelAtPeriodEnd in
      let webhookUpdateData0 : UpdateData :=
        {["subscription_status" := Some status]} in
      let webhookUpdateData : UpdateData :=
        if column_truthy updatedExpiresAt
        then <["subscription_expires_at" := updatedExpiresAt]> webhookUpdateData0
        else webhookUpdateData0 in
      store_update (EqStripeCustomerId (sub_customer eventObject))
        webhookUpdateData
    else mret tt
  else mret tt.

(** POST /webhook, on the raw request body and the [stripe-signature]
    header. *)
Definition webhook (stripe : StripeClient) (env : Env)
  (body : string) (sig : JsValue) : Handler Response :=
  try_catch
    (event ← lift (webhooks_constructEvent stripe body sig
                     (STRIPE_WEBHOOK_SECRET env));
     _ ← handle_event event;
     mret (json [("received", JBool true)]))
    (mret (error_response 400 "Webhook signature verification failed")).

(** [body.key] of a response body. *)
Fixpoint body_field (key : string) (body : list (string * JsValue))
  : option JsValue :=
  match body with
  | [] => None
  | (k, v) :: rest => if String.eqb k key then Some v else body_field key rest
  end.

(** The inputs for which the normalizer answers "unavailable": null,
    undefined, anything that is not a number, NaN, zero, and a number of
    seconds whose Date is invalid. *)
Definition unavailable_input (v : JsValue) : Prop :=
  v = JNull ∨ v = JUndefined ∨ is_number v = false ∨
  ∃ n, v = JNumber n ∧
       (PrimFloat.is_nan n = true ∨ PrimFloat.is_zero n = true ∨
        Date_of_number (n * 1000)%float = None).

(** A valid epoch-seconds input, with the time value of its Date. *)
Definition valid_epoch_seconds (v : JsValue) (t : Z) : Prop :=
  ∃ n, v = JNumber n ∧ PrimFloat.is_nan n = false ∧
       PrimFloat.is_zero n = false ∧
       Date_of_number (n * 1000)%float = Some t.

(** The normalizer's answer as a plain value ([None] is [null]). *)
Definition iso_or_null (v : JsValue) : option string :=
  match timestampToISOString v with
  | Normal r => r
  | Throw _ => None
  end.

(** What the routes compute from an active subscription object: the
    canonical status and the normalized expiry. *)
Definition computed_status (sub : Subscription) : string :=
  active_status (sub_cancel_at_period_end sub).

Definition computed_expires_at (sub : Subscription) : option string :=
  iso_or_null (resolve_period_end (sub_current_period_end sub)
                 (sub_billing_cycle_anchor sub)).

(** The update data of the status poll and of the webhook's update case:
    the status, and the expiry when [with_expiry] holds. *)
Definition status_update (status : string) (expiresAt : option string)
  (with_expiry : bool) : UpdateData :=
  if with_expiry
  then <["subscription_expires_at" := expiresAt]>
         {["subscription_status" := Some status]}
  else {["subscription_status" := Some status]}.

(** The update data of the terminal paths. *)
Definition clearing_update (status : string) : UpdateData :=
  <["subscription_status" := Some status]>
    (<["subscription_id" := None]> {["subscription_expires_at" := None]}).

(* ===================================================================== *)
(** ** The router *)
(* ===================================================================== *)

(** The requests the subscription router serves once the user is
    authenticated ([uid] is [req.user.id]); the webhook carries the raw body
    and the signature header instead. *)
Inductive Request : Type :=
| PostCreate (uid : string) (customer_id setup_intent_id : JsValue)
| GetStatus (uid : string)
| PostCancel (uid : string)
| PostReactivate (uid : string)
| PostWebhook (body : string) (sig : JsValue).

Definition route (stripe : StripeClient) (env : Env) (req : Request)
  : Handler Response :=
  match req with
  | PostCreate uid customer_id setup_intent_id =>
      create stripe env uid customer_id setup_intent_id
  | GetStatus uid => get_status stripe uid
  | PostCancel uid => cancel stripe uid
  | PostReactivate uid => reactivate stripe uid
  | PostWebhook body sig => webhook stripe env body sig
  end.

(** The table a handler leaves and the effects it performed. *)
Definition table_after {A} (run : Completion A * Table * list Effect) : Table :=
  snd (fst run).

Definition effects_of {A} (run : Completion A * Table * list Effect)
  : list Effect :=
  snd run.

Definition store_writes (es : list Effect) : list Effect :=
  List.filter is_store_write es.

(** A handler whose every run relates the table it starts from to the
    table it leaves. *)
Definition respects (R : Table → Table → Prop) {A} (h : Handler A) : Prop :=
  ∀ t, R t (table_after (h t)).

(** No row is added or dropped, and no stored expiry is replaced by NULL. *)
Definition expiry_kept (t t' : Table) : Prop :=
  ∀ k, match t !! k, t' !! k with
       | Some p, Some p' =>
           subscription_expires_at p' = None →
           subscription_expires_at p = None
       | None, None => True
       | _, _ => False
       end.

(** Some row's stored expiry was replaced by NULL. *)
Definition expiry_cleared (t t' : Table) : Prop :=
  ∃ k p p', t !! k = Some p ∧ t' !! k = Some p' ∧
            subscription_expires_at p ≠ None ∧
            subscription_expires_at p' = None.

(** Every stored expiry is what it was. *)
Definition expiry_unchanged (t t' : Table) : Prop :=
  ∀ k, subscription_expires_at <$> t' !! k = subscription_expires_at <$> t !! k.

(** Every stored expiry is what it was or has been overwritten with the
    non-empty string [v]. *)
Definition expiry_unchanged_or (v : option string) (t t' : Table) : Prop :=
  ∀ k, subscription_expires_at <$> t' !! k = subscription_expires_at <$> t !! k
       ∨ (column_truthy v = true
          ∧ subscription_expires_at <$> t' !! k = Some v).

(** A run of the status poll that answers 200 with the canonical status
    [s] and leaves [s] stored for the user. *)
Definition reports_status (run : Completion Response * Table * list Effect)
  (uid : string) (s : string) : Prop :=
  ∃ r, fst (fst run) = Normal r ∧ res_status r = 200 ∧
       body_field "status" (res_body r) = Some (JString s) ∧
       subscription_status <$> table_after run !! uid = Some (Some s).

(** Update data that does not set the expiry column to NULL. *)
Definition keeps_expiry (data : UpdateData) : Prop :=
  data !! "subscription_expires_at" ≠ Some None.

(* ===================================================================== *)
(** ** Statements of the design that the code does not satisfy *)
(* ===================================================================== *)

(** The resolver as described with "present" read as "neither undefined
    nor null". *)
Definition resolver_by_presence : Prop :=
  ∀ current_period_end billing_cycle_anchor : JsValue,
    let periodEnd := resolve_period_end current_period_end billing_cycle_anchor in
    (present current_period_end = true → periodEnd = current_period_end) ∧
    (present current_period_end = false →
     ∀ T, billing_cycle_anchor = JNumber T →
          periodEnd = JNumber (T + 2592000)%float) ∧
    (present current_period_end = false →
     present billing_cycle_anchor = false →
     present periodEnd = false ∧ expires_at_guarded periodEnd = Normal None).

(** A second delivery of the same webhook request performs no write. *)
Definition second_delivery_silent : Prop :=
  ∀ stripe env body sig (t : Table),
    let first := webhook stripe env body sig t in
    let second := webhook stripe env body sig (table_after first) in
    table_after second = table_after first ∧
    store_writes (effects_of second) = [].

(** Write suppression on the cancel path: with the stored status and expiry
    already equal to the computed ones, nothing is written. *)
Definition cancel_suppresses_writes : Prop :=
  ∀ stripe uid (t : Table) p sub,
    t !! uid = Some p →
    column_truthy (subscription_id p) = true →
    subscriptions_update stripe (default "" (subscription_id p)) true
      = Normal sub →
    subscription_status p = Some "active_until_period_end" →
    expires_at_guarded
      (resolve_period_end (sub_current_period_end sub)
         (sub_billing_cycle_anchor sub))
      = Normal (subscription_expires_at p) →
    store_writes (effects_of (cancel stripe uid t)) = [].

(* ===================================================================== *)
(** ** Sample data *)
(* ===================================================================== *)

Definition sub_active : Subscription :=
  {| sub_id := "sub_1"; sub_status := "active"; sub_customer := "cus_1";
     sub_current_period_end := JNumber 1700000000;
     sub_cancel_at_period_end := JBool false;
     sub_billing_cycle_anchor := JNumber 1697408000 |}.

Definition sub_cancelling : Subscription :=
  {| sub_id := "sub_1"; sub_status := "active"; sub_customer := "cus_1";
     sub_current_period_end := JNumber 1700000000;
     sub_cancel_at_period_end := JBool true;
     sub_billing_cycle_anchor := JNumber 1697408000 |}.

Definition sub_past_due : Subscription :=
  {| sub_id := "sub_1"; sub_status := "past_due"; sub_customer := "cus_1";
     sub_current_period_end := JNumber 1700000000;
     sub_cancel_at_period_end := JBool false;
     sub_billing_cycle_anchor := JNumber 1697408000 |}.

(** An active subscription whose period end the provider left out. *)
Definition sub_no_period_end : Subscription :=
  {| sub_id := "sub_1"; sub_status := "active"; sub_customer := "cus_1";
     sub_current_period_end := JUndefined;
     sub_cancel_at_period_end := JBool false;
     sub_billing_cycle_anchor := JUndefined |}.

(** A client that answers every subscription call with [sub] and accepts
    exactly the signature [good], for which the body parses to [event]. *)
Definition sample_stripe (sub : Subscription) (event : Event) : StripeClient :=
  {| setupIntents_retrieve := λ _,
       Normal {| si_payment_method := JString "pm_1"; si_status := "succeeded" |};
     paymentMethods_list := λ _, Normal ["pm_1"];
     subscriptions_create := λ _ _ _, Normal sub;
     subscriptions_retrieve := λ _, Normal sub;
     subscriptions_update := λ _ _, Normal sub;
     webhooks_constructEvent := λ _ sig _,
       match sig with
       | JString "good" => Normal event
       | _ => Throw "No signatures found matching the expected signature"
       end |}.

Definition sample_env : Env :=
  {| STRIPE_PRICE_ID := JString "price_1";
     STRIPE_WEBHOOK_SECRET := JString "whsec_1" |}.

Definition deleted_event : Event :=
  {| ev_type := "customer.subscription.deleted"; ev_object := sub_active |}.

Definition updated_event (sub : Subscription) : Event :=
  {| ev_type := "customer.subscription.updated"; ev_object := sub |}.

Definition profile_active : Profile :=
  {| stripe_customer_id := Some "cus_1"; subscription_id := Some "sub_1";
     subscription_status := Some "active";
     subscription_expires_at := Some "2023-11-14T22:13:20.000Z" |}.

Definition profile_cancelling : Profile :=
  {| stripe_customer_id := Some "cus_1"; subscription_id := Some "sub_1";
     subscription_status := Some "active_until_period_end";
     subscription_expires_at := Some "2023-11-14T22:13:20.000Z" |}.

Definition profile_fresh : Profile :=
  {| stripe_customer_id := Some "cus_2"; subscription_id := None;
     subscription_status := Some "inactive";
     subscription_expires_at := None |}.

Definition sample_table (p : Profile) : Table :=
  <["user_1" := p]> {["user_2" := profile_fresh]}.

(* ===================================================================== *)
(** ** The middleware (src/middleware/auth.ts) *)
(* ===================================================================== *)

(** [s.substring(n)] *)
Fixpoint string_drop (n : nat) (s : string) : string :=
  match n, s with
  | O, _ => s
  | S n', String _ s' => string_drop n' s'
  | S _, EmptyString => EmptyString
  end.

(** [s.replace(pat, '')] for a string pattern: the first occurrence of
    [pat] is removed, a string without one is returned as it is. *)
Fixpoint remove_first (pat s : string) : string :=
  if String.prefix pat s then string_drop (String.length pat) s
  else match s with
       | EmptyString => EmptyString
       | String c s' => String c (remove_first pat s')
       end.

(** [req.headers.authorization?.replace('Bearer ', '')]; [None] is
    [undefined]. *)
Definition bearer_token (authorization : option string) : option string :=
  remove_first "Bearer " <$> authorization.

(** The user [supabase.auth.getUser] resolves a token to. *)
Record AuthUser : Type := mkAuthUser {
  au_id : string;
  au_email : string
}.

(** [req.user] *)
Record ReqUser : Type := mkReqUser {
  ru_id : string;
  ru_email : string;
  ru_subscription_status : string
}.

(** What a middleware does with a request: pass it on with [next()], or
    answer it. *)
Inductive Passed (A : Type) : Type :=
| Next (a : A)
| Respond (r : Response).
Arguments Next {A} a.
Arguments Respond {A} r.

(** [authenticateUser].  [getUser token] is [supabase.auth.getUser(token)]:
    it returns the user, returns none (an error, or no user), or throws. *)
Definition authenticateUser (getUser : string → Completion (option AuthUser))
  (authorization : option string) (t : Table) : Passed ReqUser :=
  match bearer_token authorization with
  | None => Respond (error_response 401 "No token provided")
  | Some token =>
      if String.eqb token ""
      then Respond (error_response 401 "No token provided")
      else
        match getUser token with
        | Throw _ => Respond (error_response 401 "Authentication failed")
        | Normal None => Respond (error_response 401 "Invalid token")
        | Normal (Some user) =>
            let profile := t !! au_id user in
            let status :=
              match profile with
              | Some p => subscription_status p
              | None => None
              end in
            Next {| ru_id := au_id user; ru_email := au_email user;
                    ru_subscription_status :=
                      if column_truthy status then default "" status
                      else "inactive" |}
        end
  end.

(** [requireActiveSubscription] *)
Definition requireActiveSubscription (user : ReqUser) : Passed ReqUser :=
  let status := ru_subscription_status user in
  if String.eqb status "active" || String.eqb status "active_until_period_end"
  then Next user
  else Respond {| res_status := 403;
                  res_body := [("error", JString "Active subscription required");
                               ("subscription_status", JString status)] |}.

(** [router.use(authenticateUser, requireActiveSubscription)], the chain in
    front of the drinks, intake and user routes. *)
Definition authenticated_subscriber
  (getUser : string → Completion (option AuthUser))
  (authorization : option string) (t : Table) : Passed ReqUser :=
  match authenticateUser getUser authorization t with
  | Next user => requireActiveSubscription user
  | Respond r => Respond r
  end.

(* ===================================================================== *)
(** ** POST /setup-intent *)
(* ===================================================================== *)

Record CreatedSetupIntent : Type := mkCreatedSetupIntent {
  csi_client_secret : JsValue;
  csi_id : string
}.

(** The two client calls of the route: [customers.create] with the user's
    email and id, returning the new customer's id, and
    [setupIntents.create] for a customer. *)
Record SetupClient : Type := mkSetupClient {
  customers_create : string → string → Completion string;
  setupIntents_create : string → Completion CreatedSetupIntent
}.

Inductive SetupEffect : Type :=
| CustomersCreate (email user_id : string)
| ProfileUpsert (id email customer_id : string)
| SetupIntentsCreate (customer : string).

(** [.upsert({id, email, stripe_customer_id})]: the row with that [id] gets
    the customer id; without such a row one is inserted, its other columns
    at the table's defaults. *)
Definition upsert_customer (defaults : Profile) (uid customer_id : string)
  (t : Table) : Table :=
  let row := default defaults (t !! uid) in
  <[uid := {| stripe_customer_id := Some customer_id;
              subscription_id := subscription_id row;
              subscription_status := subscription_status row;
              subscription_expires_at := subscription_expires_at row |}]> t.

(** The end of the route, once [customer_id] is known. *)
Definition setup_intent_for (client : SetupClient) (customer_id : string)
  : Response * list SetupEffect :=
  match setupIntents_create client customer_id with
  | Normal setupIntent =>
      (json [("client_secret", csi_client_secret setupIntent);
             ("customer_id", JString customer_id);
             ("setup_intent_id", JString (csi_id setupIntent))],
       [SetupIntentsCreate customer_id])
  | Throw _ =>
      (error_response 500 "Failed to create setup intent",
       [SetupIntentsCreate customer_id])
  end.

(** POST /setup-intent for the authenticated user [uid] with [email]. *)
Definition setup_intent (client : SetupClient) (defaults : Profile)
  (uid email : string) (t : Table) : Response * Table * list SetupEffect :=
  let stored :=
    match t !! uid with
    | Some p => stripe_customer_id p
    | None => None
    end in
  if column_truthy stored
  then
    let '(r, es) := setup_intent_for client (default "" stored) in (r, t, es)
  else
    match customers_create client email uid with
    | Throw _ =>
        (error_response 500 "Failed to create setup intent", t,
         [CustomersCreate email uid])
    | Normal customer_id =>
        let t1 := upsert_customer defaults uid customer_id t in
        let '(r, es) := setup_intent_for client customer_id in
        (r, t1,
         (CustomersCreate email uid :: ProfileUpsert uid email customer_id
          :: es)%list)
    end.

(* ===================================================================== *)
(** ** Totals of the intake routes (src/routes/intake.ts) *)
(* ===================================================================== *)

(** A row of the logs a query returns, as far as the totals read it:
    [log.date] and [log.total_caffeine]. *)
Record LogRow : Type := mkLogRow {
  log_date : string;
  log_total_caffeine : float
}.

(** GET /daily/:date:
    [data.reduce((sum, log) => sum + log.total_caffeine, 0)] *)
Definition totalCaffeine (data : list LogRow) : float :=
  fold_left (λ sum log, (sum + log_total_caffeine log)%float) data 0%float.

(** A running total read as a condition; no total yet is [undefined]. *)
Definition entry_truthy (v : option float) : bool :=
  match v with
  | Some n => negb (PrimFloat.is_zero n || PrimFloat.is_nan n)
  | None => false
  end.

(** The names every object inherits from [Object.prototype]: the
    accumulator [{}] of GET /history answers to them before it has any key
    of its own. *)
Definition object_prototype_names : list string :=
  ["constructor"; "hasOwnProperty"; "isPrototypeOf"; "propertyIsEnumerable";
   "toLocaleString"; "toString"; "valueOf"; "__defineGetter__";
   "__defineSetter__"; "__lookupGetter__"; "__lookupSetter__"; "__proto__"].

Definition inherited_name (key : string) : bool :=
  existsb (String.eqb key) object_prototype_names.

(** The texts the addition operator asks the engine for: ToString of a
    number, and ToPrimitive of what is inherited under a name (the source
    text of a built-in function, [[object Object]] for [__proto__]). *)
Record Texts : Type := mkTexts {
  number_text : float → string;
  inherited_text : string → string
}.

(** [acc[key]]: an own property, else what [Object.prototype] has under
    the name, else [undefined]. *)
Inductive Property : Type :=
| Own (v : JsValue)
| Inherited (key : string)
| Absent.

Definition get_property (acc : gmap string JsValue) (key : string) : Property :=
  match acc !! key with
  | Some v => Own v
  | None => if inherited_name key then Inherited key else Absent
  end.

(** [acc[key]] read as a condition: functions and objects are truthy. *)
Definition property_truthy (p : Property) : bool :=
  match p with
  | Own v => truthy v
  | Inherited _ => true
  | Absent => false
  end.

(** [acc[key] = v] for a primitive [v]: an own property is defined, except
    under [__proto__], whose setter ignores a value that is neither an
    object nor null. *)
Definition set_property (acc : gmap string JsValue) (key : string) (v : JsValue)
  : gmap string JsValue :=
  if String.eqb key "__proto__" then acc else <[key := v]> acc.

(** [acc[key] + x] with a number [x] on the right: a string or an object
    on the left concatenates. *)
Definition add_number (texts : Texts) (p : Property) (x : float) : JsValue :=
  match p with
  | Own (JNumber n) => JNumber (n + x)%float
  | Own (JString s) => JString (s +:+ number_text texts x)
  | Own (JBool true) => JNumber (1 + x)%float
  | Own (JBool false) | Own JNull => JNumber (0 + x)%float
  | Own JUndefined | Absent => JNumber (PrimFloat.nan + x)%float
  | Inherited key => JString (inherited_text texts key +:+ number_text texts x)
  end.

(** GET /history, one step of the reduce:

      if (!acc[log.date]) { acc[log.date] = 0; }
      acc[log.date] += log.total_caffeine;
*)
Definition history_step (texts : Texts) (acc : gmap string JsValue)
  (log : LogRow) : gmap string JsValue :=
  let acc1 :=
    if negb (property_truthy (get_property acc (log_date log)))
    then set_property acc (log_date log) (JNumber 0)
    else acc in
  set_property acc1 (log_date log)
    (add_number texts (get_property acc1 (log_date log))
       (log_total_caffeine log)).

(** [data.reduce(..., {})] *)
Definition dailyTotals (texts : Texts) (data : list LogRow)
  : gmap string JsValue :=
  fold_left (history_step texts) data ∅.

(** The sum [dailyTotals] keeps for one date: a running total that is zero
    or NaN starts again from 0. *)
Definition restarting_sum (totals : list float) : float :=
  fold_left (λ sum x,
               ((if PrimFloat.is_zero sum || PrimFloat.is_nan sum
                 then 0 else sum) + x)%float)
    totals 0%float.

(** The totals of the logs of one date, in the order of the logs. *)
Definition totals_on (date : string) (data : list LogRow) : list float :=
  log_total_caffeine <$> List.filter (λ log, String.eqb (log_date log) date) data.

(** Texts as an engine gives them, for three whole numbers. *)
Definition sample_texts : Texts :=
  {| number_text := λ x,
       if PrimFloat.eqb x 120 then "120"
       else if PrimFloat.eqb x 80 then "80"
       else if PrimFloat.eqb x 95 then "95" else "0";
     inherited_text := λ key, "function " +:+ key +:+ "() { [native code] }" |}.

Definition sample_logs : list LogRow :=
  [ {| log_date := "2024-05-02"; log_total_caffeine := 120 |};
    {| log_date := "2024-05-01"; log_total_caffeine := 80 |};
    {| log_date := "2024-05-02"; log_total_caffeine := 95 |} ].

(* ===================================================================== *)
(** ** Further relations on runs *)
(* ===================================================================== *)

(** Every row but the one of [uid] is what it was. *)
Definition others_kept (uid : string) (t t' : Table) : Prop :=
  ∀ k, k ≠ uid → t' !! k = t !! k.

(** The same rows exist, each with the customer id it had. *)
Definition customers_kept (t t' : Table) : Prop :=
  ∀ k, stripe_customer_id <$> t' !! k = stripe_customer_id <$> t !! k.

(** The completion of a run. *)
Definition answer_of {A} (run : Completion A * Table * list Effect)
  : Completion A :=
  fst (fst run).


(** A row with its status replaced. *)
Definition with_status (status : string) (p : Profile) : Profile :=
  {| stripe_customer_id := stripe_customer_id p;
     subscription_id := subscription_id p;
     subscription_status := Some status;
     subscription_expires_at := subscription_expires_at p |}.

(** A row reconciled with an active subscription object: the computed
    status, and the computed expiry when there is one. *)
Definition reconciled (sub : Subscription) (p : Profile) : Profile :=
  {| stripe_customer_id := stripe_customer_id p;
     subscription_id := subscription_id p;
     subscription_status := Some (computed_status sub);
     subscription_expires_at :=
       if column_truthy (computed_expires_at sub)
       then computed_expires_at sub
       else subscription_expires_at p |}.

(** The update data /create writes for the subscription it created. *)
Definition created_update (sub : Subscription) : UpdateData :=
  let updateData0 : UpdateData :=
    <["subscription_status" := Some (sub_status sub)]>
      {["subscription_id" := Some (sub_id sub)]} in
  if column_truthy (computed_expires_at sub)
  then <["subscription_expires_at" := computed_expires_at sub]> updateData0
  else updateData0.

(** The answer of /create for the subscription it created. *)
Definition created_response (sub : Subscription) : Response :=
  json [("subscription_id", JString (sub_id sub));
        ("status", JString (sub_status sub));
        ("current_period_end",
         resolve_period_end (sub_current_period_end sub)
           (sub_billing_cycle_anchor sub));
        ("expires_at", js_of_column (computed_expires_at sub))].

(** The two stages of /create after the check of [customer_id]: settling
    on [defaultPaymentMethod], and subscribing with it. *)
Definition choose_payment_method (stripe : StripeClient)
  (customer_id setup_intent_id : JsValue) : Handler JsValue :=
  fromIntent ←
    (if truthy setup_intent_id
     then
       setupIntent ← provider (SetupIntentsRetrieve setup_intent_id)
                       (setupIntents_retrieve stripe setup_intent_id);
       mret (if truthy (si_payment_method setupIntent)
                && String.eqb (si_status setupIntent) "succeeded"
             then si_payment_method setupIntent else JNull)
     else mret JNull);
  (if negb (truthy fromIntent)
   then
     paymentMethods ← provider (PaymentMethodsList customer_id)
                        (paymentMethods_list stripe customer_id);
     mret (match paymentMethods with
           | pm :: _ => JString pm
           | [] => fromIntent
           end)
   else mret fromIntent).

Definition subscribe_with (stripe : StripeClient) (env : Env) (uid : string)
  (customer_id defaultPaymentMethod : JsValue) : Handler Response :=
  if negb (truthy defaultPaymentMethod)
  then mret (error_response 400 "No payment method found")
  else
    subscription ←
      provider (SubscriptionsCreate customer_id (STRIPE_PRICE_ID env)
                  defaultPaymentMethod)
        (subscriptions_create stripe customer_id (STRIPE_PRICE_ID env)
           defaultPaymentMethod);
    if String.eqb (sub_status subscription) "active"
    then
      let periodEnd :=
        resolve_period_end (sub_current_period_end subscription)
          (sub_billing_cycle_anchor subscription) in
      expiresAt ← lift (expires_at_guarded periodEnd);
      let updateData0 : UpdateData :=
        <["subscription_status" := Some (sub_status subscription)]>
          {["subscription_id" := Some (sub_id subscription)]} in
      let updateData : UpdateData :=
        if column_truthy expiresAt
        then <["subscription_expires_at" := expiresAt]> updateData0
        else updateData0 in
      _ ← store_update (EqId uid) updateData;
      mret (json [("subscription_id", JString (sub_id subscription));
                  ("status", JString (sub_status subscription));
                  ("current_period_end", periodEnd);
                  ("expires_at", js_of_column expiresAt)])
    else mret (error_response 400 "Subscription creation failed").

(** The setup intent of the request yields no payment method: no id was
    sent, or the intent has no payment method or has not succeeded. *)
Definition intent_gives_nothing (stripe : StripeClient)
  (setup_intent_id : JsValue) : Prop :=
  truthy setup_intent_id = false ∨
  ∃ setupIntent,
    truthy setup_intent_id = true ∧
    setupIntents_retrieve stripe setup_intent_id = Normal setupIntent ∧
    truthy (si_payment_method setupIntent)
    && String.eqb (si_status setupIntent) "succeeded" = false.

(** The retrieval that precedes the listing of the customer's cards. *)
Definition intent_effects (setup_intent_id : JsValue) : list Effect :=
  if truthy setup_intent_id then [SetupIntentsRetrieve setup_intent_id] else [].

(** The payment method /create settles on, read off the provider's
    answers: the one of a setup intent that succeeded, or else the first of
    the customer's cards, when its id is not the empty string. *)
Definition payment_method_chosen (stripe : StripeClient)
  (customer_id setup_intent_id pm : JsValue) : Prop :=
  (∃ setupIntent,
      truthy setup_intent_id = true ∧
      setupIntents_retrieve stripe setup_intent_id = Normal setupIntent ∧
      truthy (si_payment_method setupIntent) = true ∧
      si_status setupIntent = "succeeded" ∧
      pm = si_payment_method setupIntent) ∨
  (intent_gives_nothing stripe setup_intent_id ∧
   ∃ card more,
     paymentMethods_list stripe customer_id = Normal (card :: more) ∧
     card ≠ "" ∧ pm = JString card).

(** The provider reads that precede the creation of the subscription. *)
Definition choice_effects (stripe : StripeClient)
  (customer_id setup_intent_id : JsValue) : list Effect :=
  if truthy setup_intent_id
  then
    match setupIntents_retrieve stripe setup_intent_id with
    | Normal setupIntent =>
        if truthy (si_payment_method setupIntent)
           && String.eqb (si_status setupIntent) "succeeded"
        then [SetupIntentsRetrieve setup_intent_id]
        else [SetupIntentsRetrieve setup_intent_id;
              PaymentMethodsList customer_id]
    | Throw _ => [SetupIntentsRetrieve setup_intent_id]
    end
  else [PaymentMethodsList customer_id].

(** The row /create leaves for the subscription it created. *)
Definition created_row (sub : Subscription) (p : Profile) : Profile :=
  {| stripe_customer_id := stripe_customer_id p;
     subscription_id := Some (sub_id sub);
     subscription_status := Some (sub_status sub);
     subscription_expires_at :=
       if column_truthy (computed_expires_at sub)
       then computed_expires_at sub
       else subscription_expires_at p |}.

(* ===================================================================== *)
(** ** Reading the ISO format back *)
(* ===================================================================== *)

Definition is_digit (c : ascii) : bool :=
  let n := nat_of_ascii c in (48 <=? n)%nat && (n <=? 57)%nat.

Definition digit_value (c : ascii) : Z := Z.of_nat (nat_of_ascii c) - 48.

(** Exactly [width] decimal digits at the head of [s]: their value, read
    after [acc], and the rest of [s]. *)
Fixpoint read_digits (width : nat) (acc : Z) (s : string) : option (Z * string) :=
  match width with
  | O => Some (acc, s)
  | S w =>
      match s with
      | String c rest =>
          if is_digit c then read_digits w (10 * acc + digit_value c) rest
          else None
      | EmptyString => None
      end
  end.

(** The character [c] at the head of [s]: the rest of [s]. *)
Definition expect (c : ascii) (s : string) : option string :=
  match s with
  | String c' rest => if Ascii.eqb c' c then Some rest else None
  | EmptyString => None
  end.

(** The year: six digits after a sign, or four digits. *)
Definition read_year (s : string) : option (Z * string) :=
  match s with
  | String c rest =>
      if Ascii.eqb c "+" then read_digits 6 0 rest
      else if Ascii.eqb c "-"
           then '(y, rest') ← read_digits 6 0 rest; Some (- y, rest')
           else read_digits 4 0 s
  | EmptyString => None
  end.

(** The fields a string in the format YYYY-MM-DDTHH:mm:ss.sssZ (or with
    an expanded year) is read as. *)
Definition parse_iso (s : string) : option DateFields :=
  '(year, s) ← read_year s;
  s ← expect "-" s;
  '(month, s) ← read_digits 2 0 s;
  s ← expect "-" s;
  '(date, s) ← read_digits 2 0 s;
  s ← expect "T" s;
  '(hours, s) ← read_digits 2 0 s;
  s ← expect ":" s;
  '(minutes, s) ← read_digits 2 0 s;
  s ← expect ":" s;
  '(seconds, s) ← read_digits 2 0 s;
  s ← expect "." s;
  '(ms, s) ← read_digits 3 0 s;
  s ← expect "Z" s;
  if String.eqb s "" then
    Some {| f_year := year; f_month := month - 1; f_date := date;
            f_hours := hours; f_minutes := minutes; f_seconds := seconds;
            f_ms := ms |}
  else None.

(** Fields that the format prints in full. *)
Definition printable (f : DateFields) : Prop :=
  -999999 <= f_year f <= 999999 ∧ 0 <= f_month f <= 11 ∧
  1 <= f_date f <= 31 ∧ 0 <= f_hours f <= 23 ∧ 0 <= f_minutes f <= 59 ∧
  0 <= f_seconds f <= 59 ∧ 0 <= f_ms f <= 999.

(** The status [authenticateUser] reads for a user: the stored one, or
    'inactive' when there is no row or the column is NULL or empty. *)
Definition effective_status (t : Table) (uid : string) : string :=
  let stored :=
    match t !! uid with
    | Some p => subscription_status p
    | None => None
    end in
  if column_truthy stored then default "" stored else "inactive".

(** The answer of [requireActiveSubscription] to a user it turns away. *)
Definition subscription_required (status : string) : Response :=
  {| res_status := 403;
     res_body := [("error", JString "Active subscription required");
                  ("subscription_status", JString status)] |}.

(** A token service that knows one token, the one of [user_1]. *)
Definition sample_getUser (token : string) : Completion (option AuthUser) :=
  if String.eqb token "tok_1"
  then Normal (Some {| au_id := "user_1"; au_email := "user_1@example.com" |})
  else Normal None.

(** The customer id a user's row holds. *)
Definition stored_customer (t : Table) (uid : string) : option string :=
  match t !! uid with
  | Some p => stripe_customer_id p
  | None => None
  end.

(** A row with its customer id replaced. *)
Definition with_customer (customer_id : string) (p : Profile) : Profile :=
  {| stripe_customer_id := Some customer_id;
     subscription_id := subscription_id p;
     subscription_status := subscription_status p;
     subscription_expires_at := subscription_expires_at p |}.

(** A client of the setup route that creates customer [cus_9] and a setup
    intent for whoever asks. *)
Definition sample_setup_client : SetupClient :=
  {| customers_create := λ _ _, Normal "cus_9";
     setupIntents_create := λ _,
       Normal {| csi_client_secret := JString "seti_1_secret";
                 csi_id := "seti_1" |} |}.

Definition profile_new : Profile :=
  {| stripe_customer_id := None; subscription_id := None;
     subscription_status := None; subscription_expires_at := None |}.

(** Every row of the table satisfies [I]. *)
Definition all_rows (I : Profile → Prop) (t : Table) : Prop :=
  ∀ k p, t !! k = Some p → I p.

(** The runs that keep [I] on every row. *)
Definition keeps_rows (I : Profile → Prop) (t t' : Table) : Prop :=
  all_rows I t → all_rows I t'.

(** A property of rows that does not look at the customer id. *)
Definition ignores_customer (I : Profile → Prop) : Prop :=
  ∀ p q, subscription_id p = subscription_id q →
         subscription_status p = subscription_status q →
         subscription_expires_at p = subscription_expires_at q →
         I p → I q.

(** Column defaults under which a new row counts as never subscribed. *)
Definition defaults_inactive : Profile :=
  {| stripe_customer_id := None; subscription_id := None;
     subscription_status := Some "inactive";
     subscription_expires_at := None |}.

(** The status column holds one of the four canonical statuses. *)
Definition canonical_status (p : Profile) : Prop :=
  subscription_status p = Some "inactive" ∨
  subscription_status p = Some "active" ∨
  subscription_status p = Some "active_until_period_end" ∨
  subscription_status p = Some "cancelled".

(** A row whose status is 'inactive' or 'cancelled' holds no subscription
    id and no expiry. *)
Definition cleared_when_inactive (p : Profile) : Prop :=
  subscription_status p = Some "inactive" ∨
  subscription_status p = Some "cancelled" →
  subscription_id p = None ∧ subscription_expires_at p = None.

(* ===================================================================== *)
(** ** The day of a log (src/routes/intake.ts) *)
(* ===================================================================== *)

(** [s.split('T')[0]]: what precedes the first 'T'. *)
Fixpoint before_T (s : string) : string :=
  match s with
  | EmptyString => EmptyString
  | String c rest => if Ascii.eqb c "T" then EmptyString
                     else String c (before_T rest)
  end.

(** The two columns POST / and PUT /:id derive from [consumedDate]:

      consumed_at: consumedDate.toISOString(),
      date: consumedDate.toISOString().split('T')[0],

    [toISOString] throws on an invalid date. *)
Definition log_dates (consumedDate : TimeValue) : Completion (string * string) :=
  match Date_toISOString consumedDate with
  | Normal consumed_at =>
      match Date_toISOString consumedDate with
      | Normal iso => Normal (consumed_at, before_T iso)
      | Throw e => Throw e
      end
  | Throw e => Throw e
  end.

(** GET /daily/:date: [/^\d{4}-\d{2}-\d{2}$/.test(date)] *)
Definition daily_date_ok (date : string) : bool :=
  match
    '(_, s) ← read_digits 4 0 date;
    s ← expect "-" s;
    '(_, s) ← read_digits 2 0 s;
    s ← expect "-" s;
    read_digits 2 0 s
  with
  | Some (_, rest) => String.eqb rest ""
  | None => false
  end.

(** The calendar day of a time value, as YYYY-MM-DD with the year of the
    ISO format. *)
Definition utc_day (t : Z) : string :=
  iso_year (YearFromTime t) +:+ "-" +:+ pad 2 (MonthFromTime t + 1) +:+ "-"
  +:+ pad 2 (DateFromTime t).

(* ===================================================================== *)
(** ** The calendar of the Date object *)
(* ===================================================================== *)

Section Calendar.

Lemma DayFromYear_succ y : DayFromYear (y + 1) = DayFromYear y + DaysInYear y.
Proof.
  unfold DayFromYear, DaysInYear.
  destruct (Z.eqb_spec (y mod 4) 0), (Z.eqb_spec (y mod 100) 0),
    (Z.eqb_spec (y mod 400) 0); cbn [negb];
    Z.div_mod_to_equations; lia.
Qed.

Lemma DaysInYear_cases y : DaysInYear y = 365 ∨ DaysInYear y = 366.
Proof.
  unfold DaysInYear.
  repeat match goal with
         | |- context [negb (?a =? ?b)] => destruct (Z.eqb_spec a b); cbn [negb]
         end; auto.
Qed.

Lemma DayFromYear_mono y y' : y <= y' → DayFromYear y <= DayFromYear y'.
Proof. unfold DayFromYear. intros. Z.div_mod_to_equations. lia. Qed.

(** The year computed is the one whose days contain [Day t]. *)
Lemma YearFromTime_bounds t :
  DayFromYear (YearFromTime t) <= Day t < DayFromYear (YearFromTime t + 1).
Proof.
  unfold YearFromTime. generalize (Day t). intros d. cbv zeta.
  destruct (Z.ltb_spec d (DayFromYear (1970 + 400 * d / 146097))) as [Hlt|Hge].
  - unfold DayFromYear in *. Z.div_mod_to_equations. lia.
  - destruct (Z.leb_spec (DayFromYear (1970 + 400 * d / 146097 + 1)) d).
    + unfold DayFromYear in *. Z.div_mod_to_equations. lia.
    + lia.
Qed.

Lemma TimeFromYear_le y t : TimeFromYear y <= t ↔ DayFromYear y <= Day t.
Proof.
  unfold TimeFromYear, Day, msPerDay. generalize (DayFromYear y). intros D.
  split; intros; Z.div_mod_to_equations; lia.
Qed.

(** ECMA-262: YearFromTime(t) is the largest integer [y] such that
    TimeFromYear(y) <= t. *)
Lemma YearFromTime_spec t :
  TimeFromYear (YearFromTime t) <= t ∧
  ∀ y, TimeFromYear y <= t → y <= YearFromTime t.
Proof.
  pose proof (YearFromTime_bounds t) as [Hlo Hhi]. split.
  - by apply TimeFromYear_le.
  - intros y Hy. apply TimeFromYear_le in Hy.
    destruct (Z.le_gt_cases y (YearFromTime t)) as [|Hgt]; [done|].
    pose proof (DayFromYear_mono (YearFromTime t + 1) y). lia.
Qed.

Lemma DayWithinYear_range t :
  0 <= DayWithinYear t < 365 + InLeapYear t.
Proof.
  unfold DayWithinYear, InLeapYear.
  pose proof (YearFromTime_bounds t) as [Hlo Hhi].
  rewrite DayFromYear_succ in Hhi.
  destruct (DaysInYear_cases (YearFromTime t)) as [E|E]; rewrite E in *;
    cbn; lia.
Qed.

Lemma MonthFromTime_range t : 0 <= MonthFromTime t <= 11.
Proof.
  unfold MonthFromTime. cbv zeta.
  repeat match goal with
         | |- context [?a <? ?b] => destruct (Z.ltb_spec a b)
         end; lia.
Qed.

(** The calendar fields of a day recompose to that day. *)
Lemma MakeDay_fields t :
  MakeDay (YearFromTime t) (MonthFromTime t) (DateFromTime t) = Day t.
Proof.
  pose proof (DayWithinYear_range t) as Hr.
  unfold MakeDay, DaysBeforeMonth, DateFromTime, MonthFromTime in *.
  fold (InLeapYear t). cbv zeta.
  unfold DayWithinYear in *.
  generalize dependent (InLeapYear t). intros l Hr.
  repeat match goal with
         | |- context [?a <? ?b] => destruct (Z.ltb_spec a b)
         end; lia.
Qed.

Lemma DateFromTime_range t : 1 <= DateFromTime t <= 31.
Proof.
  pose proof (DayWithinYear_range t) as Hr.
  assert (Hl : InLeapYear t = 0 ∨ InLeapYear t = 1).
  { unfold InLeapYear. destruct (_ =? _); auto. }
  unfold DateFromTime, MonthFromTime. cbv zeta.
  generalize dependent (InLeapYear t). generalize (DayWithinYear t).
  intros d l Hr Hl.
  repeat match goal with
         | |- context [?a <? ?b] => destruct (Z.ltb_spec a b)
         end; lia.
Qed.

Lemma MakeTime_fields t :
  MakeTime (HourFromTime t) (MinFromTime t) (SecFromTime t) (msFromTime t)
  = TimeWithinDay t.
Proof.
  unfold MakeTime, HourFromTime, MinFromTime, SecFromTime, msFromTime,
    TimeWithinDay, msPerHour, msPerMinute, msPerSecond, msPerDay.
  Z.div_mod_to_equations. lia.
Qed.

Lemma time_fields_range t :
  0 <= HourFromTime t <= 23 ∧ 0 <= MinFromTime t <= 59 ∧
  0 <= SecFromTime t <= 59 ∧ 0 <= msFromTime t <= 999.
Proof.
  unfold HourFromTime, MinFromTime, SecFromTime, msFromTime,
    msPerHour, msPerMinute, msPerSecond.
  repeat split; Z.div_mod_to_equations; lia.
Qed.

(** The fields that [toISOString] prints denote the time value itself. *)
Lemma time_of_fields_of_time t : time_of_fields (fields_of_time t) = t.
Proof.
  unfold time_of_fields, fields_of_time; cbn [f_year f_month f_date f_hours
    f_minutes f_seconds f_ms].
  rewrite MakeDay_fields, MakeTime_fields.
  unfold MakeDate, Day, TimeWithinDay, msPerDay.
  Z.div_mod_to_equations. lia.
Qed.

(** Within the range of time values the year fits the six digits of the
    expanded format. *)
Lemma YearFromTime_range t :
  -8640000000000000 <= t <= 8640000000000000 →
  -271821 <= YearFromTime t <= 275760.
Proof.
  intros Ht. pose proof (YearFromTime_bounds t) as [Hlo Hhi].
  assert (Hd : -100000000 <= Day t <= 100000000).
  { unfold Day, msPerDay. Z.div_mod_to_equations. lia. }
  split.
  - destruct (Z.le_gt_cases (-271821) (YearFromTime t)) as [|Hgt]; [done|].
    pose proof (DayFromYear_mono (YearFromTime t + 1) (-271821)).
    assert (DayFromYear (-271821) = -100000109) by reflexivity. lia.
  - destruct (Z.le_gt_cases (YearFromTime t) 275760) as [|Hgt]; [done|].
    pose proof (DayFromYear_mono 275761 (YearFromTime t)).
    assert (DayFromYear 275761 = 100000110) by reflexivity. lia.
Qed.

End Calendar.

(* ===================================================================== *)
(** ** The timestamp normalizer *)
(* ===================================================================== *)

Section Normalizer.

Lemma timestampToISOString_number n :
  timestampToISOString (JNumber n) =
  if PrimFloat.is_zero n || PrimFloat.is_nan n then Normal None
  else match Date_of_number (n * 1000)%float with
       | Some t => Normal (Some (format_iso (fields_of_time t)))
       | None => Normal None
       end.
Proof.
  unfold timestampToISOString, truthy, is_number, js_isNaN, Date_getTime.
  destruct (PrimFloat.is_zero n), (PrimFloat.is_nan n); cbn; try reflexivity.
  destruct (Date_of_number (n * 1000)%float); reflexivity.
Qed.

Lemma timestampToISOString_not_number v :
  is_number v = false → timestampToISOString v = Normal None.
Proof.
  unfold timestampToISOString. intros ->.
  rewrite orb_true_r. reflexivity.
Qed.

(** The helper returns; it never completes with an exception. *)
Lemma timestampToISOString_returns v :
  timestampToISOString v = Normal (iso_or_null v).
Proof.
  unfold iso_or_null. destruct v;
    try (rewrite timestampToISOString_not_number; reflexivity).
  rewrite timestampToISOString_number.
  destruct (_ || _); [reflexivity|].
  destruct (Date_of_number _); reflexivity.
Qed.

Lemma timestampToISOString_falsy v :
  truthy v = false → timestampToISOString v = Normal None.
Proof. unfold timestampToISOString. intros ->. reflexivity. Qed.

Lemma expires_at_guarded_eq v :
  expires_at_guarded v = timestampToISOString v.
Proof.
  unfold expires_at_guarded. destruct (truthy v) eqn:E; [reflexivity|].
  by rewrite timestampToISOString_falsy.
Qed.

(** Every input is either one of the unavailable ones or a valid number
    of seconds. *)
Lemma input_cases v : unavailable_input v ∨ ∃ t, valid_epoch_seconds v t.
Proof.
  destruct v as [| |b|n|s]; try (left; unfold unavailable_input; cbn; tauto).
  destruct (PrimFloat.is_nan n) eqn:Hnan.
  { left. do 3 right. exists n. tauto. }
  destruct (PrimFloat.is_zero n) eqn:Hzero.
  { left. do 3 right. exists n. tauto. }
  destruct (Date_of_number (n * 1000)%float) as [t|] eqn:Hd.
  - right. exists t, n. tauto.
  - left. do 3 right. exists n. tauto.
Qed.

(** C7. The timestamp normalizer is total and contains every bad input:
    it never throws; on null, undefined, a value that is not a number,
    NaN, zero, or a number of seconds whose Date is invalid it returns
    null; on every valid number of epoch seconds it returns the ISO-8601
    string of that instant, whose calendar fields denote exactly the time
    value of the Date. *)
Theorem timestampToISOString_contained (v : JsValue) :
  (∃ r, timestampToISOString v = Normal r) ∧
  (unavailable_input v → timestampToISOString v = Normal None) ∧
  (∀ t, valid_epoch_seconds v t →
        timestampToISOString v = Normal (Some (format_iso (fields_of_time t)))
        ∧ time_of_fields (fields_of_time t) = t).
Proof.
  split; [|split].
  - eexists. apply timestampToISOString_returns.
  - intros [ -> | [ -> | [ Hn | (n & -> & Hbad) ] ] ]; try reflexivity.
    + by apply timestampToISOString_not_number.
    + rewrite timestampToISOString_number.
      destruct Hbad as [ -> | [ -> | -> ] ]; rewrite ?orb_true_r; cbn [orb];
        try reflexivity.
      destruct (_ || _); reflexivity.
  - intros t (n & -> & Hnan & Hzero & Hd). split.
    + rewrite timestampToISOString_number, Hnan, Hzero, Hd. reflexivity.
    + apply time_of_fields_of_time.
Qed.

Lemma timestampToISOString_contained_witness :
  timestampToISOString (JNumber 0) = Normal None ∧
  timestampToISOString (JNumber PrimFloat.infinity) = Normal None ∧
  timestampToISOString (JNumber 1700000000) =
    Normal (Some "2023-11-14T22:13:20.000Z").
Proof.
  split; [|split].
  - apply (timestampToISOString_contained (JNumber 0)).
    do 3 right. exists 0%float. split; [reflexivity|].
    right. left. reflexivity.
  - apply (timestampToISOString_contained (JNumber PrimFloat.infinity)).
    do 3 right. exists PrimFloat.infinity. split; [reflexivity|].
    right. right. reflexivity.
  - destruct (timestampToISOString_contained (JNumber 1700000000))
      as (_ & _ & Hvalid).
    destruct (Hvalid 1700000000000) as [E _]; [|exact E].
    exists 1700000000%float. repeat split; reflexivity.
Defined.

End Normalizer.

(* ===================================================================== *)
(** ** The period-end fallback *)
(* ===================================================================== *)

Section PeriodEnd.

Lemma THIRTY_DAYS_seconds : THIRTY_DAYS = 2592000%float.
Proof. reflexivity. Qed.

Lemma truthy_present v : truthy v = true → present v = true.
Proof. destruct v; cbn; congruence. Qed.

(** C3, as stated, fails: a period end of 0 is present, yet the anchor
    replaces it. *)
Lemma resolver_zero_period_end_not_used : ¬ resolver_by_presence.
Proof.
  intros H.
  destruct (H (JNumber 0) (JNumber 1700000000)) as [Hused _].
  specialize (Hused eq_refl).
  apply (f_equal truthy) in Hused. vm_compute in Hused. discriminate.
Qed.

(** The anchors the fallback can take: the truthy values. *)
Lemma truthy_cases v :
  truthy v = true →
  v = JBool true ∨ (∃ T, v = JNumber T) ∨ (∃ s, v = JString s ∧ s ≠ "").
Proof.
  destruct v as [| |[|]|T|s]; cbn; try discriminate; eauto.
  intros H. right. right. exists s. split; [done|].
  intros ->. discriminate.
Qed.

(** C3, amended. A truthy [current_period_end] (present, not zero, not
    NaN) is the period end.  Otherwise a truthy anchor is taken, with
    [+ 2592000] applied as JavaScript applies it: a non-zero number [T]
    gives [T + 2592000]; [true] gives 2592001, whose expiry is
    1970-01-31T00:00:01.000Z; a non-empty string gives the string followed
    by the digits 2592000, for which no expiry is produced; and a truthy
    anchor is one of these three.  Otherwise (the anchor is absent, zero,
    NaN, [false] or the empty string) the period end stays the falsy
    [current_period_end] and no expiry is produced.  With both fields
    absent the period end is absent and so is the expiry. *)
Theorem resolve_period_end_fallback (current_period_end billing_cycle_anchor : JsValue) :
  let periodEnd := resolve_period_end current_period_end billing_cycle_anchor in
  (truthy current_period_end = true → periodEnd = current_period_end) ∧
  (truthy current_period_end = false →
   ∀ T, billing_cycle_anchor = JNumber T → truthy billing_cycle_anchor = true →
        periodEnd = JNumber (T + 2592000)%float) ∧
  (truthy current_period_end = false → billing_cycle_anchor = JBool true →
   periodEnd = JNumber 2592001 ∧
   expires_at_guarded periodEnd = Normal (Some "1970-01-31T00:00:01.000Z")) ∧
  (truthy current_period_end = false →
   ∀ s, billing_cycle_anchor = JString s → s ≠ "" →
        periodEnd = JString (s +:+ "2592000") ∧
        expires_at_guarded periodEnd = Normal None ∧
        timestampToISOString periodEnd = Normal None) ∧
  (truthy billing_cycle_anchor = true →
   billing_cycle_anchor = JBool true ∨
   (∃ T, billing_cycle_anchor = JNumber T) ∨
   (∃ s, billing_cycle_anchor = JString s ∧ s ≠ "")) ∧
  (truthy current_period_end = false → truthy billing_cycle_anchor = false →
   periodEnd = current_period_end ∧
   expires_at_guarded periodEnd = Normal None ∧
   timestampToISOString periodEnd = Normal None) ∧
  (present current_period_end = false → present billing_cycle_anchor = false →
   present periodEnd = false ∧
   expires_at_guarded periodEnd = Normal None ∧
   timestampToISOString periodEnd = Normal None).
Proof.
  cbv zeta. unfold resolve_period_end.
  split; [|split; [|split; [|split; [|split; [|split]]]]].
  - by intros ->.
  - intros -> T -> ->. reflexivity.
  - intros -> ->. cbn [truthy negb andb js_add_thirty_days].
    split; [reflexivity|]. vm_compute. reflexivity.
  - intros -> s -> Hs.
    assert (Hne : String.eqb s "" = false) by (by apply String.eqb_neq).
    cbn [truthy negb andb js_add_thirty_days]. rewrite Hne. cbn [negb].
    split; [reflexivity|].
    rewrite expires_at_guarded_eq.
    by rewrite timestampToISOString_not_number.
  - apply truthy_cases.
  - intros H1 H2. rewrite H1, H2. cbn [negb andb].
    rewrite expires_at_guarded_eq.
    by rewrite timestampToISOString_falsy.
  - intros H1 H2.
    assert (truthy current_period_end && true = false
            ∧ present current_period_end = false) as [Hc _]
      by (by destruct current_period_end).
    assert (Ha : truthy billing_cycle_anchor = false)
      by (by destruct billing_cycle_anchor).
    apply andb_false_iff in Hc as [Hc|?]; [|done].
    rewrite Hc, Ha. cbn [negb andb].
    rewrite expires_at_guarded_eq.
    by rewrite timestampToISOString_falsy.
Qed.

Lemma resolve_period_end_fallback_witness :
  resolve_period_end JUndefined (JNumber 1697408000) = JNumber 1700000000 ∧
  resolve_period_end (JNumber 1700000000) (JNumber 1697408000)
    = JNumber 1700000000 ∧
  resolve_period_end JUndefined (JBool true) = JNumber 2592001 ∧
  resolve_period_end JNull (JString "soon") = JString "soon2592000" ∧
  resolve_period_end (JNumber 0) (JNumber 0) = JNumber 0 ∧
  present (resolve_period_end JUndefined JNull) = false.
Proof.
  split; [|split; [|split; [|split; [|split]]]].
  - destruct (resolve_period_end_fallback JUndefined (JNumber 1697408000))
      as (_ & Hanchor & _).
    apply (Hanchor eq_refl 1697408000%float); reflexivity.
  - destruct (resolve_period_end_fallback (JNumber 1700000000)
                (JNumber 1697408000)) as (Hused & _).
    apply Hused. reflexivity.
  - destruct (resolve_period_end_fallback JUndefined (JBool true))
      as (_ & _ & Htrue & _).
    apply Htrue; reflexivity.
  - destruct (resolve_period_end_fallback JNull (JString "soon"))
      as (_ & _ & _ & Hstring & _).
    apply (Hstring eq_refl "soon"); [reflexivity|discriminate].
  - destruct (resolve_period_end_fallback (JNumber 0) (JNumber 0))
      as (_ & _ & _ & _ & _ & Hstays & _).
    apply Hstays; reflexivity.
  - destruct (resolve_period_end_fallback JUndefined JNull)
      as (_ & _ & _ & _ & _ & _ & Habsent).
    apply Habsent; reflexivity.
Defined.

End PeriodEnd.

(* ===================================================================== *)
(** ** Updates of the table *)
(* ===================================================================== *)

Section Store.

Implicit Types (t : Table) (data : UpdateData) (p : Profile).

Lemma set_column_idem col data old :
  set_column col data (set_column col data old) = set_column col data old.
Proof. unfold set_column. by destruct (data !! col). Qed.

Lemma apply_update_idem data p :
  apply_update data (apply_update data p) = apply_update data p.
Proof.
  unfold apply_update; cbn. by rewrite !set_column_idem.
Qed.

Lemma apply_update_customer data p :
  data !! "stripe_customer_id" = None →
  stripe_customer_id (apply_update data p) = stripe_customer_id p.
Proof. intros H. unfold apply_update, set_column; cbn. by rewrite H. Qed.

Lemma apply_update_expiry data p :
  subscription_expires_at (apply_update data p) =
  set_column "subscription_expires_at" data (subscription_expires_at p).
Proof. reflexivity. Qed.

Lemma lookup_update_id uid data t k :
  update_where (EqId uid) data t !! k =
  if decide (k = uid) then apply_update data <$> t !! k else t !! k.
Proof.
  cbn [update_where]. rewrite lookup_alter.
  destruct (decide (uid = k)), (decide (k = uid)); congruence.
Qed.

Lemma lookup_update_customer c data t k :
  update_where (EqStripeCustomerId c) data t !! k =
  (λ p, if bool_decide (stripe_customer_id p = Some c)
        then apply_update data p else p) <$> t !! k.
Proof. cbn [update_where]. by rewrite lookup_fmap. Qed.

(** Repeating an update keyed by the customer id changes nothing more,
    as long as the update leaves the customer id alone. *)
Lemma update_customer_idem c data t :
  data !! "stripe_customer_id" = None →
  update_where (EqStripeCustomerId c) data
    (update_where (EqStripeCustomerId c) data t)
  = update_where (EqStripeCustomerId c) data t.
Proof.
  intros Hc. apply map_eq. intros k.
  rewrite !lookup_update_customer.
  destruct (t !! k) as [p|]; cbn; [|done]. f_equal.
  destruct (bool_decide (stripe_customer_id p = Some c)) eqn:E.
  - rewrite apply_update_customer, E by done. apply apply_update_idem.
  - by rewrite E.
Qed.

Lemma update_where_dom flt data t k :
  is_Some (update_where flt data t !! k) ↔ is_Some (t !! k).
Proof.
  destruct flt.
  - rewrite lookup_update_id. destruct (decide _); [|done].
    by rewrite fmap_is_Some.
  - rewrite lookup_update_customer. by rewrite fmap_is_Some.
Qed.

(** An update that does not write NULL into the expiry column leaves
    every stored expiry in place or overwrites it with a value. *)
Lemma update_where_expiry_kept flt data t :
  keeps_expiry data → expiry_kept t (update_where flt data t).
Proof.
  unfold keeps_expiry, expiry_kept. intros Hk k.
  assert (Hrow : ∀ p, subscription_expires_at (apply_update data p) = None →
                      subscription_expires_at p = None).
  { intros p. rewrite apply_update_expiry. unfold set_column.
    destruct (data !! "subscription_expires_at") as [[|]|]; congruence. }
  destruct flt.
  - rewrite lookup_update_id.
    destruct (decide _), (t !! k); cbn; auto.
  - rewrite lookup_update_customer.
    destruct (t !! k) as [p|]; cbn; [|done].
    destruct (bool_decide _); auto.
Qed.

Lemma expiry_kept_refl t : expiry_kept t t.
Proof. intros k. by destruct (t !! k). Qed.

Lemma expiry_kept_trans t1 t2 t3 :
  expiry_kept t1 t2 → expiry_kept t2 t3 → expiry_kept t1 t3.
Proof.
  intros H12 H23 k. specialize (H12 k). specialize (H23 k).
  destruct (t1 !! k), (t2 !! k), (t3 !! k); tauto.
Qed.

Lemma expiry_kept_not_cleared t t' :
  expiry_kept t t' → ¬ expiry_cleared t t'.
Proof.
  intros Hk (k & p & p' & Hp & Hp' & Hsome & Hnone).
  specialize (Hk k). rewrite Hp, Hp' in Hk. auto.
Qed.

End Store.

(* ===================================================================== *)
(** ** Handlers that keep every stored expiry *)
(* ===================================================================== *)

Section Respects.

Context (R : Table → Table → Prop).
Hypothesis R_refl : ∀ t, R t t.
Hypothesis R_trans : ∀ t1 t2 t3, R t1 t2 → R t2 t3 → R t1 t3.

Lemma respects_ret {A} (a : A) : respects R (mret a).
Proof. intros t. apply R_refl. Qed.

Lemma respects_lift {A} (c : Completion A) : respects R (lift c).
Proof. intros t. apply R_refl. Qed.

Lemma respects_provider {A} e (c : Completion A) : respects R (provider e c).
Proof. intros t. apply R_refl. Qed.

Lemma respects_select_single uid : respects R (select_single uid).
Proof. intros t. apply R_refl. Qed.

Lemma respects_bind {A B} (m : Handler A) (k : A → Handler B) :
  respects R m → (∀ a, respects R (k a)) → respects R (m ≫= k).
Proof.
  intros Hm Hk t. specialize (Hm t).
  unfold mbind, handler_bind, table_after in *.
  destruct (m t) as [[[a|e] t1] es1]; cbn in *; [|done].
  specialize (Hk a t1). unfold table_after in Hk.
  destruct (k a t1) as [[r t2] es2]; cbn in *. eauto.
Qed.

Lemma respects_try_catch {A} (m h : Handler A) :
  respects R m → respects R h → respects R (try_catch m h).
Proof.
  intros Hm Hh t. specialize (Hm t).
  unfold try_catch, table_after in *.
  destruct (m t) as [[[a|e] t1] es1]; cbn in *; [done|].
  specialize (Hh t1). unfold table_after in Hh.
  destruct (h t1) as [[r t2] es2]; cbn in *. eauto.
Qed.

Lemma respects_if {A} (b : bool) (h1 h2 : Handler A) :
  respects R h1 → respects R h2 → respects R (if b then h1 else h2).
Proof. by destruct b. Qed.

End Respects.

(* ===================================================================== *)
(** ** What each route does *)
(* ===================================================================== *)

Ltac unfold_monad :=
  unfold mbind, mret, handler_bind, handler_ret, try_catch, select_single,
    provider, lift, store_update.

Section Routes.

Context (stripe : StripeClient) (env : Env).
Implicit Types (t : Table) (p : Profile) (sub : Subscription).

Lemma size_status_update status expiresAt with_expiry :
  size (status_update status expiresAt with_expiry)
  = if with_expiry then 2%nat else 1%nat.
Proof.
  unfold status_update. destruct with_expiry.
  - rewrite map_size_insert_None by done. by rewrite map_size_singleton.
  - by rewrite map_size_singleton.
Qed.

Lemma lookup_status_update status expiresAt with_expiry :
  status_update status expiresAt with_expiry !! "subscription_status"
  = Some (Some status).
Proof. unfold status_update. by destruct with_expiry. Qed.

Lemma lookup_status_update_expiry status expiresAt with_expiry :
  status_update status expiresAt with_expiry !! "subscription_expires_at"
  = if with_expiry then Some expiresAt else None.
Proof. unfold status_update. by destruct with_expiry. Qed.

Lemma lookup_status_update_customer status expiresAt with_expiry :
  status_update status expiresAt with_expiry !! "stripe_customer_id" = None.
Proof. unfold status_update. by destruct with_expiry. Qed.

(** *** GET /status *)

Lemma get_status_no_subscription uid t :
  column_truthy (profile_subscription_id (t !! uid)) = false →
  get_status stripe uid t
  = (Normal (json [("status", JString "inactive")]), t, []).
Proof.
  intros H. unfold get_status. unfold_monad.
  destruct (t !! uid) as [p|]; cbn in H; [|reflexivity].
  rewrite H. reflexivity.
Qed.

Lemma get_status_provider_error uid t p e :
  t !! uid = Some p →
  column_truthy (subscription_id p) = true →
  subscriptions_retrieve stripe (default "" (subscription_id p)) = Throw e →
  get_status stripe uid t
  = (Normal (error_response 500 "Failed to get subscription status"), t,
     [SubscriptionsRetrieve (default "" (subscription_id p))]).
Proof.
  intros Hp Hid Hr. unfold get_status. unfold_monad.
  rewrite Hp, Hid, Hr. reflexivity.
Qed.

Lemma get_status_inactive uid t p sub :
  t !! uid = Some p →
  column_truthy (subscription_id p) = true →
  subscriptions_retrieve stripe (default "" (subscription_id p)) = Normal sub →
  sub_status sub ≠ "active" →
  get_status stripe uid t
  = (Normal (json [("status", JString "inactive")]),
     update_where (EqId uid) (clearing_update "inactive") t,
     [SubscriptionsRetrieve (default "" (subscription_id p));
      StoreUpdate (EqId uid) (clearing_update "inactive")]).
Proof.
  intros Hp Hid Hr Hs. unfold get_status. unfold_monad.
  rewrite Hp, Hid, Hr. apply String.eqb_neq in Hs. rewrite Hs. reflexivity.
Qed.

Lemma get_status_active uid t p sub :
  t !! uid = Some p →
  column_truthy (subscription_id p) = true →
  subscriptions_retrieve stripe (default "" (subscription_id p)) = Normal sub →
  sub_status sub = "active" →
  let status := computed_status sub in
  let expiresAt := computed_expires_at sub in
  let new_expiry :=
    column_truthy expiresAt
    && negb (bool_decide (expiresAt = subscription_expires_at p)) in
  let new_status := negb (bool_decide (Some status = subscription_status p)) in
  let updateData := status_update status expiresAt new_expiry in
  get_status stripe uid t
  = (Normal (json [("status", JString status);
                   ("current_period_end",
                    resolve_period_end (sub_current_period_end sub)
                      (sub_billing_cycle_anchor sub));
                   ("cancel_at_period_end", sub_cancel_at_period_end sub);
                   ("expires_at", js_of_column expiresAt);
                   ("will_renew",
                    JBool (negb (truthy (sub_cancel_at_period_end sub))))]),
     if new_expiry || new_status
     then update_where (EqId uid) updateData t else t,
     SubscriptionsRetrieve (default "" (subscription_id p))
     :: if new_expiry || new_status
        then [StoreUpdate (EqId uid) updateData] else []).
Proof.
  intros Hp Hid Hr Hs. cbv zeta.
  unfold get_status. unfold_monad.
  rewrite Hp, Hid, Hr, Hs.
  rewrite expires_at_guarded_eq, timestampToISOString_returns.
  fold (computed_expires_at sub). fold (computed_status sub).
  cbv beta iota.
  set (new_expiry := column_truthy _ && negb _).
  change (if new_expiry then _ else _)
    with (status_update (computed_status sub) (computed_expires_at sub)
            new_expiry).
  rewrite size_status_update, lookup_status_update.
  assert (Hst : bool_decide
                  (Some (Some (computed_status sub))
                   = Some (subscription_status p))
                = bool_decide (Some (computed_status sub)
                               = subscription_status p)).
  { apply bool_decide_ext. split; congruence. }
  rewrite Hst.
  destruct new_expiry; cbn [Nat.ltb Nat.leb orb].
  - reflexivity.
  - destruct (bool_decide (Some (computed_status sub) = subscription_status p));
      reflexivity.
Qed.

(** *** POST /cancel and POST /reactivate *)

Lemma cancel_not_found uid t :
  column_truthy (profile_subscription_id (t !! uid)) = false →
  cancel stripe uid t
  = (Normal (error_response 404 "No active subscription found"), t, []).
Proof. intros H. unfold cancel. unfold_monad. rewrite H. reflexivity. Qed.

Lemma cancel_provider_error uid t e :
  column_truthy (profile_subscription_id (t !! uid)) = true →
  subscriptions_update stripe
    (default "" (profile_subscription_id (t !! uid))) true = Throw e →
  cancel stripe uid t
  = (Normal (error_response 500 "Failed to cancel subscription"), t,
     [SubscriptionsUpdate
        (default "" (profile_subscription_id (t !! uid))) true]).
Proof.
  intros H Hu. unfold cancel. unfold_monad. rewrite H, Hu. reflexivity.
Qed.

Lemma cancel_scheduled uid t sub :
  column_truthy (profile_subscription_id (t !! uid)) = true →
  subscriptions_update stripe
    (default "" (profile_subscription_id (t !! uid))) true = Normal sub →
  cancel stripe uid t
  = (Normal (json [("message",
                    JString "Subscription cancelled - access until period end");
                   ("cancel_at_period_end", JBool true);
                   ("current_period_end",
                    resolve_period_end (sub_current_period_end sub)
                      (sub_billing_cycle_anchor sub));
                   ("access_until", js_of_column (computed_expires_at sub));
                   ("status", JString "active_until_period_end")]),
     update_where (EqId uid)
       {["subscription_status" := Some "active_until_period_end"]} t,
     [SubscriptionsUpdate
        (default "" (profile_subscription_id (t !! uid))) true;
      StoreUpdate (EqId uid)
        {["subscription_status" := Some "active_until_period_end"]}]).
Proof.
  intros H Hu. unfold cancel. unfold_monad. rewrite H, Hu.
  rewrite expires_at_guarded_eq, timestampToISOString_returns.
  reflexivity.
Qed.

Lemma reactivate_not_found uid t :
  column_truthy (profile_subscription_id (t !! uid)) = false →
  reactivate stripe uid t
  = (Normal (error_response 404 "No subscription found"), t, []).
Proof. intros H. unfold reactivate. unfold_monad. rewrite H. reflexivity. Qed.

Lemma reactivate_provider_error uid t e :
  column_truthy (profile_subscription_id (t !! uid)) = true →
  subscriptions_update stripe
    (default "" (profile_subscription_id (t !! uid))) false = Throw e →
  reactivate stripe uid t
  = (Normal (error_response 500 "Failed to reactivate subscription"), t,
     [SubscriptionsUpdate
        (default "" (profile_subscription_id (t !! uid))) false]).
Proof.
  intros H Hu. unfold reactivate. unfold_monad. rewrite H, Hu. reflexivity.
Qed.

Lemma reactivate_done uid t sub :
  column_truthy (profile_subscription_id (t !! uid)) = true →
  subscriptions_update stripe
    (default "" (profile_subscription_id (t !! uid))) false = Normal sub →
  reactivate stripe uid t
  = (Normal (json [("message",
                    JString "Subscription reactivated successfully");
                   ("status", JString "active");
                   ("will_renew", JBool true)]),
     update_where (EqId uid) {["subscription_status" := Some "active"]} t,
     [SubscriptionsUpdate
        (default "" (profile_subscription_id (t !! uid))) false;
      StoreUpdate (EqId uid) {["subscription_status" := Some "active"]}]).
Proof.
  intros H Hu. unfold reactivate. unfold_monad. rewrite H, Hu. reflexivity.
Qed.

(** *** POST /webhook *)

Lemma handle_event_deleted event t :
  ev_type event = "customer.subscription.deleted" →
  handle_event event t
  = (Normal tt,
     update_where (EqStripeCustomerId (sub_customer (ev_object event)))
       (clearing_update "cancelled") t,
     [StoreUpdate (EqStripeCustomerId (sub_customer (ev_object event)))
        (clearing_update "cancelled")]).
Proof. intros H. unfold handle_event. rewrite H. reflexivity. Qed.

Lemma handle_event_updated_active event t :
  ev_type event = "customer.subscription.updated" →
  sub_status (ev_object event) = "active" →
  let sub := ev_object event in
  let updateData :=
    status_update (computed_status sub) (computed_expires_at sub)
      (column_truthy (computed_expires_at sub)) in
  handle_event event t
  = (Normal tt,
     update_where (EqStripeCustomerId (sub_customer sub)) updateData t,
     [StoreUpdate (EqStripeCustomerId (sub_customer sub)) updateData]).
Proof.
  intros H Hs. cbv zeta. unfold handle_event. unfold_monad.
  rewrite H, Hs, timestampToISOString_returns. reflexivity.
Qed.

Lemma handle_event_ignored event t :
  ev_type event ≠ "customer.subscription.deleted" →
  (ev_type event = "customer.subscription.updated" →
   sub_status (ev_object event) ≠ "active") →
  handle_event event t = (Normal tt, t, []).
Proof.
  intros Hd Hu. unfold handle_event. unfold_monad.
  apply String.eqb_neq in Hd. rewrite Hd.
  destruct (String.eqb_spec (ev_type event) "customer.subscription.updated")
    as [E|E]; [|reflexivity].
  apply Hu, String.eqb_neq in E. rewrite E. reflexivity.
Qed.

Lemma webhook_rejected body sig t e :
  webhooks_constructEvent stripe body sig (STRIPE_WEBHOOK_SECRET env)
    = Throw e →
  webhook stripe env body sig t
  = (Normal (error_response 400 "Webhook signature verification failed"),
     t, []).
Proof. intros H. unfold webhook. unfold_monad. rewrite H. reflexivity. Qed.

Lemma handle_event_returns event t :
  ∃ t' es, handle_event event t = (Normal tt, t', es).
Proof.
  destruct (String.eqb_spec (ev_type event) "customer.subscription.deleted")
    as [Hd|Hd].
  { rewrite handle_event_deleted by done. eauto. }
  destruct (String.eqb_spec (ev_type event) "customer.subscription.updated")
    as [Hu|Hu].
  - destruct (String.eqb_spec (sub_status (ev_object event)) "active").
    + rewrite handle_event_updated_active by done. eauto.
    + rewrite handle_event_ignored by done. eauto.
  - rewrite handle_event_ignored by done. eauto.
Qed.

Lemma webhook_verified body sig t event :
  webhooks_constructEvent stripe body sig (STRIPE_WEBHOOK_SECRET env)
    = Normal event →
  webhook stripe env body sig t
  = (Normal (json [("received", JBool true)]),
     table_after (handle_event event t),
     effects_of (handle_event event t)).
Proof.
  intros H. unfold webhook. unfold_monad. rewrite H.
  destruct (handle_event_returns event t) as (t' & es & ->).
  cbn. by rewrite app_nil_r.
Qed.

End Routes.

(* ===================================================================== *)
(** ** Reconciliation from webhook events *)
(* ===================================================================== *)

Section Webhook.

Context (stripe : StripeClient) (env : Env).
Implicit Types (t : Table) (p : Profile) (sub : Subscription).

Lemma handle_event_idem event t :
  let first := handle_event event t in
  let second := handle_event event (table_after first) in
  table_after second = table_after first ∧
  effects_of second = effects_of first.
Proof.
  cbv zeta.
  destruct (String.eqb_spec (ev_type event) "customer.subscription.deleted")
    as [Hd|Hd].
  { rewrite !handle_event_deleted by done. cbn [table_after effects_of fst snd].
    split; [|done]. by apply update_customer_idem. }
  destruct (String.eqb_spec (ev_type event) "customer.subscription.updated")
    as [Hu|Hu];
    [destruct (String.eqb_spec (sub_status (ev_object event)) "active")
      as [Ha|Ha]|].
  - rewrite !handle_event_updated_active by done.
    cbn [table_after effects_of fst snd]. split; [|done].
    apply update_customer_idem, lookup_status_update_customer.
  - by rewrite !handle_event_ignored.
  - by rewrite !handle_event_ignored.
Qed.

(** C1, as stated, fails: the second delivery of a deletion event issues
    the store update again. *)
Lemma second_delivery_writes_again : ¬ second_delivery_silent.
Proof.
  intros H.
  destruct (H (sample_stripe sub_active deleted_event) sample_env
              "" (JString "good") (sample_table profile_active))
    as [_ Hsilent].
  vm_compute in Hsilent. discriminate.
Qed.

(** C1, amended. Reconciliation from a webhook delivery is idempotent on
    the stored state: delivering the same request twice in a row leaves
    the table exactly as the first delivery left it.  The second delivery
    answers as the first did and performs the same effects: for a handled
    event it issues the same store update again, which changes nothing. *)
Theorem webhook_redelivery_idempotent (body : string) (sig : JsValue) (t : Table) :
  let first := webhook stripe env body sig t in
  let second := webhook stripe env body sig (table_after first) in
  table_after second = table_after first ∧
  effects_of second = effects_of first ∧
  fst (fst second) = fst (fst first).
Proof.
  cbv zeta.
  destruct (webhooks_constructEvent stripe body sig
              (STRIPE_WEBHOOK_SECRET env)) as [event|e] eqn:Hv.
  - rewrite !(webhook_verified _ _ _ _ _ event) by done.
    cbn [table_after effects_of fst snd].
    destruct (handle_event_idem event t) as [Ht Hes]. auto.
  - by rewrite !(webhook_rejected _ _ _ _ _ e).
Qed.

(** C6. A verified [customer.subscription.deleted] event for customer
    [C] leaves every row whose [stripe_customer_id] is [C] with status
    'cancelled' and with [subscription_id] and [subscription_expires_at]
    NULL, whatever the row held before; the rows with that customer id
    afterwards are exactly those rows, and every other row is as it was. *)
Theorem deletion_event_clears (body : string) (sig : JsValue) (t : Table)
  (event : Event) (C : string) :
  webhooks_constructEvent stripe body sig (STRIPE_WEBHOOK_SECRET env)
    = Normal event →
  ev_type event = "customer.subscription.deleted" →
  sub_customer (ev_object event) = C →
  let t' := table_after (webhook stripe env body sig t) in
  let cancelled :=
    {| stripe_customer_id := Some C; subscription_id := None;
       subscription_status := Some "cancelled";
       subscription_expires_at := None |} in
  (∀ k p, t !! k = Some p → stripe_customer_id p = Some C →
          t' !! k = Some cancelled) ∧
  (∀ k p', t' !! k = Some p' → stripe_customer_id p' = Some C →
           p' = cancelled) ∧
  (∀ k p, t !! k = Some p → stripe_customer_id p ≠ Some C →
          t' !! k = Some p).
Proof.
  intros Hv Hd HC. cbv zeta.
  rewrite (webhook_verified _ _ _ _ _ event) by done.
  rewrite handle_event_deleted by done.
  cbn [table_after fst snd]. rewrite HC.
  assert (Hrow : ∀ p, stripe_customer_id p = Some C →
                      apply_update (clearing_update "cancelled") p
                      = {| stripe_customer_id := Some C;
                           subscription_id := None;
                           subscription_status := Some "cancelled";
                           subscription_expires_at := None |}).
  { intros [c i s x] Hc. cbn in Hc. subst c. reflexivity. }
  split; [|split].
  - intros k p Hk Hc. rewrite lookup_update_customer, Hk. cbn.
    rewrite bool_decide_eq_true_2 by done. f_equal. by apply Hrow.
  - intros k p'. rewrite lookup_update_customer.
    destruct (t !! k) as [p|]; cbn; [|done].
    intros [= <-] Hc. case_bool_decide as Hp.
    + by apply Hrow.
    + contradiction.
  - intros k p Hk Hc. rewrite lookup_update_customer, Hk. cbn.
    by rewrite bool_decide_eq_false_2.
Qed.

(** C8. A delivery whose signature verification fails is answered with
    the 400 error response; the table is left as it was and no effect at
    all is performed.  The event is the verification's result, so nothing
    of it exists to be read on this path. *)
Theorem webhook_rejected_untouched (body : string) (sig : JsValue) (t : Table)
  (e : string) :
  webhooks_constructEvent stripe body sig (STRIPE_WEBHOOK_SECRET env)
    = Throw e →
  webhook stripe env body sig t
  = (Normal (error_response 400 "Webhook signature verification failed"),
     t, []).
Proof. apply webhook_rejected. Qed.

End Webhook.

Lemma deletion_event_clears_witness :
  table_after
    (webhook (sample_stripe sub_active deleted_event) sample_env ""
       (JString "good") (sample_table profile_active)) !! "user_1"
  = Some {| stripe_customer_id := Some "cus_1"; subscription_id := None;
            subscription_status := Some "cancelled";
            subscription_expires_at := None |}.
Proof.
  destruct (deletion_event_clears (sample_stripe sub_active deleted_event)
              sample_env "" (JString "good") (sample_table profile_active)
              deleted_event "cus_1" eq_refl eq_refl eq_refl) as (Hrows & _).
  apply (Hrows "user_1" profile_active); reflexivity.
Defined.

Lemma webhook_rejected_untouched_witness :
  webhook (sample_stripe sub_active deleted_event) sample_env ""
    JUndefined (sample_table profile_active)
  = (Normal (error_response 400 "Webhook signature verification failed"),
     sample_table profile_active, []).
Proof.
  apply (webhook_rejected_untouched
           (sample_stripe sub_active deleted_event) sample_env ""
           JUndefined (sample_table profile_active)
           "No signatures found matching the expected signature").
  reflexivity.
Defined.

(* ===================================================================== *)
(** ** Reconciliation from the status poll *)
(* ===================================================================== *)

Section StatusPoll.

Context (stripe : StripeClient).
Implicit Types (t : Table) (p : Profile) (sub : Subscription).

Lemma apply_status_update_status status expiresAt with_expiry p :
  subscription_status (apply_update (status_update status expiresAt with_expiry) p)
  = Some status.
Proof.
  unfold apply_update, set_column; cbn.
  by rewrite lookup_status_update.
Qed.

Lemma apply_status_update_expiry status expiresAt with_expiry p :
  subscription_expires_at
    (apply_update (status_update status expiresAt with_expiry) p)
  = if with_expiry then expiresAt else subscription_expires_at p.
Proof.
  unfold apply_update, set_column; cbn.
  rewrite lookup_status_update_expiry. by destruct with_expiry.
Qed.

(** C4. The status poll classifies the provider's snapshot by the table:
    (active, cancel_at_period_end false) is 'active', (active, true) is
    'active_until_period_end', and any status other than active, with
    either flag, is 'inactive'; the canonical status is both the one
    answered and the one stored afterwards. *)
Theorem status_classifier_table (uid : string) (t : Table) (p : Profile)
  (sub : Subscription) :
  t !! uid = Some p →
  column_truthy (subscription_id p) = true →
  subscriptions_retrieve stripe (default "" (subscription_id p)) = Normal sub →
  let run := get_status stripe uid t in
  (sub_status sub = "active" → sub_cancel_at_period_end sub = JBool false →
   reports_status run uid "active") ∧
  (sub_status sub = "active" → sub_cancel_at_period_end sub = JBool true →
   reports_status run uid "active_until_period_end") ∧
  (sub_status sub ≠ "active" → reports_status run uid "inactive").
Proof.
  intros Hp Hid Hr. cbv zeta.
  assert (Hactive : sub_status sub = "active" →
                    reports_status (get_status stripe uid t) uid
                      (computed_status sub)).
  { intros Hs. rewrite (get_status_active _ _ _ p sub) by done.
    eexists. split; [reflexivity|]. split; [reflexivity|].
    split; [reflexivity|]. cbn [table_after fst snd].
    destruct (_ || _) eqn:Hw.
    - rewrite lookup_update_id, decide_True, Hp by done.
      cbn [fmap option_fmap option_map].
      by rewrite apply_status_update_status.
    - apply orb_false_iff in Hw as [_ Hst].
      apply negb_false_iff, bool_decide_eq_true in Hst.
      rewrite Hp. cbn. by rewrite Hst. }
  split; [|split].
  - intros Hs Hc. specialize (Hactive Hs).
    unfold computed_status in Hactive. by rewrite Hc in Hactive.
  - intros Hs Hc. specialize (Hactive Hs).
    unfold computed_status in Hactive. by rewrite Hc in Hactive.
  - intros Hs. rewrite (get_status_inactive _ _ _ p sub) by done.
    eexists. split; [reflexivity|]. split; [reflexivity|].
    split; [reflexivity|]. cbn [table_after fst snd].
    rewrite lookup_update_id, decide_True, Hp by done. reflexivity.
Qed.

(** C5. When the status poll observes a snapshot whose status is not
    active, the user's row ends with status 'inactive' and with
    [subscription_id] and [subscription_expires_at] NULL; its customer id
    and every other row are as they were, and the answer is
    [{status: 'inactive'}]. *)
Theorem terminal_clearing (uid : string) (t : Table) (p : Profile)
  (sub : Subscription) :
  t !! uid = Some p →
  column_truthy (subscription_id p) = true →
  subscriptions_retrieve stripe (default "" (subscription_id p)) = Normal sub →
  sub_status sub ≠ "active" →
  let run := get_status stripe uid t in
  fst (fst run) = Normal (json [("status", JString "inactive")]) ∧
  table_after run !! uid
  = Some {| stripe_customer_id := stripe_customer_id p;
            subscription_id := None;
            subscription_status := Some "inactive";
            subscription_expires_at := None |} ∧
  (∀ k, k ≠ uid → table_after run !! k = t !! k).
Proof.
  intros Hp Hid Hr Hs. cbv zeta.
  rewrite (get_status_inactive _ _ _ p sub) by done.
  cbn [table_after fst snd]. split; [done|]. split.
  - rewrite lookup_update_id, decide_True, Hp by done. reflexivity.
  - intros k Hk. by rewrite lookup_update_id, decide_False.
Qed.

(** C9. For a user whose row has no [subscription_id] (or who has no
    row), POST /cancel and POST /reactivate both answer 404, call the
    provider not at all and leave the table unwritten. *)
Theorem not_found_atomicity (uid : string) (t : Table) :
  column_truthy (profile_subscription_id (t !! uid)) = false →
  cancel stripe uid t
  = (Normal (error_response 404 "No active subscription found"), t, []) ∧
  reactivate stripe uid t
  = (Normal (error_response 404 "No subscription found"), t, []).
Proof.
  intros H. split.
  - by apply cancel_not_found.
  - by apply reactivate_not_found.
Qed.

End StatusPoll.

Lemma status_classifier_table_witness :
  reports_status
    (get_status (sample_stripe sub_cancelling deleted_event) "user_1"
       (sample_table profile_active))
    "user_1" "active_until_period_end".
Proof.
  destruct (status_classifier_table
              (sample_stripe sub_cancelling deleted_event) "user_1"
              (sample_table profile_active) profile_active sub_cancelling
              eq_refl eq_refl eq_refl) as (_ & Hcancelling & _).
  apply Hcancelling; reflexivity.
Defined.

Lemma terminal_clearing_witness :
  table_after
    (get_status (sample_stripe sub_past_due deleted_event) "user_1"
       (sample_table profile_active)) !! "user_1"
  = Some {| stripe_customer_id := Some "cus_1"; subscription_id := None;
            subscription_status := Some "inactive";
            subscription_expires_at := None |}.
Proof.
  apply (terminal_clearing (sample_stripe sub_past_due deleted_event) "user_1"
           (sample_table profile_active) profile_active sub_past_due
           eq_refl eq_refl eq_refl).
  discriminate.
Defined.

Lemma not_found_atomicity_witness :
  cancel (sample_stripe sub_active deleted_event) "user_2"
    (sample_table profile_active)
  = (Normal (error_response 404 "No active subscription found"),
     sample_table profile_active, []) ∧
  reactivate (sample_stripe sub_active deleted_event) "user_3"
    (sample_table profile_active)
  = (Normal (error_response 404 "No subscription found"),
     sample_table profile_active, []).
Proof.
  split.
  - apply (not_found_atomicity (sample_stripe sub_active deleted_event)
             "user_2" (sample_table profile_active)). reflexivity.
  - apply (not_found_atomicity (sample_stripe sub_active deleted_event)
             "user_3" (sample_table profile_active)). reflexivity.
Defined.

(* ===================================================================== *)
(** ** When the table is written, and what is written *)
(* ===================================================================== *)

Section Writes.

Context (stripe : StripeClient) (env : Env).
Implicit Types (t : Table) (p : Profile) (sub : Subscription).

(** C2, as stated, fails: POST /cancel writes the status although the
    stored status and expiry already equal the computed ones. *)
Lemma cancel_writes_unchanged_state : ¬ cancel_suppresses_writes.
Proof.
  intros H.
  specialize (H (sample_stripe sub_cancelling deleted_event) "user_1"
                (sample_table profile_cancelling) profile_cancelling
                sub_cancelling eq_refl eq_refl eq_refl eq_refl eq_refl).
  vm_compute in H. discriminate.
Qed.

(** C2, amended. On the status poll with an active subscription, the
    table is written exactly when the computed status differs from the
    stored one or an expiry was computed and differs from the stored one;
    with both unchanged nothing is written and the table is left as it
    was.  The other paths write whenever they are reached: the status
    poll on a subscription that is not active, /cancel and /reactivate
    once the provider accepted the change, and the webhook's update case
    for an active subscription. *)
Theorem write_suppression_by_path :
  (∀ uid t p sub,
      t !! uid = Some p →
      column_truthy (subscription_id p) = true →
      subscriptions_retrieve stripe (default "" (subscription_id p))
        = Normal sub →
      sub_status sub = "active" →
      let run := get_status stripe uid t in
      (store_writes (effects_of run) ≠ [] ↔
       subscription_status p ≠ Some (computed_status sub) ∨
       (column_truthy (computed_expires_at sub) = true ∧
        subscription_expires_at p ≠ computed_expires_at sub)) ∧
      (subscription_status p = Some (computed_status sub) →
       subscription_expires_at p = computed_expires_at sub →
       store_writes (effects_of run) = [] ∧ table_after run = t)) ∧
  (∀ uid t p sub,
      t !! uid = Some p →
      column_truthy (subscription_id p) = true →
      subscriptions_retrieve stripe (default "" (subscription_id p))
        = Normal sub →
      sub_status sub ≠ "active" →
      store_writes (effects_of (get_status stripe uid t))
      = [StoreUpdate (EqId uid) (clearing_update "inactive")]) ∧
  (∀ uid t sub,
      column_truthy (profile_subscription_id (t !! uid)) = true →
      subscriptions_update stripe
        (default "" (profile_subscription_id (t !! uid))) true = Normal sub →
      store_writes (effects_of (cancel stripe uid t))
      = [StoreUpdate (EqId uid)
           {["subscription_status" := Some "active_until_period_end"]}]) ∧
  (∀ uid t sub,
      column_truthy (profile_subscription_id (t !! uid)) = true →
      subscriptions_update stripe
        (default "" (profile_subscription_id (t !! uid))) false = Normal sub →
      store_writes (effects_of (reactivate stripe uid t))
      = [StoreUpdate (EqId uid) {["subscription_status" := Some "active"]}]) ∧
  (∀ body sig t event,
      webhooks_constructEvent stripe body sig (STRIPE_WEBHOOK_SECRET env)
        = Normal event →
      ev_type event = "customer.subscription.updated" →
      sub_status (ev_object event) = "active" →
      store_writes (effects_of (webhook stripe env body sig t))
      = [StoreUpdate (EqStripeCustomerId (sub_customer (ev_object event)))
           (status_update (computed_status (ev_object event))
              (computed_expires_at (ev_object event))
              (column_truthy (computed_expires_at (ev_object event))))]).
Proof.
  split; [|split; [|split; [|split]]].
  - intros uid t p sub Hp Hid Hr Hs. cbv zeta.
    rewrite (get_status_active _ _ _ p sub) by done.
    cbn [table_after effects_of store_writes List.filter is_store_write
           fst snd].
    set (e := computed_expires_at sub). set (s := computed_status sub).
    destruct (column_truthy e) eqn:He; cbn [andb];
      destruct (bool_decide (e = subscription_expires_at p)) eqn:Hx;
      destruct (bool_decide (Some s = subscription_status p)) eqn:Hy;
      cbn [negb orb List.filter is_store_write];
      try apply bool_decide_eq_true in Hx;
      try apply bool_decide_eq_false in Hx;
      try apply bool_decide_eq_true in Hy;
      try apply bool_decide_eq_false in Hy;
      (split; [split|]); try done; try congruence; try tauto;
      try (intros _; tauto); try (intros _; left; congruence);
      try (intros _; right; split; congruence);
      try (intros [?|[? ?]]; congruence).
  - intros uid t p sub Hp Hid Hr Hs.
    by rewrite (get_status_inactive _ _ _ p sub).
  - intros uid t sub H Hu. by rewrite (cancel_scheduled _ _ _ sub).
  - intros uid t sub H Hu. by rewrite (reactivate_done _ _ _ sub).
  - intros body sig t event Hv Hu Hs.
    rewrite (webhook_verified _ _ _ _ _ event) by done.
    by rewrite handle_event_updated_active.
Qed.

End Writes.

Lemma write_suppression_by_path_witness :
  store_writes
    (effects_of
       (get_status (sample_stripe sub_active deleted_event) "user_1"
          (sample_table profile_active))) = [] ∧
  table_after
    (get_status (sample_stripe sub_active deleted_event) "user_1"
       (sample_table profile_active)) = sample_table profile_active.
Proof.
  destruct (write_suppression_by_path
              (sample_stripe sub_active deleted_event) sample_env)
    as (Hpoll & _).
  destruct (Hpoll "user_1" (sample_table profile_active) profile_active
              sub_active eq_refl eq_refl eq_refl eq_refl) as (_ & Hsame).
  apply Hsame; reflexivity.
Defined.

(* ===================================================================== *)
(** ** The stored expiry *)
(* ===================================================================== *)

Section Expiry.

Context (stripe : StripeClient) (env : Env).
Implicit Types (t : Table) (p : Profile) (sub : Subscription).

Lemma respects_store_update flt data :
  keeps_expiry data → respects expiry_kept (store_update flt data).
Proof. intros H t. by apply update_where_expiry_kept. Qed.

Lemma keeps_expiry_status_update status e w :
  (w = true → column_truthy e = true) →
  keeps_expiry (status_update status e w).
Proof.
  intros Hw. unfold keeps_expiry. rewrite lookup_status_update_expiry.
  destruct w; [|done]. destruct e; [done|]. by specialize (Hw eq_refl).
Qed.

Lemma expiry_unchanged_or_refl v t : expiry_unchanged_or v t t.
Proof. intros k. by left. Qed.

Lemma expiry_unchanged_or_falsy v t t' :
  column_truthy v = false → expiry_unchanged_or v t t' → expiry_unchanged t t'.
Proof.
  intros Hv H k. destruct (H k) as [|[? _]]; [done|congruence].
Qed.

Lemma status_update_expiry flt status e w t :
  (w = true → column_truthy e = true) →
  expiry_unchanged_or e t (update_where flt (status_update status e w) t).
Proof.
  intros Hw k.
  assert (Hrow : ∀ p,
             subscription_expires_at
               (apply_update (status_update status e w) p)
             = subscription_expires_at p
             ∨ (column_truthy e = true
                ∧ subscription_expires_at
                    (apply_update (status_update status e w) p) = e)).
  { intros p. rewrite apply_status_update_expiry. destruct w; auto. }
  destruct flt.
  - rewrite lookup_update_id. destruct (decide _); [|by left].
    destruct (t !! k) as [p|]; [|by left].
    cbn [fmap option_fmap option_map].
    destruct (Hrow p) as [->|[? ->]]; auto.
  - rewrite lookup_update_customer.
    destruct (t !! k) as [p|]; [|by left].
    cbn [fmap option_fmap option_map].
    destruct (bool_decide _); [|by left].
    destruct (Hrow p) as [->|[? ->]]; auto.
Qed.

Ltac respects_step :=
  first
    [ apply (respects_try_catch _ expiry_kept_trans)
    | apply (respects_bind _ expiry_kept_trans)
    | apply (respects_ret _ expiry_kept_refl)
    | apply (respects_lift _ expiry_kept_refl)
    | apply (respects_provider _ expiry_kept_refl)
    | apply (respects_select_single _ expiry_kept_refl)
    | apply respects_if
    | intros ? ].

Lemma create_keeps_expiry uid customer_id setup_intent_id :
  respects expiry_kept (create stripe env uid customer_id setup_intent_id).
Proof.
  unfold create. cbv zeta. repeat respects_step.
  apply respects_store_update.
  match goal with
  | |- keeps_expiry (if column_truthy ?e then _ else _) =>
      destruct e as [x|]; cbn [column_truthy];
      [destruct (negb (String.eqb x ""))|]; done
  end.
Qed.

Lemma cancel_keeps_expiry uid : respects expiry_kept (cancel stripe uid).
Proof.
  unfold cancel. cbv zeta. repeat respects_step.
  by apply respects_store_update.
Qed.

Lemma reactivate_keeps_expiry uid :
  respects expiry_kept (reactivate stripe uid).
Proof.
  unfold reactivate. cbv zeta. repeat respects_step.
  by apply respects_store_update.
Qed.

(** C10. The active paths never clear a stored expiry.  On the status
    poll with an active subscription, and on the webhook's update case,
    every row's [subscription_expires_at] afterwards is what it was or is
    the computed expiry, a non-empty string; when no expiry could be
    computed it is what it was.  Over all routes of the router, a stored
    expiry is replaced by NULL only by the status poll on a subscription
    that is not active and by the webhook's deletion case. *)
Theorem active_paths_keep_expiry :
  (∀ uid t p sub,
      t !! uid = Some p →
      column_truthy (subscription_id p) = true →
      subscriptions_retrieve stripe (default "" (subscription_id p))
        = Normal sub →
      sub_status sub = "active" →
      let t' := table_after (get_status stripe uid t) in
      expiry_unchanged_or (computed_expires_at sub) t t' ∧
      (computed_expires_at sub = None → expiry_unchanged t t')) ∧
  (∀ body sig t event,
      webhooks_constructEvent stripe body sig (STRIPE_WEBHOOK_SECRET env)
        = Normal event →
      ev_type event = "customer.subscription.updated" →
      let t' := table_after (webhook stripe env body sig t) in
      expiry_unchanged_or (computed_expires_at (ev_object event)) t t' ∧
      (computed_expires_at (ev_object event) = None →
       expiry_unchanged t t')) ∧
  (∀ req t,
      expiry_cleared t (table_after (route stripe env req t)) →
      (∃ uid p sub,
          req = GetStatus uid ∧ t !! uid = Some p ∧
          column_truthy (subscription_id p) = true ∧
          subscriptions_retrieve stripe (default "" (subscription_id p))
            = Normal sub ∧
          sub_status sub ≠ "active") ∨
      (∃ body sig event,
          req = PostWebhook body sig ∧
          webhooks_constructEvent stripe body sig (STRIPE_WEBHOOK_SECRET env)
            = Normal event ∧
          ev_type event = "customer.subscription.deleted")).
Proof.
  assert (Hunavailable : ∀ e t t',
             expiry_unchanged_or e t t' → e = None → expiry_unchanged t t').
  { intros e t t' H ->. by apply (expiry_unchanged_or_falsy None). }
  assert (Hpoll : ∀ uid t p sub,
             t !! uid = Some p →
             column_truthy (subscription_id p) = true →
             subscriptions_retrieve stripe (default "" (subscription_id p))
               = Normal sub →
             sub_status sub = "active" →
             ∃ w, (w = true → column_truthy (computed_expires_at sub) = true)
                  ∧ (table_after (get_status stripe uid t) = t
                     ∨ table_after (get_status stripe uid t)
                       = update_where (EqId uid)
                           (status_update (computed_status sub)
                              (computed_expires_at sub) w) t)).
  { intros uid t p sub Hp Hid Hr Hs.
    rewrite (get_status_active _ _ _ p sub) by done.
    cbn [table_after fst snd]. eexists. split; [|destruct (_ || _); eauto].
    by intros [? _]%andb_true_iff. }
  assert (Hhook : ∀ event t,
             ev_type event ≠ "customer.subscription.deleted" →
             ∃ w, (w = true →
                   column_truthy (computed_expires_at (ev_object event)) = true)
                  ∧ (table_after (handle_event event t) = t
                     ∨ ∃ flt, table_after (handle_event event t)
                              = update_where flt
                                  (status_update
                                     (computed_status (ev_object event))
                                     (computed_expires_at (ev_object event))
                                     w) t)).
  { intros event t Hd.
    destruct (String.eqb_spec (ev_type event) "customer.subscription.updated")
      as [Hu|Hu];
      [destruct (String.eqb_spec (sub_status (ev_object event)) "active")
        as [Ha|Ha]|].
    - rewrite handle_event_updated_active by done.
      cbn [table_after fst snd]. eauto.
    - rewrite handle_event_ignored by done. exists false. split; [done|eauto].
    - rewrite handle_event_ignored by done. exists false. split; [done|eauto]. }
  split; [|split].
  - intros uid t p sub Hp Hid Hr Hs. cbv zeta.
    destruct (Hpoll uid t p sub Hp Hid Hr Hs) as (w & Hw & [->| ->]).
    + split; [apply expiry_unchanged_or_refl|].
      apply Hunavailable, expiry_unchanged_or_refl.
    + split; [by apply status_update_expiry|].
      by apply Hunavailable, status_update_expiry.
  - intros body sig t event Hv Hu. cbv zeta.
    rewrite (webhook_verified _ _ _ _ _ event) by done.
    cbn [table_after fst snd]. fold (table_after (handle_event event t)).
    destruct (Hhook event t) as (w & Hw & [->|[flt ->]]).
    { rewrite Hu. discriminate. }
    + split; [apply expiry_unchanged_or_refl|].
      apply Hunavailable, expiry_unchanged_or_refl.
    + split; [by apply status_update_expiry|].
      by apply Hunavailable, status_update_expiry.
  - intros req t Hcleared.
    destruct req as [uid c s|uid|uid|uid|body sig]; cbn [route] in Hcleared.
    + by apply expiry_kept_not_cleared in Hcleared;
        [|apply create_keeps_expiry].
    + destruct (t !! uid) as [p|] eqn:Hp;
        [destruct (column_truthy (subscription_id p)) eqn:Hid|].
      * destruct (subscriptions_retrieve stripe
                    (default "" (subscription_id p))) as [sub|e] eqn:Hr.
        -- destruct (String.eqb_spec (sub_status sub) "active") as [Hs|Hs].
           ++ destruct (Hpoll uid t p sub Hp Hid Hr Hs)
                as (w & Hw & [E|E]); rewrite E in Hcleared;
                apply expiry_kept_not_cleared in Hcleared; try done.
              ** apply expiry_kept_refl.
              ** by apply update_where_expiry_kept,
                   keeps_expiry_status_update.
           ++ left. exists uid, p, sub. auto.
        -- rewrite (get_status_provider_error _ _ _ p e) in Hcleared by done.
           by apply expiry_kept_not_cleared in Hcleared;
             [|apply expiry_kept_refl].
      * rewrite get_status_no_subscription in Hcleared
          by (by rewrite Hp).
        by apply expiry_kept_not_cleared in Hcleared;
          [|apply expiry_kept_refl].
      * rewrite get_status_no_subscription in Hcleared
          by (by rewrite Hp).
        by apply expiry_kept_not_cleared in Hcleared;
          [|apply expiry_kept_refl].
    + by apply expiry_kept_not_cleared in Hcleared;
        [|apply cancel_keeps_expiry].
    + by apply expiry_kept_not_cleared in Hcleared;
        [|apply reactivate_keeps_expiry].
    + destruct (webhooks_constructEvent stripe body sig
                  (STRIPE_WEBHOOK_SECRET env)) as [event|e] eqn:Hv.
      * destruct (String.eqb_spec (ev_type event)
                    "customer.subscription.deleted") as [Hd|Hd].
        { right. exists body, sig, event. auto. }
        rewrite (webhook_verified _ _ _ _ _ event) in Hcleared by done.
        cbn [table_after fst snd] in Hcleared.
        fold (table_after (handle_event event t)) in Hcleared.
        destruct (Hhook event t Hd) as (w & Hw & [E|[flt E]]);
          rewrite E in Hcleared;
          apply expiry_kept_not_cleared in Hcleared; try done.
        -- apply expiry_kept_refl.
        -- by apply update_where_expiry_kept, keeps_expiry_status_update.
      * rewrite (webhook_rejected _ _ _ _ _ e) in Hcleared by done.
        by apply expiry_kept_not_cleared in Hcleared;
          [|apply expiry_kept_refl].
Qed.

End Expiry.

Lemma active_paths_keep_expiry_witness :
  expiry_unchanged (sample_table profile_active)
    (table_after
       (get_status (sample_stripe sub_no_period_end deleted_event) "user_1"
          (sample_table profile_active))).
Proof.
  destruct (active_paths_keep_expiry
              (sample_stripe sub_no_period_end deleted_event) sample_env)
    as (Hpoll & _).
  destruct (Hpoll "user_1" (sample_table profile_active) profile_active
              sub_no_period_end eq_refl eq_refl eq_refl eq_refl)
    as (_ & Hsame).
  apply Hsame. reflexivity.
Defined.

(* ===================================================================== *)
(** ** What no route of the subscription router does *)
(* ===================================================================== *)

Section Frames.

Context (stripe : StripeClient) (env : Env).
Implicit Types (t : Table) (p : Profile) (sub : Subscription).

Lemma others_kept_refl uid t : others_kept uid t t.
Proof. by intros k _. Qed.

Lemma others_kept_trans uid t1 t2 t3 :
  others_kept uid t1 t2 → others_kept uid t2 t3 → others_kept uid t1 t3.
Proof. intros H12 H23 k Hk. by rewrite H23, H12. Qed.

Lemma others_kept_store_update uid data :
  respects (others_kept uid) (store_update (EqId uid) data).
Proof.
  intros t k Hk. cbn [store_update table_after fst snd].
  by rewrite lookup_update_id, decide_False.
Qed.

Lemma customers_kept_refl t : customers_kept t t.
Proof. by intros k. Qed.

Lemma customers_kept_trans t1 t2 t3 :
  customers_kept t1 t2 → customers_kept t2 t3 → customers_kept t1 t3.
Proof. intros H12 H23 k. by rewrite H23, H12. Qed.

Lemma customers_kept_store_update flt data :
  data !! "stripe_customer_id" = None →
  respects customers_kept (store_update flt data).
Proof.
  intros Hd t k. cbn [store_update table_after fst snd].
  destruct flt.
  - rewrite lookup_update_id. destruct (decide _); [|done].
    destruct (t !! k) as [p|]; [|done]. cbn [fmap option_fmap option_map].
    by rewrite apply_update_customer.
  - rewrite lookup_update_customer.
    destruct (t !! k) as [p|]; [|done]. cbn [fmap option_fmap option_map].
    destruct (bool_decide _); [|done]. by rewrite apply_update_customer.
Qed.





Ltac frame_steps Hrefl Htrans :=
  repeat first
    [ apply (respects_try_catch _ Htrans)
    | apply (respects_bind _ Htrans)
    | apply (respects_ret _ Hrefl)
    | apply (respects_lift _ Hrefl)
    | apply (respects_provider _ Hrefl)
    | apply (respects_select_single _ Hrefl)
    | apply respects_if
    | match goal with |- ∀ _, _ => intro end
    | match goal with
      | |- respects _ (match ?x with _ => _ end) => destruct x
      end ].


(** X1. The routes made on behalf of a user (/create, /status, /cancel,
    /reactivate) never change another user's row: every row whose [id] is
    not the caller's is afterwards what it was before. *)
Theorem routes_touch_only_own_row (uid : string) (customer_id setup_intent_id : JsValue)
  (t : Table) :
  others_kept uid t
    (table_after (create stripe env uid customer_id setup_intent_id t)) ∧
  others_kept uid t (table_after (get_status stripe uid t)) ∧
  others_kept uid t (table_after (cancel stripe uid t)) ∧
  others_kept uid t (table_after (reactivate stripe uid t)).
Proof.
  repeat split; revert t.
  - change (respects (others_kept uid)
              (create stripe env uid customer_id setup_intent_id)).
    unfold create. cbv zeta.
    frame_steps (others_kept_refl uid) (others_kept_trans uid);
      apply others_kept_store_update.
  - change (respects (others_kept uid) (get_status stripe uid)).
    unfold get_status. cbv zeta.
    frame_steps (others_kept_refl uid) (others_kept_trans uid);
      apply others_kept_store_update.
  - change (respects (others_kept uid) (cancel stripe uid)).
    unfold cancel. cbv zeta.
    frame_steps (others_kept_refl uid) (others_kept_trans uid);
      apply others_kept_store_update.
  - change (respects (others_kept uid) (reactivate stripe uid)).
    unfold reactivate. cbv zeta.
    frame_steps (others_kept_refl uid) (others_kept_trans uid);
      apply others_kept_store_update.
Qed.

Lemma status_update_customer_untouched status e w :
  status_update status e w !! "stripe_customer_id" = None.
Proof. apply lookup_status_update_customer. Qed.

(** X2. No route of the subscription router (/create, /status, /cancel,
    /reactivate, /webhook) adds a row, drops a row or changes a row's
    [stripe_customer_id]: the customer a profile is mapped to is never
    reassigned by them. *)
Theorem routes_keep_customers (req : Request) (t : Table) :
  customers_kept t (table_after (route stripe env req t)).
Proof.
  revert t. change (respects customers_kept (route stripe env req)).
  destruct req as [uid c s|uid|uid|uid|body sig]; cbn [route].
  - unfold create. cbv zeta.
    frame_steps customers_kept_refl customers_kept_trans.
    apply customers_kept_store_update.
    match goal with |- (if ?b then _ else _) !! _ = _ => by destruct b end.
  - unfold get_status. cbv zeta.
    frame_steps customers_kept_refl customers_kept_trans;
      apply customers_kept_store_update; try done.
    match goal with |- (if ?b then _ else _) !! _ = _ => by destruct b end.
  - unfold cancel. cbv zeta.
    frame_steps customers_kept_refl customers_kept_trans.
    by apply customers_kept_store_update.
  - unfold reactivate. cbv zeta.
    frame_steps customers_kept_refl customers_kept_trans.
    by apply customers_kept_store_update.
  - unfold webhook, handle_event. cbv zeta.
    frame_steps customers_kept_refl customers_kept_trans;
      apply customers_kept_store_update; try done.
    match goal with |- (if ?b then _ else _) !! _ = _ => by destruct b end.
Qed.


End Frames.

(* ===================================================================== *)
(** ** Polling again *)
(* ===================================================================== *)

Section Polling.

Context (stripe : StripeClient).
Implicit Types (t : Table) (p : Profile) (sub : Subscription).

Lemma apply_status_update_subscription_id status e w p :
  subscription_id (apply_update (status_update status e w) p)
  = subscription_id p.
Proof.
  unfold apply_update, set_column, status_update; cbn. by destruct w.
Qed.

(** After a poll that saw an active subscription the row holds what the
    poll computed, so the same snapshot asks for no write. *)
Lemma poll_settles uid t p sub :
  t !! uid = Some p →
  column_truthy (subscription_id p) = true →
  subscriptions_retrieve stripe (default "" (subscription_id p)) = Normal sub →
  sub_status sub = "active" →
  ∃ p1, table_after (get_status stripe uid t) !! uid = Some p1 ∧
        subscription_id p1 = subscription_id p ∧
        subscription_status p1 = Some (computed_status sub) ∧
        (column_truthy (computed_expires_at sub) = true →
         subscription_expires_at p1 = computed_expires_at sub).
Proof.
  intros Hp Hid Hr Hs. rewrite (get_status_active _ _ _ p sub) by done.
  cbn [table_after fst snd].
  set (e := computed_expires_at sub). set (s := computed_status sub).
  destruct (_ || _) eqn:Hw.
  - rewrite lookup_update_id, decide_True, Hp by done.
    cbn [fmap option_fmap option_map]. eexists. split; [reflexivity|].
    rewrite apply_status_update_subscription_id, apply_status_update_status,
      apply_status_update_expiry.
    repeat split. intros He. rewrite He. cbn [andb].
    destruct (bool_decide (e = subscription_expires_at p)) eqn:Hx;
      cbn [negb]; [by apply bool_decide_eq_true in Hx|done].
  - exists p. apply orb_false_iff in Hw as [Hne Hns].
    apply negb_false_iff, bool_decide_eq_true in Hns.
    repeat split; try done. intros He. rewrite He in Hne. cbn [andb] in Hne.
    by apply negb_false_iff, bool_decide_eq_true in Hne.
Qed.

(** X4. The status poll is idempotent and, the second time, silent: a poll
    that follows a poll, with the provider answering as before, writes
    nothing to the table and leaves it as the first poll left it. *)
Theorem status_poll_twice_silent (uid : string) (t : Table) :
  let first := get_status stripe uid t in
  let second := get_status stripe uid (table_after first) in
  store_writes (effects_of second) = [] ∧
  table_after second = table_after first.
Proof.
  cbv zeta.
  destruct (column_truthy (profile_subscription_id (t !! uid))) eqn:Hid.
  2:{ rewrite (get_status_no_subscription _ uid t) by done.
      cbn [table_after fst snd].
      by rewrite (get_status_no_subscription _ uid t). }
  destruct (t !! uid) as [p|] eqn:Hp; [|done]. cbn in Hid.
  destruct (subscriptions_retrieve stripe (default "" (subscription_id p)))
    as [sub|e] eqn:Hr.
  2:{ rewrite (get_status_provider_error _ uid t p e) by done.
      cbn [table_after fst snd].
      by rewrite (get_status_provider_error _ uid t p e). }
  destruct (String.eqb_spec (sub_status sub) "active") as [Hs|Hs].
  - destruct (poll_settles uid t p sub Hp Hid Hr Hs)
      as (p1 & Hp1 & Hid1 & Hst1 & Hex1).
    rewrite (get_status_active _ uid _ p1 sub);
      [|done|by rewrite Hid1|by rewrite Hid1|done].
    assert (Hquiet :
              column_truthy (computed_expires_at sub)
              && negb (bool_decide (computed_expires_at sub
                                    = subscription_expires_at p1))
              || negb (bool_decide (Some (computed_status sub)
                                    = subscription_status p1)) = false).
    { rewrite (bool_decide_eq_true_2 (Some _ = _)) by done.
      destruct (column_truthy (computed_expires_at sub)); [|done].
      by rewrite bool_decide_eq_true_2 by (by rewrite Hex1). }
    rewrite Hquiet. done.
  - rewrite (get_status_inactive _ uid t p sub) by done.
    cbn [table_after fst snd].
    rewrite get_status_no_subscription; [done|].
    by rewrite lookup_update_id, decide_True, Hp.
Qed.

End Polling.

(* ===================================================================== *)
(** ** Scheduling and removing a cancellation *)
(* ===================================================================== *)

Section Cancellation.

Context (stripe : StripeClient).
Implicit Types (t : Table) (p : Profile) (sub : Subscription).

Lemma update_status_only uid status t p :
  t !! uid = Some p →
  update_where (EqId uid) {["subscription_status" := Some status]} t
  = <[uid := with_status status p]> t.
Proof.
  intros Hp. apply map_eq. intros k. rewrite lookup_update_id.
  destruct (decide (k = uid)) as [->|Hk].
  - by rewrite Hp, lookup_insert_eq.
  - by rewrite lookup_insert_ne.
Qed.

Lemma with_status_twice s1 s2 p :
  with_status s2 (with_status s1 p) = with_status s2 p.
Proof. reflexivity. Qed.

(** X5. /cancel and /reactivate write the local status only after the
    provider accepted the change, and then change nothing but the status
    column of the caller's row: its subscription id, expiry and customer id
    stay.  When the provider call throws, the answer is 500 and the table
    is as it was. *)
Theorem cancellation_is_atomic (uid : string) (t : Table) (p : Profile) :
  t !! uid = Some p →
  column_truthy (subscription_id p) = true →
  let id := default "" (subscription_id p) in
  match subscriptions_update stripe id true with
  | Normal sub =>
      table_after (cancel stripe uid t)
      = <[uid := with_status "active_until_period_end" p]> t ∧
      effects_of (cancel stripe uid t)
      = [SubscriptionsUpdate id true;
         StoreUpdate (EqId uid)
           {["subscription_status" := Some "active_until_period_end"]}] ∧
      ∃ r, answer_of (cancel stripe uid t) = Normal r ∧ res_status r = 200 ∧
           body_field "access_until" (res_body r)
           = Some (js_of_column (computed_expires_at sub))
  | Throw _ =>
      cancel stripe uid t
      = (Normal (error_response 500 "Failed to cancel subscription"), t,
         [SubscriptionsUpdate id true])
  end ∧
  match subscriptions_update stripe id false with
  | Normal _ =>
      table_after (reactivate stripe uid t) = <[uid := with_status "active" p]> t ∧
      effects_of (reactivate stripe uid t)
      = [SubscriptionsUpdate id false;
         StoreUpdate (EqId uid) {["subscription_status" := Some "active"]}] ∧
      ∃ r, answer_of (reactivate stripe uid t) = Normal r ∧ res_status r = 200
  | Throw _ =>
      reactivate stripe uid t
      = (Normal (error_response 500 "Failed to reactivate subscription"), t,
         [SubscriptionsUpdate id false])
  end.
Proof.
  intros Hp Hid. cbv zeta.
  assert (Hid' : column_truthy (profile_subscription_id (t !! uid)) = true)
    by (by rewrite Hp).
  assert (Heq : profile_subscription_id (t !! uid) = subscription_id p)
    by (by rewrite Hp).
  split.
  - destruct (subscriptions_update stripe _ true) as [sub|e] eqn:Hu.
    + rewrite (cancel_scheduled _ uid t sub) by (by rewrite ?Heq).
      cbn [table_after effects_of answer_of fst snd]. rewrite Heq.
      split; [by apply update_status_only|]. split; [done|]. eauto.
    + rewrite (cancel_provider_error _ uid t e) by (by rewrite ?Heq).
      by rewrite Heq.
  - destruct (subscriptions_update stripe _ false) as [sub|e] eqn:Hu.
    + rewrite (reactivate_done _ uid t sub) by (by rewrite ?Heq).
      cbn [table_after effects_of answer_of fst snd]. rewrite Heq.
      split; [by apply update_status_only|]. split; [done|]. eauto.
    + rewrite (reactivate_provider_error _ uid t e) by (by rewrite ?Heq).
      by rewrite Heq.
Qed.

(** X6. Cancelling and then reactivating brings the caller's row back: when
    the provider accepts both changes, /reactivate after /cancel leaves the
    row with status 'active' and everything else as it was, so a table
    whose row was 'active' is exactly restored. *)
Theorem cancel_then_reactivate (uid : string) (t : Table) (p : Profile)
  (sub1 sub2 : Subscription) :
  t !! uid = Some p →
  column_truthy (subscription_id p) = true →
  subscriptions_update stripe (default "" (subscription_id p)) true
    = Normal sub1 →
  subscriptions_update stripe (default "" (subscription_id p)) false
    = Normal sub2 →
  let t2 := table_after (reactivate stripe uid
                           (table_after (cancel stripe uid t))) in
  t2 = <[uid := with_status "active" p]> t ∧
  (subscription_status p = Some "active" → t2 = t).
Proof.
  intros Hp Hid Hu1 Hu2. cbv zeta.
  assert (Heq : profile_subscription_id (t !! uid) = subscription_id p)
    by (by rewrite Hp).
  rewrite (cancel_scheduled _ uid t sub1) by (by rewrite ?Heq).
  cbn [table_after fst snd].
  rewrite (update_status_only _ _ _ p) by done.
  set (t1 := <[uid := with_status "active_until_period_end" p]> t).
  assert (Hp1 : t1 !! uid = Some (with_status "active_until_period_end" p))
    by apply lookup_insert_eq.
  assert (Heq1 : profile_subscription_id (t1 !! uid) = subscription_id p)
    by (by rewrite Hp1).
  rewrite (reactivate_done _ uid t1 sub2) by (by rewrite ?Heq1).
  cbn [table_after fst snd].
  rewrite (update_status_only _ _ _ _ Hp1), with_status_twice.
  unfold t1. rewrite insert_insert_eq. split; [done|].
  intros Hs. apply insert_id. rewrite Hp. f_equal.
  destruct p as [c i s x]. cbn in Hs. by subst s.
Qed.

End Cancellation.

Lemma cancellation_is_atomic_witness :
  table_after
    (cancel (sample_stripe sub_cancelling deleted_event) "user_1"
       (sample_table profile_active))
  = sample_table profile_cancelling.
Proof.
  destruct (cancellation_is_atomic
              (sample_stripe sub_cancelling deleted_event) "user_1"
              (sample_table profile_active) profile_active eq_refl eq_refl)
    as [(Htable & _) _].
  rewrite Htable. apply map_eq. intros k.
  unfold sample_table.
  destruct (decide (k = "user_1")) as [->|Hk].
  - by rewrite !lookup_insert_eq.
  - by rewrite !lookup_insert_ne.
Defined.

Lemma cancel_then_reactivate_witness :
  table_after
    (reactivate (sample_stripe sub_active deleted_event) "user_1"
       (table_after
          (cancel (sample_stripe sub_active deleted_event) "user_1"
             (sample_table profile_active))))
  = sample_table profile_active.
Proof.
  apply (cancel_then_reactivate
           (sample_stripe sub_active deleted_event) "user_1"
           (sample_table profile_active) profile_active sub_active sub_active
           eq_refl eq_refl eq_refl eq_refl).
  reflexivity.
Defined.

(* ===================================================================== *)
(** ** Creating a subscription *)
(* ===================================================================== *)

Section Create.

Context (stripe : StripeClient) (env : Env).
Implicit Types (t : Table) (p : Profile) (sub : Subscription).

Lemma handler_bind_assoc {A B C} (m : Handler A) (f : A → Handler B)
  (g : B → Handler C) t :
  ((m ≫= f) ≫= g) t = (m ≫= (λ a, f a ≫= g)) t.
Proof.
  unfold mbind, handler_bind.
  destruct (m t) as [[[a|e] t1] es1]; [|done].
  destruct (f a t1) as [[[b|e] t2] es2]; [|done].
  destruct (g b t2) as [[r t3] es3]. by rewrite app_assoc.
Qed.

Lemma bind_run {A B} (m : Handler A) (k : A → Handler B) t c t1 es1 :
  m t = (c, t1, es1) →
  (m ≫= k) t
  = match c with
    | Normal a =>
        match k a t1 with
        | (r, t2, es2) => (r, t2, (es1 ++ es2)%list)
        end
    | Throw e => (Throw e, t1, es1)
    end.
Proof. unfold mbind, handler_bind. by intros ->. Qed.

Lemma try_catch_ext {A} (m m' h : Handler A) t :
  m t = m' t → try_catch m h t = try_catch m' h t.
Proof. unfold try_catch. by intros ->. Qed.

(** /create is its two stages in sequence. *)
Lemma create_stages uid customer_id setup_intent_id t :
  create stripe env uid customer_id setup_intent_id t
  = try_catch
      (if negb (truthy customer_id)
       then mret (error_response 400 "customer_id is required")
       else choose_payment_method stripe customer_id setup_intent_id
            ≫= subscribe_with stripe env uid customer_id)
      (mret (error_response 500 "Failed to create subscription")) t.
Proof.
  unfold create. apply try_catch_ext.
  destruct (negb (truthy customer_id)); [done|].
  unfold choose_payment_method. by rewrite handler_bind_assoc.
Qed.

Lemma choose_from_intent customer_id setup_intent_id setupIntent t :
  truthy setup_intent_id = true →
  setupIntents_retrieve stripe setup_intent_id = Normal setupIntent →
  truthy (si_payment_method setupIntent) = true →
  si_status setupIntent = "succeeded" →
  choose_payment_method stripe customer_id setup_intent_id t
  = (Normal (si_payment_method setupIntent), t,
     [SetupIntentsRetrieve setup_intent_id]).
Proof.
  intros Hs Hr Hpm Hst. unfold choose_payment_method. unfold_monad.
  rewrite Hs, Hr, Hpm, Hst.
  change (String.eqb "succeeded" "succeeded") with true.
  cbn [andb]. cbv beta iota. rewrite Hpm. reflexivity.
Qed.

Lemma choose_intent_error customer_id setup_intent_id e t :
  truthy setup_intent_id = true →
  setupIntents_retrieve stripe setup_intent_id = Throw e →
  choose_payment_method stripe customer_id setup_intent_id t
  = (Throw e, t, [SetupIntentsRetrieve setup_intent_id]).
Proof.
  intros Hs Hr. unfold choose_payment_method. unfold_monad.
  rewrite Hs, Hr. reflexivity.
Qed.

Lemma choose_from_cards customer_id setup_intent_id t :
  intent_gives_nothing stripe setup_intent_id →
  choose_payment_method stripe customer_id setup_intent_id t
  = (match paymentMethods_list stripe customer_id with
     | Normal (pm :: _) => Normal (JString pm)
     | Normal [] => Normal JNull
     | Throw e => Throw e
     end, t,
     (intent_effects setup_intent_id ++ [PaymentMethodsList customer_id])%list).
Proof.
  unfold intent_effects.
  intros [Hs|(si & Hs & Hr & Hno)]; unfold choose_payment_method;
    unfold_monad; rewrite Hs, ?Hr, ?Hno; cbv beta iota; cbn [truthy negb];
    destruct (paymentMethods_list stripe customer_id) as [[|pm more]|e];
    reflexivity.
Qed.

Lemma subscribe_without_method uid customer_id pm t :
  truthy pm = false →
  subscribe_with stripe env uid customer_id pm t
  = (Normal (error_response 400 "No payment method found"), t, []).
Proof. intros H. unfold subscribe_with. by rewrite H. Qed.

Lemma subscribe_with_method uid customer_id pm t :
  truthy pm = true →
  subscribe_with stripe env uid customer_id pm t
  = match subscriptions_create stripe customer_id (STRIPE_PRICE_ID env) pm with
    | Normal sub =>
        if String.eqb (sub_status sub) "active"
        then (Normal (created_response sub),
              update_where (EqId uid) (created_update sub) t,
              [SubscriptionsCreate customer_id (STRIPE_PRICE_ID env) pm;
               StoreUpdate (EqId uid) (created_update sub)])
        else (Normal (error_response 400 "Subscription creation failed"), t,
              [SubscriptionsCreate customer_id (STRIPE_PRICE_ID env) pm])
    | Throw e =>
        (Throw e, t,
         [SubscriptionsCreate customer_id (STRIPE_PRICE_ID env) pm])
    end.
Proof.
  intros H. unfold subscribe_with. unfold_monad. rewrite H. cbn [negb].
  destruct (subscriptions_create stripe customer_id (STRIPE_PRICE_ID env) pm)
    as [sub|e]; [|reflexivity].
  destruct (String.eqb (sub_status sub) "active"); [|reflexivity].
  rewrite expires_at_guarded_eq, timestampToISOString_returns. reflexivity.
Qed.

Lemma lookup_created_update uid sub t :
  update_where (EqId uid) (created_update sub) t !! uid
  = created_row sub <$> t !! uid.
Proof.
  rewrite lookup_update_id, decide_True by done.
  destruct (t !! uid) as [p|]; [|done]. cbn [fmap option_fmap option_map].
  f_equal. unfold created_update, created_row, apply_update, set_column.
  by destruct (column_truthy (computed_expires_at sub)).
Qed.

(** What the first stage answers, case by case. *)
Lemma choose_payment_method_run customer_id setup_intent_id t :
  ∃ c, choose_payment_method stripe customer_id setup_intent_id t
       = (c, t, choice_effects stripe customer_id setup_intent_id) ∧
       store_writes (choice_effects stripe customer_id setup_intent_id) = [] ∧
       ∀ pm, c = Normal pm → truthy pm = true →
             payment_method_chosen stripe customer_id setup_intent_id pm.
Proof.
  unfold choice_effects.
  destruct (truthy setup_intent_id) eqn:Hs.
  - destruct (setupIntents_retrieve stripe setup_intent_id) as [si|e] eqn:Hr.
    + destruct (truthy (si_payment_method si)
                && String.eqb (si_status si) "succeeded") eqn:Hok.
      * apply andb_true_iff in Hok as [Hpm Hst%String.eqb_eq].
        rewrite (choose_from_intent _ _ si) by done.
        eexists. split; [done|]. split; [done|].
        intros pm [= <-] _. left. by exists si.
      * assert (Hno : intent_gives_nothing stripe setup_intent_id)
          by (right; eauto).
        rewrite choose_from_cards by done.
        unfold intent_effects. rewrite Hs.
        eexists. split; [done|]. split; [done|].
        intros pm Hc Hpm. right. split; [done|].
        destruct (paymentMethods_list stripe customer_id)
          as [[|card more]|e']; [by injection Hc as <-| |done].
        injection Hc as <-. exists card, more. split; [done|].
        split; [|done]. intros ->. discriminate.
    + rewrite (choose_intent_error _ _ e) by done.
      eexists. split; [done|]. split; [done|]. by intros pm [=].
  - assert (Hno : intent_gives_nothing stripe setup_intent_id) by (by left).
    rewrite choose_from_cards by done.
    unfold intent_effects. rewrite Hs.
    eexists. split; [done|]. split; [done|].
    intros pm Hc Hpm. right. split; [done|].
    destruct (paymentMethods_list stripe customer_id)
      as [[|card more]|e']; [by injection Hc as <-| |done].
    injection Hc as <-. exists card, more. split; [done|].
    split; [|done]. intros ->. discriminate.
Qed.

(** A chosen payment method is what the first stage answers. *)
Lemma payment_method_chosen_run customer_id setup_intent_id pm t :
  payment_method_chosen stripe customer_id setup_intent_id pm →
  truthy pm = true ∧
  choose_payment_method stripe customer_id setup_intent_id t
  = (Normal pm, t, choice_effects stripe customer_id setup_intent_id).
Proof.
  unfold choice_effects.
  intros [(si & Hs & Hr & Hpm & Hst & ->)
         |(Hno & card & more & Hl & Hne & ->)].
  - split; [done|]. rewrite (choose_from_intent _ _ si) by done.
    rewrite Hs, Hr, Hpm, Hst. reflexivity.
  - split; [cbn; by apply negb_true_iff, String.eqb_neq|].
    rewrite choose_from_cards, Hl by done. unfold intent_effects.
    destruct Hno as [Hs|(si & Hs & Hr & Hok)]; rewrite Hs, ?Hr, ?Hok;
      reflexivity.
Qed.

(** X7. /create writes to the table exactly when the provider created,
    with the payment method the route settled on, a subscription whose
    status is active.  Then it writes once, after the creation: the answer
    is 200 with the subscription, and the caller's row gets that
    subscription's id, its status and, when one could be computed, its
    expiry (a caller without a row gets nothing stored, although the answer
    is 200).  In every other case (a missing [customer_id], no payment
    method, a provider error, a subscription that is not active) the answer
    is 400 or 500, nothing is written and the table is as it was. *)
Theorem create_writes_only_after_activation (uid : string)
  (customer_id setup_intent_id : JsValue) (t : Table) :
  let run := create stripe env uid customer_id setup_intent_id t in
  let activated pm sub :=
    truthy customer_id = true ∧
    payment_method_chosen stripe customer_id setup_intent_id pm ∧
    subscriptions_create stripe customer_id (STRIPE_PRICE_ID env) pm
      = Normal sub ∧
    sub_status sub = "active" in
  (∀ pm sub,
      activated pm sub →
      run = (Normal (created_response sub),
             update_where (EqId uid) (created_update sub) t,
             (choice_effects stripe customer_id setup_intent_id
              ++ [SubscriptionsCreate customer_id (STRIPE_PRICE_ID env) pm;
                  StoreUpdate (EqId uid) (created_update sub)])%list) ∧
      store_writes (effects_of run)
        = [StoreUpdate (EqId uid) (created_update sub)] ∧
      table_after run !! uid = created_row sub <$> t !! uid) ∧
  ((¬ ∃ pm sub, activated pm sub) →
   table_after run = t ∧ store_writes (effects_of run) = [] ∧
   ∃ r, answer_of run = Normal r ∧
        (res_status r = 400 ∨ res_status r = 500)).
Proof.
  assert (Hfail : ∀ (r : Response) (es : list Effect),
             store_writes es = [] →
             (res_status r = 400 ∨ res_status r = 500) →
             table_after (Normal r, t, es) = t ∧
             store_writes (effects_of (Normal r, t, es)) = [] ∧
             ∃ r', answer_of (Normal r, t, es) = Normal r' ∧
                   (res_status r' = 400 ∨ res_status r' = 500)).
  { intros r es Hes Hr. cbn. eauto. }
  cbv zeta. rewrite create_stages. unfold try_catch. split.
  - intros pm sub (Hc & Hchosen & Hsub & Hs).
    destruct (payment_method_chosen_run _ _ _ t Hchosen) as [Hpm Hchoose].
    pose proof (choose_payment_method_run customer_id setup_intent_id t)
      as (_ & _ & Hes & _).
    rewrite Hc. cbn [negb]. rewrite (bind_run _ _ _ _ _ _ Hchoose).
    rewrite subscribe_with_method, Hsub, Hs by done.
    change (String.eqb "active" "active") with true. cbv iota.
    split; [reflexivity|].
    cbn [table_after effects_of fst snd]. split.
    + unfold store_writes in *. by rewrite List.filter_app, Hes.
    + apply lookup_created_update.
  - intros Hnone.
    destruct (truthy customer_id) eqn:Hc; cbn [negb].
    2:{ apply Hfail; [done|by left]. }
    destruct (choose_payment_method_run customer_id setup_intent_id t)
      as (c & Hchoose & Hes & Hchosen).
    rewrite (bind_run _ _ _ _ _ _ Hchoose).
    destruct c as [pm|e].
    2:{ cbn [mret handler_ret]. apply Hfail; [|by right].
        by rewrite app_nil_r. }
    destruct (truthy pm) eqn:Hpm.
    2:{ rewrite subscribe_without_method by done.
        apply Hfail; [|by left]. by rewrite app_nil_r. }
    rewrite subscribe_with_method by done.
    destruct (subscriptions_create stripe customer_id (STRIPE_PRICE_ID env) pm)
      as [sub|e] eqn:Hsub.
    2:{ cbn [mret handler_ret]. apply Hfail; [|by right].
        unfold store_writes in *. by rewrite !List.filter_app, Hes. }
    destruct (String.eqb_spec (sub_status sub) "active") as [Hs|Hs].
    2:{ apply Hfail; [|by left].
        unfold store_writes in *. by rewrite !List.filter_app, Hes. }
    destruct Hnone. exists pm, sub. auto.
Qed.

Lemma subscribe_effects uid customer_id pm t :
  truthy pm = true →
  ∃ rest,
    effects_of (subscribe_with stripe env uid customer_id pm t)
    = SubscriptionsCreate customer_id (STRIPE_PRICE_ID env) pm :: rest ∧
    store_writes rest = rest.
Proof.
  intros Hpm. rewrite subscribe_with_method by done.
  destruct (subscriptions_create _ _ _ _) as [sub|e];
    [destruct (String.eqb _ _)|]; eexists; split; reflexivity.
Qed.

Lemma create_effects uid customer_id setup_intent_id t c es :
  truthy customer_id = true →
  choose_payment_method stripe customer_id setup_intent_id t = (c, t, es) →
  effects_of (create stripe env uid customer_id setup_intent_id t)
  = match c with
    | Normal pm =>
        (es ++ effects_of (subscribe_with stripe env uid customer_id pm t))%list
    | Throw _ => es
    end.
Proof.
  intros Hc Hchoose. rewrite create_stages. unfold try_catch.
  rewrite Hc. cbn [negb]. rewrite (bind_run _ _ _ _ _ _ Hchoose).
  destruct c as [pm|e]; [|cbn; by rewrite app_nil_r].
  destruct (subscribe_with stripe env uid customer_id pm t)
    as [[[r|e] t2] es2]; cbn; by rewrite ?app_nil_r.
Qed.

(** X8. How /create settles on the payment method.  A setup intent that
    succeeded and carries a payment method decides: the subscription is
    created with it and the customer's cards are not listed.  Otherwise the
    cards are listed and the first is taken.  With no card either, the
    answer is 400 'No payment method found' and no subscription is created.
    A setup intent that cannot be retrieved is no reason to fall back: the
    answer is 500 and the cards are not listed. *)
Theorem create_payment_method_choice (uid : string)
  (customer_id setup_intent_id : JsValue) (t : Table) :
  truthy customer_id = true →
  let run := create stripe env uid customer_id setup_intent_id t in
  let price := STRIPE_PRICE_ID env in
  (∀ setupIntent,
      truthy setup_intent_id = true →
      setupIntents_retrieve stripe setup_intent_id = Normal setupIntent →
      truthy (si_payment_method setupIntent) = true →
      si_status setupIntent = "succeeded" →
      ∃ rest,
        effects_of run
        = SetupIntentsRetrieve setup_intent_id
          :: SubscriptionsCreate customer_id price
               (si_payment_method setupIntent)
          :: rest ∧
        store_writes rest = rest) ∧
  (∀ pm more,
      intent_gives_nothing stripe setup_intent_id →
      paymentMethods_list stripe customer_id = Normal (pm :: more) →
      pm ≠ "" →
      ∃ rest,
        effects_of run
        = (intent_effects setup_intent_id
           ++ PaymentMethodsList customer_id
              :: SubscriptionsCreate customer_id price (JString pm)
              :: rest)%list ∧
        store_writes rest = rest) ∧
  (intent_gives_nothing stripe setup_intent_id →
   paymentMethods_list stripe customer_id = Normal [] →
   run = (Normal (error_response 400 "No payment method found"), t,
          (intent_effects setup_intent_id
           ++ [PaymentMethodsList customer_id])%list)) ∧
  (∀ e,
      truthy setup_intent_id = true →
      setupIntents_retrieve stripe setup_intent_id = Throw e →
      run = (Normal (error_response 500 "Failed to create subscription"), t,
             [SetupIntentsRetrieve setup_intent_id])).
Proof.
  intros Hc. cbv zeta. split; [|split; [|split]].
  - intros si Hs Hr Hpm Hst.
    rewrite (create_effects _ _ _ _ _ _ Hc
               (choose_from_intent _ _ si _ Hs Hr Hpm Hst)).
    destruct (subscribe_effects uid customer_id (si_payment_method si) t Hpm)
      as (rest & -> & Hrest).
    by exists rest.
  - intros pm more Hno Hl Hne.
    pose proof (choose_from_cards customer_id setup_intent_id t Hno) as Hch.
    rewrite Hl in Hch. rewrite (create_effects _ _ _ _ _ _ Hc Hch).
    assert (Hpm : truthy (JString pm) = true).
    { cbn. by apply negb_true_iff, String.eqb_neq. }
    destruct (subscribe_effects uid customer_id (JString pm) t Hpm)
      as (rest & -> & Hrest).
    exists rest. by rewrite <- app_assoc.
  - intros Hno Hl.
    pose proof (choose_from_cards customer_id setup_intent_id t Hno) as Hch.
    rewrite Hl in Hch. rewrite create_stages. unfold try_catch.
    rewrite Hc. cbn [negb]. rewrite (bind_run _ _ _ _ _ _ Hch).
    rewrite subscribe_without_method by done. by rewrite app_nil_r.
  - intros e Hs Hr. rewrite create_stages. unfold try_catch.
    rewrite Hc. cbn [negb].
    rewrite (bind_run _ _ _ _ _ _ (choose_intent_error _ _ e _ Hs Hr)).
    reflexivity.
Qed.

End Create.

Lemma create_writes_only_after_activation_witness :
  table_after
    (create (sample_stripe sub_active deleted_event) sample_env "user_2"
       (JString "cus_2") JUndefined (sample_table profile_active)) !! "user_2"
  = Some {| stripe_customer_id := Some "cus_2";
            subscription_id := Some "sub_1";
            subscription_status := Some "active";
            subscription_expires_at := Some "2023-11-14T22:13:20.000Z" |}.
Proof.
  destruct (create_writes_only_after_activation
              (sample_stripe sub_active deleted_event) sample_env "user_2"
              (JString "cus_2") JUndefined (sample_table profile_active))
    as [Hwrites _].
  destruct (Hwrites (JString "pm_1") sub_active) as (_ & _ & ->).
  - split; [reflexivity|]. split; [|split; reflexivity].
    right. split; [by left|].
    exists "pm_1", []. split; [reflexivity|]. split; [discriminate|reflexivity].
  - reflexivity.
Defined.

Lemma create_payment_method_choice_witness :
  ∃ rest,
    effects_of
      (create (sample_stripe sub_active deleted_event) sample_env "user_2"
         (JString "cus_2") (JString "seti_1") (sample_table profile_active))
    = SetupIntentsRetrieve (JString "seti_1")
      :: SubscriptionsCreate (JString "cus_2") (JString "price_1")
           (JString "pm_1")
      :: rest ∧
    store_writes rest = rest.
Proof.
  destruct (create_payment_method_choice
              (sample_stripe sub_active deleted_event) sample_env "user_2"
              (JString "cus_2") (JString "seti_1")
              (sample_table profile_active) eq_refl) as (Hintent & _).
  apply (Hintent {| si_payment_method := JString "pm_1";
                    si_status := "succeeded" |}); reflexivity.
Defined.

(* ===================================================================== *)
(** ** What a verified event changes *)
(* ===================================================================== *)

Section Events.

Context (stripe : StripeClient) (env : Env).
Implicit Types (t : Table) (p : Profile) (sub : Subscription).

Lemma apply_status_update_reconciled sub p :
  apply_update
    (status_update (computed_status sub) (computed_expires_at sub)
       (column_truthy (computed_expires_at sub))) p
  = reconciled sub p.
Proof.
  unfold reconciled, apply_update, set_column, status_update.
  by destruct (column_truthy (computed_expires_at sub)).
Qed.

(** X9. The webhook acknowledges and ignores what it does not handle: a
    verified event that is neither a deletion nor an update of an active
    subscription is answered [{received: true}] with the table untouched
    and no effect performed.  In particular an update whose status is not
    active (past_due, canceled, ...) leaves the stored status as it was. *)
Theorem webhook_ignores_other_events (body : string) (sig : JsValue)
  (t : Table) (event : Event) :
  webhooks_constructEvent stripe body sig (STRIPE_WEBHOOK_SECRET env)
    = Normal event →
  ev_type event ≠ "customer.subscription.deleted" →
  (ev_type event = "customer.subscription.updated" →
   sub_status (ev_object event) ≠ "active") →
  webhook stripe env body sig t
  = (Normal (json [("received", JBool true)]), t, []).
Proof.
  intros Hv Hd Hu. rewrite (webhook_verified _ _ _ _ _ event) by done.
  by rewrite handle_event_ignored.
Qed.

(** X10. A verified update event for an active subscription of customer
    [C] reconciles every row mapped to [C] and no other: such a row gets
    the computed status and, when one could be computed, the computed
    expiry; its subscription id and customer id are not touched, and the
    rows of other customers are as they were. *)
Theorem webhook_update_reconciles (body : string) (sig : JsValue) (t : Table)
  (event : Event) :
  webhooks_constructEvent stripe body sig (STRIPE_WEBHOOK_SECRET env)
    = Normal event →
  ev_type event = "customer.subscription.updated" →
  sub_status (ev_object event) = "active" →
  let sub := ev_object event in
  let t' := table_after (webhook stripe env body sig t) in
  ∀ k, t' !! k
       = (λ p, if bool_decide (stripe_customer_id p = Some (sub_customer sub))
               then reconciled sub p else p) <$> t !! k.
Proof.
  intros Hv Hu Hs. cbv zeta. intros k.
  rewrite (webhook_verified _ _ _ _ _ event) by done.
  rewrite handle_event_updated_active by done.
  cbn [table_after fst snd]. rewrite lookup_update_customer.
  destruct (t !! k) as [p|]; [|done]. cbn [fmap option_fmap option_map].
  by rewrite apply_status_update_reconciled.
Qed.

(** X11. The webhook and the status poll agree: after a verified update
    event for an active subscription, a status poll by a user mapped to the
    event's customer, to which the provider answers with the same
    subscription object, writes nothing. *)
Theorem poll_after_webhook_silent (body : string) (sig : JsValue) (t : Table)
  (event : Event) (uid : string) (p : Profile) :
  webhooks_constructEvent stripe body sig (STRIPE_WEBHOOK_SECRET env)
    = Normal event →
  ev_type event = "customer.subscription.updated" →
  sub_status (ev_object event) = "active" →
  t !! uid = Some p →
  stripe_customer_id p = Some (sub_customer (ev_object event)) →
  column_truthy (subscription_id p) = true →
  subscriptions_retrieve stripe (default "" (subscription_id p))
    = Normal (ev_object event) →
  let t1 := table_after (webhook stripe env body sig t) in
  store_writes (effects_of (get_status stripe uid t1)) = [] ∧
  table_after (get_status stripe uid t1) = t1.
Proof.
  intros Hv Hu Hs Hp Hc Hid Hr. cbv zeta.
  assert (Hrow : table_after (webhook stripe env body sig t) !! uid
                 = Some (reconciled (ev_object event) p)).
  { rewrite (webhook_verified _ _ _ _ _ event) by done.
    rewrite handle_event_updated_active by done.
    cbn [table_after fst snd]. rewrite lookup_update_customer, Hp.
    cbn [fmap option_fmap option_map].
    by rewrite apply_status_update_reconciled, bool_decide_eq_true_2. }
  set (sub := ev_object event) in *.
  rewrite (get_status_active _ uid _ (reconciled sub p) sub); try done.
  cbn [reconciled subscription_status subscription_expires_at].
  rewrite (bool_decide_eq_true_2 (Some _ = Some _)) by done.
  destruct (column_truthy (computed_expires_at sub)) eqn:He; cbn [andb].
  - by rewrite bool_decide_eq_true_2.
  - done.
Qed.

End Events.

Lemma webhook_ignores_other_events_witness :
  webhook (sample_stripe sub_active (updated_event sub_past_due)) sample_env
    "" (JString "good") (sample_table profile_active)
  = (Normal (json [("received", JBool true)]), sample_table profile_active, []).
Proof.
  apply (webhook_ignores_other_events
           (sample_stripe sub_active (updated_event sub_past_due)) sample_env
           "" (JString "good") (sample_table profile_active)
           (updated_event sub_past_due) eq_refl); discriminate.
Defined.

Lemma webhook_update_reconciles_witness :
  table_after
    (webhook (sample_stripe sub_active (updated_event sub_cancelling))
       sample_env "" (JString "good") (sample_table profile_active))
  !! "user_1"
  = Some profile_cancelling.
Proof.
  rewrite (webhook_update_reconciles
             (sample_stripe sub_active (updated_event sub_cancelling))
             sample_env "" (JString "good") (sample_table profile_active)
             (updated_event sub_cancelling) eq_refl eq_refl eq_refl "user_1").
  reflexivity.
Defined.

Lemma poll_after_webhook_silent_witness :
  store_writes
    (effects_of
       (get_status (sample_stripe sub_cancelling (updated_event sub_cancelling))
          "user_1"
          (table_after
             (webhook (sample_stripe sub_cancelling
                         (updated_event sub_cancelling))
                sample_env "" (JString "good")
                (sample_table profile_active))))) = [].
Proof.
  apply (poll_after_webhook_silent
           (sample_stripe sub_cancelling (updated_event sub_cancelling))
           sample_env "" (JString "good") (sample_table profile_active)
           (updated_event sub_cancelling) "user_1" profile_active
           eq_refl eq_refl eq_refl eq_refl eq_refl eq_refl eq_refl).
Defined.

(* ===================================================================== *)
(** ** Reading an expiry back *)
(* ===================================================================== *)

Section ReadBack.

Lemma string_app_assoc (a b c : string) : (a +:+ b) +:+ c = a +:+ (b +:+ c).
Proof.
  induction a as [|x a IH]; [reflexivity|].
  change (String x ((a +:+ b) +:+ c) = String x (a +:+ (b +:+ c))).
  by rewrite IH.
Qed.

Lemma string_length_app (a b : string) :
  String.length (a +:+ b) = (String.length a + String.length b)%nat.
Proof.
  induction a as [|x a IH]; [reflexivity|].
  change (S (String.length (a +:+ b))
          = S (String.length a + String.length b)).
  by rewrite IH.
Qed.

Lemma pad_length w n : String.length (pad w n) = w.
Proof.
  revert n. induction w as [|w IH]; intros n; cbn [pad]; [done|].
  rewrite string_length_app, IH. cbn. lia.
Qed.

Lemma digit_is_digit n : is_digit (digit n) = true.
Proof.
  unfold is_digit, digit.
  assert (0 <= n mod 10 < 10) by (apply Z.mod_pos_bound; lia).
  rewrite nat_ascii_embedding by lia.
  apply andb_true_iff. split; [apply Nat.leb_le|apply Nat.leb_le]; lia.
Qed.

Lemma digit_value_digit n : digit_value (digit n) = n mod 10.
Proof.
  unfold digit_value, digit.
  assert (0 <= n mod 10 < 10) by (apply Z.mod_pos_bound; lia).
  rewrite nat_ascii_embedding by lia. lia.
Qed.

Lemma read_digits_snoc w acc s v c rest :
  read_digits w acc s = Some (v, String c rest) →
  is_digit c = true →
  read_digits (S w) acc s = Some (10 * v + digit_value c, rest).
Proof.
  revert acc s. induction w as [|w IH]; intros acc s Hr Hc.
  - cbn in Hr. injection Hr as -> ->. cbn. by rewrite Hc.
  - cbn [read_digits] in Hr. destruct s as [|c' s']; [done|].
    destruct (is_digit c') eqn:Hc'; [|done].
    specialize (IH _ _ Hr Hc). cbn [read_digits] in *. by rewrite Hc'.
Qed.

Lemma read_digits_pad w n acc rest :
  0 <= n < 10 ^ Z.of_nat w →
  read_digits w acc (pad w n +:+ rest) = Some (acc * 10 ^ Z.of_nat w + n, rest).
Proof.
  revert n acc rest. induction w as [|w IH]; intros n acc rest Hn.
  - cbn. f_equal. f_equal. change (10 ^ Z.of_nat 0) with 1 in *. lia.
  - change (pad (S w) n) with (pad w (n / 10) +:+ String (digit n) "").
    rewrite string_app_assoc.
    change (String (digit n) "" +:+ rest) with (String (digit n) rest).
    rewrite Nat2Z.inj_succ, Z.pow_succ_r in * by lia.
    assert (Hq : 0 <= n / 10 < 10 ^ Z.of_nat w).
    { split; [apply Z.div_pos; lia|apply Z.div_lt_upper_bound; lia]. }
    rewrite (read_digits_snoc w acc _ _ _ _ (IH _ acc _ Hq) (digit_is_digit n)).
    rewrite digit_value_digit. f_equal. f_equal.
    pose proof (Z.div_mod n 10). lia.
Qed.

Lemma read_digits_field w n rest :
  0 <= n < 10 ^ Z.of_nat w →
  read_digits w 0 (pad w n +:+ rest) = Some (n, rest).
Proof. intros H. by rewrite read_digits_pad. Qed.

Lemma digit_not_sign c :
  is_digit c = true → Ascii.eqb c "+" = false ∧ Ascii.eqb c "-" = false.
Proof.
  intros H. split; apply Ascii.eqb_neq; intros ->; discriminate.
Qed.

Lemma read_year_digits c s :
  is_digit c = true →
  read_year (String c s) = read_digits 4 0 (String c s).
Proof.
  intros H. destruct (digit_not_sign c H) as [Hp Hm].
  unfold read_year. by rewrite Hp, Hm.
Qed.

Lemma read_year_iso y rest :
  -999999 <= y <= 999999 →
  read_year (iso_year y +:+ rest) = Some (y, rest).
Proof.
  intros Hy. unfold iso_year.
  destruct (Z.leb_spec 0 y) as [H0|H0];
    [destruct (Z.leb_spec y 9999) as [H9|H9]|]; cbn [andb].
  - change (pad 4 y +:+ rest)
      with (String (digit (y / 10 / 10 / 10)) (pad 3 y +:+ rest)) at 1.
    rewrite read_year_digits by apply digit_is_digit.
    change (String (digit (y / 10 / 10 / 10)) (pad 3 y +:+ rest))
      with (pad 4 y +:+ rest).
    apply read_digits_field. cbn. lia.
  - destruct (Z.ltb_spec y 0); [lia|].
    change (("+" +:+ pad 6 (Z.abs y)) +:+ rest)
      with (String "+" (pad 6 (Z.abs y) +:+ rest)).
    unfold read_year. change (Ascii.eqb "+" "+") with true. cbv iota.
    rewrite read_digits_field by (cbn; lia). f_equal. f_equal. lia.
  - destruct (Z.ltb_spec y 0); [|lia].
    change (("-" +:+ pad 6 (Z.abs y)) +:+ rest)
      with (String "-" (pad 6 (Z.abs y) +:+ rest)).
    unfold read_year. change (Ascii.eqb "-" "+") with false.
    change (Ascii.eqb "-" "-") with true. cbv iota.
    rewrite read_digits_field by (cbn; lia). cbn [mbind option_bind].
    f_equal. f_equal. lia.
Qed.

Lemma expect_head c rest : expect c (String c rest) = Some rest.
Proof. unfold expect. by rewrite Ascii.eqb_refl. Qed.

Lemma format_iso_chain f :
  format_iso f
  = iso_year (f_year f) +:+
    String "-" (pad 2 (f_month f + 1) +:+
    String "-" (pad 2 (f_date f) +:+
    String "T" (pad 2 (f_hours f) +:+
    String ":" (pad 2 (f_minutes f) +:+
    String ":" (pad 2 (f_seconds f) +:+
    String "." (pad 3 (f_ms f) +:+
    String "Z" "")))))).
Proof. reflexivity. Qed.

Lemma parse_format f : printable f → parse_iso (format_iso f) = Some f.
Proof.
  intros (Hy & Hm & Hd & Hh & Hmi & Hs & Hms).
  rewrite format_iso_chain. unfold parse_iso.
  rewrite read_year_iso by done. cbn [mbind option_bind].
  rewrite expect_head. cbn [mbind option_bind].
  rewrite read_digits_field by (cbn; lia). cbn [mbind option_bind].
  rewrite expect_head. cbn [mbind option_bind].
  rewrite read_digits_field by (cbn; lia). cbn [mbind option_bind].
  rewrite expect_head. cbn [mbind option_bind].
  rewrite read_digits_field by (cbn; lia). cbn [mbind option_bind].
  rewrite expect_head. cbn [mbind option_bind].
  rewrite read_digits_field by (cbn; lia). cbn [mbind option_bind].
  rewrite expect_head. cbn [mbind option_bind].
  rewrite read_digits_field by (cbn; lia). cbn [mbind option_bind].
  rewrite expect_head. cbn [mbind option_bind].
  rewrite read_digits_field by (cbn; lia). cbn [mbind option_bind].
  rewrite expect_head. cbn [mbind option_bind].
  change (String.eqb "" "") with true. cbv iota.
  destruct f. cbn. f_equal. f_equal. lia.
Qed.

Lemma digits2_pos_bound m : Z.pos m < 2 ^ Z.pos (digits2_pos m).
Proof.
  induction m as [m IH|m IH|]; cbn [digits2_pos].
  - rewrite Pos2Z.inj_succ, Z.pow_succ_r by lia. lia.
  - rewrite Pos2Z.inj_succ, Z.pow_succ_r by lia. lia.
  - reflexivity.
Qed.

Lemma valid_mantissa_bound s m e :
  valid_binary (S754_finite s m e) = true → Z.pos m < 2 ^ 53.
Proof.
  cbn [valid_binary]. unfold bounded, canonical_mantissa, fexp.
  intros [Hc _]%andb_true_iff. apply Z.eqb_eq in Hc.
  pose proof (digits2_pos_bound m) as Hd.
  assert (Z.pos (digits2_pos m) <= 53) by (unfold FloatOps.prec in Hc; lia).
  eapply Z.lt_le_trans; [exact Hd|]. apply Z.pow_le_mono_r; lia.
Qed.

(** A time value that TimeClip lets through is within the Date range. *)
Lemma TimeClip_range time t :
  TimeClip time = Some t → -8640000000000000 <= t <= 8640000000000000.
Proof.
  unfold TimeClip. destruct (_ || _); [discriminate|].
  destruct (8.64e15 <? PrimFloat.abs time)%float eqn:Hlt; [discriminate|].
  rewrite ltb_spec, abs_spec in Hlt.
  pose proof (Prim2SF_valid time) as Hv.
  unfold float_trunc. destruct (Prim2SF time) as [s|s| |s m e]; try discriminate.
  - intros [= <-]. lia.
  - apply valid_mantissa_bound in Hv.
    change (Prim2SF 8.64e15) with (S754_finite false 8640000000000000 0) in Hlt.
    cbn [SFabs SFltb SFcompare] in Hlt.
    assert (Hmag : Z.shiftl (Z.pos m) e <= 8640000000000000).
    { revert Hlt.
      destruct (Z.compare_spec 0 e) as [He|Hpos|Hneg]; intros Hlt;
        try discriminate.
      - subst e. rewrite Z.shiftl_0_r.
        destruct (Pos.compare_cont Eq 8640000000000000 m) eqn:Hc;
          try discriminate.
        + apply Pos.compare_eq in Hc. lia.
        + apply Pos.compare_gt_iff, Pos2Z.pos_lt_pos in Hc. clear -Hc. lia.
      - rewrite Z.shiftl_div_pow2 by lia.
        assert (2 <= 2 ^ (- e)) by (apply (Z.pow_le_mono_r 2 1 (- e)); lia).
        assert (Z.pos m / 2 ^ (- e) <= Z.pos m / 2)
          by (apply Z.div_le_compat_l; lia).
        assert (Z.pos m / 2 < 2 ^ 52)
          by (apply Z.div_lt_upper_bound; [lia|];
              change (2 * 2 ^ 52) with (2 ^ 53); lia).
        change (2 ^ 52) with 4503599627370496 in *. lia. }
    assert (0 <= Z.shiftl (Z.pos m) e) by (apply Z.shiftl_nonneg; lia).
    intros [= <-]. destruct s; lia.
Qed.


Lemma fields_printable t :
  -8640000000000000 <= t <= 8640000000000000 → printable (fields_of_time t).
Proof.
  intros Ht. unfold printable, fields_of_time;
    cbn [f_year f_month f_date f_hours f_minutes f_seconds f_ms].
  pose proof (YearFromTime_range t Ht).
  pose proof (MonthFromTime_range t).
  pose proof (DateFromTime_range t).
  pose proof (time_fields_range t) as (? & ? & ? & ?).
  repeat split; lia.
Qed.

Lemma format_iso_length f :
  String.length (format_iso f)
  = if (0 <=? f_year f) && (f_year f <=? 9999) then 24%nat else 27%nat.
Proof.
  rewrite format_iso_chain. rewrite string_length_app. unfold iso_year.
  destruct ((0 <=? f_year f) && (f_year f <=? 9999));
    rewrite ?string_length_app, ?pad_length;
    cbn [String.length];
    rewrite ?string_length_app, ?pad_length; cbn [String.length];
    repeat (rewrite string_length_app, pad_length; cbn [String.length]);
    by destruct (f_year f <? 0).
Qed.

Lemma normalizer_answer v s :
  timestampToISOString v = Normal (Some s) →
  ∃ t, valid_epoch_seconds v t ∧ s = format_iso (fields_of_time t).
Proof.
  destruct v as [| |b|n|x];
    try (rewrite timestampToISOString_not_number by done; discriminate).
  rewrite timestampToISOString_number.
  destruct (PrimFloat.is_zero n) eqn:Hzero; [discriminate|].
  destruct (PrimFloat.is_nan n) eqn:Hnan; [discriminate|]. cbn [orb].
  destruct (Date_of_number (n * 1000)%float) as [t|] eqn:Hd; [|discriminate].
  intros [= <-]. exists t. split; [|done]. by exists n.
Qed.

Lemma valid_epoch_range v t :
  valid_epoch_seconds v t → -8640000000000000 <= t <= 8640000000000000.
Proof. intros (n & _ & _ & _ & Hd). by apply TimeClip_range in Hd. Qed.

(** X12. The string the normalizer returns can be read back: it is 24
    characters long (27 with an expanded year), so never empty, and read
    as YYYY-MM-DDTHH:mm:ss.sssZ its fields denote exactly the time value of
    the Date the normalizer built, which lies within the Date range. *)
Theorem normalizer_round_trip (v : JsValue) (s : string) :
  timestampToISOString v = Normal (Some s) →
  ∃ t, valid_epoch_seconds v t ∧
       -8640000000000000 <= t <= 8640000000000000 ∧
       time_of_fields <$> parse_iso s = Some t ∧
       (String.length s = 24%nat ∨ String.length s = 27%nat) ∧
       column_truthy (Some s) = true.
Proof.
  intros Hs. destruct (normalizer_answer v s Hs) as (t & Hv & ->).
  pose proof (valid_epoch_range v t Hv) as Ht.
  exists t. split; [done|]. split; [done|].
  rewrite parse_format by (by apply fields_printable).
  cbn [fmap option_fmap option_map]. rewrite time_of_fields_of_time.
  split; [done|].
  assert (Hlen : String.length (format_iso (fields_of_time t)) = 24%nat
                 ∨ String.length (format_iso (fields_of_time t)) = 27%nat).
  { rewrite format_iso_length. destruct (_ && _); auto. }
  split; [done|]. cbn [column_truthy].
  destruct (format_iso (fields_of_time t)); [|done].
  destruct Hlen; discriminate.
Qed.

(** X13. Two valid timestamps get the same expiry string exactly when
    they denote the same millisecond: comparing expiry strings, as the
    status poll does to decide whether to write, is comparing instants. *)
Theorem expiry_strings_distinguish (v1 v2 : JsValue) (t1 t2 : Z) :
  valid_epoch_seconds v1 t1 →
  valid_epoch_seconds v2 t2 →
  (iso_or_null v1 = iso_or_null v2 ↔ t1 = t2).
Proof.
  intros Hv1 Hv2.
  assert (Hiso : ∀ v t, valid_epoch_seconds v t →
                        iso_or_null v = Some (format_iso (fields_of_time t))).
  { intros v t (n & -> & Hnan & Hzero & Hd). unfold iso_or_null.
    by rewrite timestampToISOString_number, Hnan, Hzero, Hd. }
  rewrite (Hiso v1 t1 Hv1), (Hiso v2 t2 Hv2). split; [|by intros ->].
  intros [= Heq].
  assert (Hp : parse_iso (format_iso (fields_of_time t1))
               = parse_iso (format_iso (fields_of_time t2)))
    by (by rewrite Heq).
  rewrite !parse_format in Hp
    by (eapply fields_printable, valid_epoch_range; eassumption).
  assert (Hf : fields_of_time t1 = fields_of_time t2) by congruence.
  rewrite <- (time_of_fields_of_time t1), <- (time_of_fields_of_time t2).
  by rewrite Hf.
Qed.

End ReadBack.

Lemma normalizer_round_trip_witness :
  time_of_fields <$> parse_iso "2023-11-14T22:13:20.000Z"
  = Some 1700000000000.
Proof.
  destruct (normalizer_round_trip (JNumber 1700000000)
              "2023-11-14T22:13:20.000Z" eq_refl)
    as (t & (n & Hn & _ & _ & Hd) & _ & Hparse & _).
  rewrite Hparse. injection Hn as <-.
  vm_compute in Hd. exact (eq_sym Hd).
Defined.

Lemma expiry_strings_distinguish_witness :
  iso_or_null (JNumber 1700000000) ≠ iso_or_null (JNumber 1700000000.5).
Proof.
  intros Heq.
  assert (H : 1700000000000 = 1700000000500); [|discriminate].
  apply (expiry_strings_distinguish (JNumber 1700000000)
           (JNumber 1700000000.5) 1700000000000 1700000000500).
  - exists 1700000000%float. repeat split; reflexivity.
  - exists 1700000000.5%float. repeat split; reflexivity.
  - exact Heq.
Defined.

(* ===================================================================== *)
(** ** The middleware in front of the routes *)
(* ===================================================================== *)

Section Middleware.

Context (getUser : string → Completion (option AuthUser)).
Implicit Types (t : Table) (p : Profile).

Lemma remove_first_eq pat s :
  remove_first pat s
  = if String.prefix pat s then string_drop (String.length pat) s
    else match s with
         | EmptyString => EmptyString
         | String c s' => String c (remove_first pat s')
         end.
Proof. by destruct s. Qed.

Lemma prefix_app pat s : String.prefix pat (pat +:+ s) = true.
Proof.
  induction pat as [|a pat IH]; [by destruct s|].
  change (match ascii_dec a a with
          | left _ => String.prefix pat (pat +:+ s)
          | right _ => false
          end = true).
  destruct (ascii_dec a a); [exact IH|done].
Qed.

Lemma string_drop_app pat s : string_drop (String.length pat) (pat +:+ s) = s.
Proof. induction pat as [|a pat IH]; [done|]. exact IH. Qed.

Lemma remove_first_prefix pat s : remove_first pat (pat +:+ s) = s.
Proof. by rewrite remove_first_eq, prefix_app, string_drop_app. Qed.

Lemma authenticateUser_token authorization token t :
  bearer_token authorization = Some token →
  authenticateUser getUser authorization t
  = if String.eqb token ""
    then Respond (error_response 401 "No token provided")
    else match getUser token with
         | Throw _ => Respond (error_response 401 "Authentication failed")
         | Normal None => Respond (error_response 401 "Invalid token")
         | Normal (Some user) =>
             Next {| ru_id := au_id user; ru_email := au_email user;
                     ru_subscription_status :=
                       effective_status t (au_id user) |}
         end.
Proof. intros H. unfold authenticateUser. by rewrite H. Qed.

(** X14. [authenticateUser] hands [getUser] exactly the token that follows
    'Bearer ': for the header 'Bearer ' + token with a non-empty token, the
    outcome is the one [getUser token] decides (401 when it throws or finds
    no user, otherwise [req.user] with the user's id, email and status).
    Without a header, or with nothing after 'Bearer ', the answer is 401
    'No token provided' whatever [getUser] would say. *)
Theorem authenticateUser_bearer (token : string) (t : Table) :
  bearer_token (Some ("Bearer " +:+ token)) = Some token ∧
  authenticateUser getUser None t
  = Respond (error_response 401 "No token provided") ∧
  authenticateUser getUser (Some "Bearer ") t
  = Respond (error_response 401 "No token provided") ∧
  (token ≠ "" →
   authenticateUser getUser (Some ("Bearer " +:+ token)) t
   = match getUser token with
     | Throw _ => Respond (error_response 401 "Authentication failed")
     | Normal None => Respond (error_response 401 "Invalid token")
     | Normal (Some user) =>
         Next {| ru_id := au_id user; ru_email := au_email user;
                 ru_subscription_status := effective_status t (au_id user) |}
     end).
Proof.
  assert (Hb : bearer_token (Some ("Bearer " +:+ token)) = Some token).
  { unfold bearer_token. cbn [fmap option_fmap option_map].
    by rewrite remove_first_prefix. }
  split; [done|]. split; [done|]. split; [done|].
  intros Hne. rewrite (authenticateUser_token _ token) by done.
  by apply String.eqb_neq in Hne as ->.
Qed.

Lemma gate_outcome (token : string) (user : AuthUser) (t : Table) :
  token ≠ "" →
  getUser token = Normal (Some user) →
  let status := effective_status t (au_id user) in
  authenticated_subscriber getUser (Some ("Bearer " +:+ token)) t
  = if bool_decide (status = "active" ∨ status = "active_until_period_end")
    then Next {| ru_id := au_id user; ru_email := au_email user;
                 ru_subscription_status := status |}
    else Respond (subscription_required status).
Proof.
  intros Hne Hu. cbv zeta. unfold authenticated_subscriber.
  assert (Hb : bearer_token (Some ("Bearer " +:+ token)) = Some token).
  { unfold bearer_token. cbn [fmap option_fmap option_map].
    by rewrite remove_first_prefix. }
  rewrite (authenticateUser_token _ token) by done.
  apply String.eqb_neq in Hne as ->. rewrite Hu.
  unfold requireActiveSubscription. cbn [ru_subscription_status].
  set (status := effective_status t (au_id user)).
  destruct (String.eqb_spec status "active") as [Ha|Ha];
    [|destruct (String.eqb_spec status "active_until_period_end") as [Hb'|Hb']];
    cbn [orb].
  - by rewrite bool_decide_eq_true_2 by (by left).
  - by rewrite bool_decide_eq_true_2 by (by right).
  - by rewrite bool_decide_eq_false_2 by (by intros [|]).
Qed.

(** X15. The chain in front of the drinks, intake and user routes lets a
    request through exactly when the user's stored status is 'active' or
    'active_until_period_end'.  Every other authenticated user is answered
    403 with the status echoed, where a missing row and a NULL or empty
    status count as 'inactive'. *)
Theorem subscriber_gate (token : string) (user : AuthUser) (t : Table) :
  token ≠ "" →
  getUser token = Normal (Some user) →
  let status := effective_status t (au_id user) in
  authenticated_subscriber getUser (Some ("Bearer " +:+ token)) t
  = if bool_decide (status = "active" ∨ status = "active_until_period_end")
    then Next {| ru_id := au_id user; ru_email := au_email user;
                 ru_subscription_status := status |}
    else Respond (subscription_required status).
Proof. apply gate_outcome. Qed.

Lemma effective_status_lookup t uid p status :
  t !! uid = Some p →
  subscription_status p = Some status →
  status ≠ "" →
  effective_status t uid = status.
Proof.
  intros Hp Hs Hne. unfold effective_status. rewrite Hp, Hs.
  cbn [column_truthy]. by apply String.eqb_neq in Hne as ->.
Qed.

End Middleware.

Lemma authenticateUser_bearer_witness :
  authenticateUser sample_getUser (Some "Bearer tok_1")
    (sample_table profile_active)
  = Next {| ru_id := "user_1"; ru_email := "user_1@example.com";
            ru_subscription_status := "active" |}.
Proof.
  destruct (authenticateUser_bearer sample_getUser "tok_1"
              (sample_table profile_active)) as (_ & _ & _ & Hauth).
  etrans; [exact (Hauth ltac:(discriminate))|reflexivity].
Defined.

Lemma subscriber_gate_witness :
  authenticated_subscriber sample_getUser (Some "Bearer tok_1")
    (sample_table profile_fresh)
  = Respond (subscription_required "inactive").
Proof.
  etrans;
    [exact (subscriber_gate sample_getUser "tok_1"
              {| au_id := "user_1"; au_email := "user_1@example.com" |}
              (sample_table profile_fresh) ltac:(discriminate) eq_refl)
    |reflexivity].
Defined.

(* ===================================================================== *)
(** ** Access follows the subscription *)
(* ===================================================================== *)

Section Access.

Context (stripe : StripeClient) (env : Env).
Context (getUser : string → Completion (option AuthUser)).
Implicit Types (t : Table) (p : Profile) (sub : Subscription).

(** X16. What the subscription routes store decides who passes the
    middleware afterwards.  A user who scheduled a cancellation still
    passes, with status 'active_until_period_end'.  A user whose
    subscription a status poll found no longer active is turned away with
    403 'inactive', and one whose customer a verified deletion event names
    with 403 'cancelled'. *)
Theorem access_follows_subscription (token : string) (user : AuthUser)
  (t : Table) (p : Profile) :
  token ≠ "" →
  getUser token = Normal (Some user) →
  t !! au_id user = Some p →
  column_truthy (subscription_id p) = true →
  let uid := au_id user in
  let header := Some ("Bearer " +:+ token) in
  let id := default "" (subscription_id p) in
  (∀ sub,
      subscriptions_update stripe id true = Normal sub →
      authenticated_subscriber getUser header
        (table_after (cancel stripe uid t))
      = Next {| ru_id := uid; ru_email := au_email user;
                ru_subscription_status := "active_until_period_end" |}) ∧
  (∀ sub,
      subscriptions_retrieve stripe id = Normal sub →
      sub_status sub ≠ "active" →
      authenticated_subscriber getUser header
        (table_after (get_status stripe uid t))
      = Respond (subscription_required "inactive")) ∧
  (∀ body sig event,
      webhooks_constructEvent stripe body sig (STRIPE_WEBHOOK_SECRET env)
        = Normal event →
      ev_type event = "customer.subscription.deleted" →
      stripe_customer_id p = Some (sub_customer (ev_object event)) →
      authenticated_subscriber getUser header
        (table_after (webhook stripe env body sig t))
      = Respond (subscription_required "cancelled")).
Proof.
  intros Hne Hu Hp Hid. cbv zeta. split; [|split].
  - intros sub Hs.
    assert (Heq : profile_subscription_id (t !! au_id user) = subscription_id p)
      by (by rewrite Hp).
    rewrite (gate_outcome getUser token user) by done.
    rewrite (cancel_scheduled _ _ t sub) by (by rewrite ?Heq).
    cbn [table_after fst snd].
    rewrite (effective_status_lookup _ _
               (with_status "active_until_period_end" p)
               "active_until_period_end"); try done.
    by rewrite (update_status_only _ _ _ p), lookup_insert_eq.
  - intros sub Hr Hs.
    rewrite (gate_outcome getUser token user) by done.
    rewrite (get_status_inactive _ _ t p sub) by done.
    cbn [table_after fst snd].
    rewrite (effective_status_lookup _ _
               (apply_update (clearing_update "inactive") p) "inactive");
      try done.
    by rewrite lookup_update_id, decide_True, Hp.
  - intros body sig event Hv Hd Hc.
    rewrite (gate_outcome getUser token user) by done.
    rewrite (webhook_verified _ _ _ _ _ event) by done.
    rewrite handle_event_deleted by done.
    cbn [table_after fst snd].
    rewrite (effective_status_lookup _ _
               (apply_update (clearing_update "cancelled") p) "cancelled");
      try done.
    rewrite lookup_update_customer, Hp. cbn [fmap option_fmap option_map].
    by rewrite bool_decide_eq_true_2.
Qed.

End Access.

Lemma access_follows_subscription_witness :
  authenticated_subscriber sample_getUser (Some "Bearer tok_1")
    (table_after
       (webhook (sample_stripe sub_active deleted_event) sample_env ""
          (JString "good") (sample_table profile_active)))
  = Respond (subscription_required "cancelled").
Proof.
  destruct (access_follows_subscription
              (sample_stripe sub_active deleted_event) sample_env
              sample_getUser "tok_1"
              {| au_id := "user_1"; au_email := "user_1@example.com" |}
              (sample_table profile_active) profile_active
              ltac:(discriminate) eq_refl eq_refl eq_refl)
    as (_ & _ & Hdeleted).
  apply (Hdeleted "" (JString "good") deleted_event); reflexivity.
Defined.

(* ===================================================================== *)
(** ** The customer of a user *)
(* ===================================================================== *)

Section SetupIntent.

Context (client : SetupClient) (defaults : Profile).
Implicit Types (t : Table) (p : Profile).

Lemma setup_intent_for_effects customer_id :
  snd (setup_intent_for client customer_id) = [SetupIntentsCreate customer_id].
Proof.
  unfold setup_intent_for. by destruct (setupIntents_create client customer_id).
Qed.

Lemma setup_intent_stored uid email t :
  column_truthy (stored_customer t uid) = true →
  setup_intent client defaults uid email t
  = (fst (setup_intent_for client (default "" (stored_customer t uid))), t,
     [SetupIntentsCreate (default "" (stored_customer t uid))]).
Proof.
  intros H. unfold setup_intent. fold (stored_customer t uid). rewrite H.
  pose proof (setup_intent_for_effects (default "" (stored_customer t uid))).
  by destruct (setup_intent_for client _) as [r es]; cbn in *; subst.
Qed.

Lemma setup_intent_created uid email t customer_id :
  column_truthy (stored_customer t uid) = false →
  customers_create client email uid = Normal customer_id →
  setup_intent client defaults uid email t
  = (fst (setup_intent_for client customer_id),
     upsert_customer defaults uid customer_id t,
     [CustomersCreate email uid; ProfileUpsert uid email customer_id;
      SetupIntentsCreate customer_id]).
Proof.
  intros H Hc. unfold setup_intent. fold (stored_customer t uid).
  rewrite H, Hc.
  pose proof (setup_intent_for_effects customer_id).
  by destruct (setup_intent_for client _) as [r es]; cbn in *; subst.
Qed.

Lemma stored_customer_upsert uid customer_id t :
  stored_customer (upsert_customer defaults uid customer_id t) uid
  = Some customer_id.
Proof.
  unfold stored_customer, upsert_customer. by rewrite lookup_insert_eq.
Qed.

(** X17. POST /setup-intent creates a provider customer only for a user
    who has none on record.  With a customer id stored, the setup intent
    is created for that id, no customer is created and the table is not
    written.  Without one, the customer the provider creates is stored on
    the user's row (an existing row keeps its other columns, no other row
    changes) before the setup intent is asked for, so it stays stored even
    when that call fails; and when creating the customer fails, the answer
    is 500 and nothing is stored. *)
Theorem setup_intent_customer (uid email : string) (t : Table) :
  let run := setup_intent client defaults uid email t in
  (column_truthy (stored_customer t uid) = true →
   snd (fst run) = t ∧
   snd run = [SetupIntentsCreate (default "" (stored_customer t uid))]) ∧
  (column_truthy (stored_customer t uid) = false →
   match customers_create client email uid with
   | Normal customer_id =>
       snd run = [CustomersCreate email uid;
                  ProfileUpsert uid email customer_id;
                  SetupIntentsCreate customer_id] ∧
       stored_customer (snd (fst run)) uid = Some customer_id ∧
       (∀ p, t !! uid = Some p →
             snd (fst run) !! uid = Some (with_customer customer_id p)) ∧
       (∀ k, k ≠ uid → snd (fst run) !! k = t !! k)
   | Throw _ =>
       run = (error_response 500 "Failed to create setup intent", t,
              [CustomersCreate email uid])
   end).
Proof.
  cbv zeta. split.
  - intros H. by rewrite setup_intent_stored.
  - intros H. destruct (customers_create client email uid) as [cid|e] eqn:Hc.
    + rewrite (setup_intent_created _ _ _ cid) by done. cbn [fst snd].
      split; [done|]. split; [apply stored_customer_upsert|]. split.
      * intros p Hp. unfold upsert_customer.
        by rewrite lookup_insert_eq, Hp.
      * intros k Hk. unfold upsert_customer. by rewrite lookup_insert_ne.
    + unfold setup_intent. fold (stored_customer t uid). by rewrite H, Hc.
Qed.

(** X18. Asking again does not create a second customer: once a run of
    POST /setup-intent has found or stored a non-empty customer id for the
    user, the next run creates no customer and leaves the table as it is,
    whether or not the first run's setup intent succeeded. *)
Theorem setup_intent_again (uid email : string) (t : Table)
  (customer_id : string) :
  customer_id ≠ "" →
  (stored_customer t uid = Some customer_id ∨
   (column_truthy (stored_customer t uid) = false ∧
    customers_create client email uid = Normal customer_id)) →
  let first := setup_intent client defaults uid email t in
  let second := setup_intent client defaults uid email (snd (fst first)) in
  snd second = [SetupIntentsCreate customer_id] ∧
  snd (fst second) = snd (fst first) ∧
  stored_customer (snd (fst second)) uid = Some customer_id.
Proof.
  intros Hne Hcases. cbv zeta.
  assert (Htruthy : column_truthy (Some customer_id) = true).
  { cbn. by apply negb_true_iff, String.eqb_neq. }
  assert (Hfirst :
            stored_customer
              (snd (fst (setup_intent client defaults uid email t))) uid
            = Some customer_id).
  { destruct Hcases as [Hs|[Hs Hc]].
    - rewrite setup_intent_stored by (by rewrite Hs). cbn [fst snd]. done.
    - rewrite (setup_intent_created _ _ _ customer_id) by done.
      cbn [fst snd]. apply stored_customer_upsert. }
  rewrite (setup_intent_stored uid email
             (snd (fst (setup_intent client defaults uid email t))))
    by (by rewrite Hfirst).
  cbn [fst snd]. by rewrite Hfirst.
Qed.

End SetupIntent.

Lemma setup_intent_customer_witness :
  stored_customer
    (snd (fst (setup_intent sample_setup_client profile_new "user_3"
                 "user_3@example.com" (sample_table profile_active))))
    "user_3"
  = Some "cus_9".
Proof.
  destruct (setup_intent_customer sample_setup_client profile_new "user_3"
              "user_3@example.com" (sample_table profile_active))
    as (_ & Hnew).
  apply (Hnew eq_refl).
Defined.

Lemma setup_intent_again_witness :
  snd (setup_intent sample_setup_client profile_new "user_3"
         "user_3@example.com"
         (snd (fst (setup_intent sample_setup_client profile_new "user_3"
                      "user_3@example.com" (sample_table profile_active)))))
  = [SetupIntentsCreate "cus_9"].
Proof.
  apply (setup_intent_again sample_setup_client profile_new "user_3"
           "user_3@example.com" (sample_table profile_active) "cus_9").
  - discriminate.
  - right. split; reflexivity.
Defined.

(* ===================================================================== *)
(** ** Totals by date *)
(* ===================================================================== *)

Section History.

Context (texts : Texts).
Implicit Types (data : list LogRow) (acc : gmap string JsValue).

Lemma dailyTotals_snoc data log :
  dailyTotals texts (data ++ [log])
  = history_step texts (dailyTotals texts data) log.
Proof. unfold dailyTotals. by rewrite fold_left_app. Qed.

Lemma plain_name_not_proto key :
  inherited_name key = false → String.eqb key "__proto__" = false.
Proof.
  intros H. destruct (String.eqb_spec key "__proto__") as [->|]; [|done].
  vm_compute in H. discriminate.
Qed.

Lemma lookup_set_property acc key v d :
  set_property acc key v !! d
  = if String.eqb key "__proto__" then acc !! d
    else if decide (d = key) then Some v else acc !! d.
Proof.
  unfold set_property. destruct (String.eqb key "__proto__"); [done|].
  destruct (decide (d = key)) as [->|Hd].
  - by rewrite lookup_insert_eq.
  - by rewrite lookup_insert_ne.
Qed.

(** A step changes nothing but the key of its log's date. *)
Lemma lookup_history_step_ne acc log d :
  d ≠ log_date log → history_step texts acc log !! d = acc !! d.
Proof.
  intros Hd. unfold history_step. rewrite lookup_set_property.
  destruct (String.eqb (log_date log) "__proto__") eqn:Hp.
  - destruct (negb _); [|done]. by rewrite lookup_set_property, Hp.
  - rewrite decide_False by done.
    destruct (negb _); [|done].
    by rewrite lookup_set_property, Hp, decide_False.
Qed.

(** Under [__proto__] no key is ever defined. *)
Lemma lookup_history_step_proto acc log :
  history_step texts acc log !! "__proto__" = acc !! "__proto__".
Proof.
  destruct (decide ("__proto__" = log_date log)) as [Hd|Hd];
    [|by apply lookup_history_step_ne].
  unfold history_step. rewrite <- Hd, lookup_set_property.
  change (String.eqb "__proto__" "__proto__") with true. cbv iota.
  destruct (negb _); [|done]. by rewrite lookup_set_property.
Qed.

(** A step on a date that is no inherited name, when the key is absent or
    holds a number. *)
Lemma lookup_history_step_plain acc log (held : option float) :
  inherited_name (log_date log) = false →
  acc !! log_date log = JNumber <$> held →
  history_step texts acc log !! log_date log
  = Some (JNumber ((if entry_truthy held then default PrimFloat.nan held else 0)
                   + log_total_caffeine log)%float).
Proof.
  intros Hplain Hacc. pose proof (plain_name_not_proto _ Hplain) as Hp.
  unfold history_step, get_property.
  rewrite lookup_set_property, Hp, decide_True by done.
  rewrite Hacc, Hplain.
  destruct held as [n|]; cbn [fmap option_fmap option_map property_truthy
                                truthy entry_truthy default].
  - destruct (negb (PrimFloat.is_zero n || PrimFloat.is_nan n)); cbn [negb].
    + by rewrite Hacc.
    + rewrite lookup_set_property, Hp, decide_True by done. reflexivity.
  - cbn [negb]. rewrite lookup_set_property, Hp, decide_True by done.
    reflexivity.
Qed.

Lemma string_app_not_empty (a b : string) :
  a ≠ "" → String.eqb (a +:+ b) "" = false.
Proof. destruct a; [done|]. reflexivity. Qed.

(** A step on a date that is an inherited name other than [__proto__]:
    the text of what is inherited, then the digits of the totals. *)
Lemma lookup_history_step_inherited acc log (held : option string) :
  inherited_name (log_date log) = true →
  log_date log ≠ "__proto__" →
  inherited_text texts (log_date log) ≠ "" →
  acc !! log_date log
  = (λ rest, JString (inherited_text texts (log_date log) +:+ rest)) <$> held →
  history_step texts acc log !! log_date log
  = Some (JString (inherited_text texts (log_date log)
                   +:+ (default "" held
                        +:+ number_text texts (log_total_caffeine log)))).
Proof.
  intros Hin Hp%String.eqb_neq Htext Hacc.
  unfold history_step, get_property.
  rewrite lookup_set_property, Hp, decide_True by done.
  rewrite Hacc, Hin.
  destruct held as [rest|]; cbn [fmap option_fmap option_map property_truthy
                                   truthy default].
  - rewrite string_app_not_empty by done. cbn [negb].
    rewrite Hacc. cbn [fmap option_fmap option_map add_number].
    by rewrite string_app_assoc.
  - cbn [negb]. rewrite Hacc. reflexivity.
Qed.

Lemma totals_on_snoc d data log :
  totals_on d (data ++ [log])
  = (totals_on d data
     ++ if String.eqb (log_date log) d then [log_total_caffeine log] else [])%list.
Proof.
  unfold totals_on. rewrite List.filter_app, fmap_app. f_equal.
  cbn [List.filter]. by destruct (String.eqb (log_date log) d).
Qed.

Lemma restarting_sum_snoc totals x :
  restarting_sum (totals ++ [x])
  = ((if PrimFloat.is_zero (restarting_sum totals)
         || PrimFloat.is_nan (restarting_sum totals)
      then 0 else restarting_sum totals) + x)%float.
Proof. unfold restarting_sum. by rewrite fold_left_app. Qed.

Lemma dailyTotals_plain data d :
  Forall (λ log, inherited_name (log_date log) = false) data →
  dailyTotals texts data !! d
  = match totals_on d data with
    | [] => None
    | _ :: _ => Some (JNumber (restarting_sum (totals_on d data)))
    end.
Proof.
  induction data as [|log data IH] using rev_ind; [done|].
  intros [Hdata Hlog%Forall_inv]%Forall_app. specialize (IH Hdata).
  rewrite dailyTotals_snoc, totals_on_snoc.
  destruct (decide (d = log_date log)) as [->|Hd].
  - rewrite String.eqb_refl.
    assert (Hcons : ∀ (xs : list float) x,
               match (xs ++ [x])%list with
               | [] => None
               | _ :: _ => Some (JNumber (restarting_sum (xs ++ [x])))
               end = Some (JNumber (restarting_sum (xs ++ [x]))))
      by (by intros [|??] ?).
    rewrite Hcons, restarting_sum_snoc.
    destruct (totals_on (log_date log) data) as [|x xs] eqn:Hxs.
    + by rewrite (lookup_history_step_plain _ _ None).
    + rewrite (lookup_history_step_plain _ _ (Some (restarting_sum (x :: xs))))
        by done.
      cbn [entry_truthy default].
      by destruct (PrimFloat.is_zero _ || PrimFloat.is_nan _).
  - rewrite lookup_history_step_ne by done.
    apply not_eq_sym, String.eqb_neq in Hd. rewrite Hd, app_nil_r. exact IH.
Qed.

Lemma dailyTotals_proto data : dailyTotals texts data !! "__proto__" = None.
Proof.
  induction data as [|log data IH] using rev_ind; [done|].
  by rewrite dailyTotals_snoc, lookup_history_step_proto.
Qed.

Lemma dailyTotals_inherited data d :
  inherited_name d = true → d ≠ "__proto__" → inherited_text texts d ≠ "" →
  ∃ held : option string,
    dailyTotals texts data !! d
    = (λ rest, JString (inherited_text texts d +:+ rest)) <$> held ∧
    (held = None ↔ totals_on d data = []).
Proof.
  intros Hin Hp Htext.
  induction data as [|log data (held & IH & Hheld)] using rev_ind;
    [by exists None|].
  rewrite dailyTotals_snoc, totals_on_snoc.
  destruct (decide (d = log_date log)) as [->|Hd].
  - rewrite String.eqb_refl.
    rewrite (lookup_history_step_inherited _ _ held) by done.
    eexists (Some _). split; [reflexivity|]. split; [done|].
    intros H. apply (f_equal length) in H.
    rewrite length_app in H. cbn in H. lia.
  - rewrite lookup_history_step_ne by done.
    apply not_eq_sym, String.eqb_neq in Hd. rewrite Hd, app_nil_r.
    by exists held.
Qed.

(** X19. GET /history groups by date.  When no log's date is a name that
    every object inherits ([constructor], [toString], [__proto__], ...),
    the object it answers with has a key for exactly the dates that occur
    among the logs, and the value under a date is built from the totals of
    that date's logs alone, in their order: their running sum, where a
    running total that is zero or NaN starts again from 0.  Whatever the
    logs, no key [__proto__] is defined; and under any other inherited
    name the value is not a number but a string, the text of what is
    inherited followed by more text. *)
Theorem dailyTotals_by_date (data : list LogRow) :
  (Forall (λ log, inherited_name (log_date log) = false) data →
   ∀ d, dailyTotals texts data !! d
        = match totals_on d data with
          | [] => None
          | _ :: _ => Some (JNumber (restarting_sum (totals_on d data)))
          end) ∧
  dailyTotals texts data !! "__proto__" = None ∧
  (∀ d, inherited_name d = true → d ≠ "__proto__" →
        inherited_text texts d ≠ "" → totals_on d data ≠ [] →
        ∃ rest, dailyTotals texts data !! d
                = Some (JString (inherited_text texts d +:+ rest))).
Proof.
  split; [|split].
  - intros Hdata d. by apply dailyTotals_plain.
  - apply dailyTotals_proto.
  - intros d Hin Hp Htext Hsome.
    destruct (dailyTotals_inherited data d Hin Hp Htext)
      as ([rest|] & Hd & Hheld).
    + by exists rest.
    + destruct Hsome. by apply Hheld.
Qed.

End History.

Lemma dailyTotals_by_date_witness :
  dailyTotals sample_texts sample_logs !! "2024-05-02" = Some (JNumber 215) ∧
  dailyTotals sample_texts sample_logs !! "2024-05-03" = None.
Proof.
  destruct (dailyTotals_by_date sample_texts sample_logs) as [Hplain _].
  assert (Hdates : Forall (λ log, inherited_name (log_date log) = false)
                     sample_logs)
    by (repeat constructor).
  split; rewrite (Hplain Hdates); reflexivity.
Defined.

(* ===================================================================== *)
(** ** Invariants of the stored rows *)
(* ===================================================================== *)

Section Invariants.

Context (stripe : StripeClient) (env : Env).
Context (client : SetupClient) (defaults : Profile).
Implicit Types (t : Table) (p : Profile) (sub : Subscription).

Lemma keeps_rows_refl I t : keeps_rows I t t.
Proof. by intros H. Qed.

Lemma keeps_rows_trans I t1 t2 t3 :
  keeps_rows I t1 t2 → keeps_rows I t2 t3 → keeps_rows I t1 t3.
Proof. unfold keeps_rows. auto. Qed.

Lemma keeps_rows_store_update I flt data :
  (∀ p, I p → I (apply_update data p)) →
  respects (keeps_rows I) (store_update flt data).
Proof.
  intros Hdata t Hall k p'. cbn [store_update table_after fst snd].
  destruct flt.
  - rewrite lookup_update_id. destruct (decide _); [|apply Hall].
    destruct (t !! k) as [p|] eqn:Hp; [|done].
    intros [= <-]. eapply Hdata, Hall, Hp.
  - rewrite lookup_update_customer.
    destruct (t !! k) as [p|] eqn:Hp; [|done].
    intros [= <-]. destruct (bool_decide _); [|by eapply Hall].
    eapply Hdata, Hall, Hp.
Qed.

Lemma respects_if_eqn {A} (R : Table → Table → Prop) (b : bool)
  (h1 h2 : Handler A) :
  (b = true → respects R h1) → (b = false → respects R h2) →
  respects R (if b then h1 else h2).
Proof. destruct b; auto. Qed.

Ltac invariant_steps I :=
  repeat first
    [ apply (respects_try_catch _ (keeps_rows_trans I))
    | apply (respects_bind _ (keeps_rows_trans I))
    | apply (respects_ret _ (keeps_rows_refl I))
    | apply (respects_lift _ (keeps_rows_refl I))
    | apply (respects_provider _ (keeps_rows_refl I))
    | apply (respects_select_single _ (keeps_rows_refl I))
    | apply respects_if_eqn; intros ?
    | match goal with |- ∀ _, _ => intro end
    | match goal with
      | |- respects _ (match ?x with _ => _ end) => destruct x
      end ].

Lemma apply_update_status data p s :
  data !! "subscription_status" = Some s →
  subscription_status (apply_update data p) = s.
Proof. intros H. unfold apply_update, set_column; cbn. by rewrite H. Qed.

Lemma active_status_cases c :
  active_status c = "active" ∨ active_status c = "active_until_period_end".
Proof. unfold active_status. destruct (truthy c); auto. Qed.

(** The update data the routes write: a status of the active kind with
    whatever else, or the clearing of a terminal path. *)
Lemma routes_update_data flt data :
  ((∃ s, data !! "subscription_status" = Some (Some s) ∧
         (s = "active" ∨ s = "active_until_period_end")) ∨
   data = clearing_update "inactive" ∨ data = clearing_update "cancelled") →
  respects (keeps_rows canonical_status) (store_update flt data) ∧
  respects (keeps_rows cleared_when_inactive) (store_update flt data).
Proof.
  intros Hdata. split; apply keeps_rows_store_update; intros p Hp.
  - unfold canonical_status.
    destruct Hdata as [(s & Hs & [->| ->])|[->| ->]];
      first [rewrite (apply_update_status _ _ _ Hs)
            |rewrite (apply_update_status _ _ (Some "inactive")) by done
            |rewrite (apply_update_status _ _ (Some "cancelled")) by done];
      auto.
  - unfold cleared_when_inactive.
    destruct Hdata as [(s & Hs & Hkind)|[->| ->]].
    + rewrite (apply_update_status _ _ _ Hs).
      intros [[= ->]|[= ->]]; by destruct Hkind.
    + done.
    + done.
Qed.

Lemma route_invariants (req : Request) :
  respects (keeps_rows canonical_status) (route stripe env req) ∧
  respects (keeps_rows cleared_when_inactive) (route stripe env req).
Proof.
  assert (Hstatus : ∀ c e w,
             ∃ s', status_update (active_status c) e w
                   !! "subscription_status" = Some (Some s') ∧
                   (s' = "active" ∨ s' = "active_until_period_end")).
  { intros c e w. eexists. split; [apply lookup_status_update|].
    apply active_status_cases. }
  split; destruct req as [uid c s|uid|uid|uid|body sig]; cbn [route].
  all: unfold create, get_status, cancel, reactivate, webhook, handle_event;
    cbv zeta.
  all: match goal with
       | |- respects (keeps_rows ?I) _ => invariant_steps I
       end.
  all: first [ eapply proj1, routes_update_data
             | eapply proj2, routes_update_data ].
  all: try (by right; left).
  all: try (by right; right).
  all: left; eexists;
    (split;
     [try match goal with
          | |- (if ?b then _ else _) !! _ = _ => destruct b
          end; reflexivity|]).
  all: try apply active_status_cases.
  all: try (by left).
  all: try (by right).
  all: match goal with
       | H : String.eqb _ "active" = true |- _ =>
           apply String.eqb_eq in H; by left
       end.
Qed.

Lemma canonical_status_ignores_customer : ignores_customer canonical_status.
Proof. unfold canonical_status. intros p q _ <- _. done. Qed.

Lemma cleared_when_inactive_ignores_customer :
  ignores_customer cleared_when_inactive.
Proof. unfold cleared_when_inactive. intros p q <- <- <-. done. Qed.

(** /setup-intent and a property of rows that ignores the customer id: the
    rows it rewrites keep the property, and the row it inserts has it
    exactly when the column defaults have it. *)
Lemma setup_intent_invariant (I : Profile → Prop) (uid email : string) t :
  ignores_customer I →
  all_rows I t →
  let t' := snd (fst (setup_intent client defaults uid email t)) in
  (I defaults → all_rows I t') ∧
  (∀ customer_id,
      t !! uid = None →
      customers_create client email uid = Normal customer_id →
      all_rows I t' → I defaults).
Proof.
  intros HI Hall. cbv zeta. unfold setup_intent.
  destruct (t !! uid) as [p|] eqn:Hp.
  - split; [|by intros ? [=]]. intros Hdef.
    destruct (column_truthy (stripe_customer_id p)).
    { by destruct (setup_intent_for client _). }
    destruct (customers_create client email uid) as [c|e]; [|done].
    destruct (setup_intent_for client c) as [r es]. cbn [fst snd].
    intros k q. unfold upsert_customer. rewrite Hp. cbn [default].
    destruct (decide (k = uid)) as [->|Hk].
    + rewrite lookup_insert_eq. intros [= <-].
      by apply (HI p); [..|apply (Hall uid)].
    + rewrite lookup_insert_ne by done. apply Hall.
  - cbn [column_truthy].
    destruct (customers_create client email uid) as [c|e]; [|by split].
    destruct (setup_intent_for client c) as [r es]. cbn [fst snd].
    unfold upsert_customer. rewrite Hp. cbn [default].
    split.
    + intros Hdef k q. destruct (decide (k = uid)) as [->|Hk].
      * rewrite lookup_insert_eq. intros [= <-]. by apply (HI defaults).
      * rewrite lookup_insert_ne by done. apply Hall.
    + intros c' _ _ Hall'.
      eapply HI; [..|apply (Hall' uid), lookup_insert_eq]; done.
Qed.

(** X20. The subscription router keeps the statuses canonical.  If every
    row's status is one of 'inactive', 'active', 'active_until_period_end'
    and 'cancelled', it still is after a request to /create, /status,
    /cancel, /reactivate or /webhook, whatever the provider returned.
    After /setup-intent it still is when the column defaults, which the
    upsert gives a user who had no row, are canonical; and for a user
    without a row whose customer the provider creates, only then. *)
Theorem routes_keep_status_canonical (t : Table) :
  all_rows canonical_status t →
  (∀ req, all_rows canonical_status (table_after (route stripe env req t))) ∧
  (∀ uid email,
      let t' := snd (fst (setup_intent client defaults uid email t)) in
      (canonical_status defaults → all_rows canonical_status t') ∧
      (∀ customer_id,
          t !! uid = None →
          customers_create client email uid = Normal customer_id →
          all_rows canonical_status t' → canonical_status defaults)).
Proof.
  intros Hall. split.
  - intros req. by apply (proj1 (route_invariants req)).
  - intros uid email.
    by apply setup_intent_invariant;
      [apply canonical_status_ignores_customer|].
Qed.

(** X21. The subscription router leaves no terminated row half cleared.
    If every row whose status is 'inactive' or 'cancelled' holds neither a
    subscription id nor an expiry, this still holds after a request to
    /create, /status, /cancel, /reactivate or /webhook.  After
    /setup-intent it still holds when the column defaults are of that
    kind; and for a user without a row whose customer the provider
    creates, only then. *)
Theorem routes_keep_terminated_rows_cleared (t : Table) :
  all_rows cleared_when_inactive t →
  (∀ req,
      all_rows cleared_when_inactive (table_after (route stripe env req t))) ∧
  (∀ uid email,
      let t' := snd (fst (setup_intent client defaults uid email t)) in
      (cleared_when_inactive defaults → all_rows cleared_when_inactive t') ∧
      (∀ customer_id,
          t !! uid = None →
          customers_create client email uid = Normal customer_id →
          all_rows cleared_when_inactive t' →
          cleared_when_inactive defaults)).
Proof.
  intros Hall. split.
  - intros req. by apply (proj2 (route_invariants req)).
  - intros uid email.
    by apply setup_intent_invariant;
      [apply cleared_when_inactive_ignores_customer|].
Qed.

End Invariants.

(* ===================================================================== *)
(** ** The day a log is filed under *)
(* ===================================================================== *)

Section LogDay.

Lemma string_app_empty_r (s : string) : s +:+ "" = s.
Proof.
  induction s as [|c s IH]; [done|].
  change (String c (s +:+ "") = String c s). by rewrite IH.
Qed.

Lemma digit_not_T n : Ascii.eqb (digit n) "T" = false.
Proof.
  apply Ascii.eqb_neq. intros H.
  pose proof (digit_is_digit n) as Hd. rewrite H in Hd. discriminate.
Qed.

Lemma before_T_pad w n rest :
  before_T (pad w n +:+ rest) = pad w n +:+ before_T rest.
Proof.
  revert n rest. induction w as [|w IH]; intros n rest; [done|].
  change (pad (S w) n) with (pad w (n / 10) +:+ String (digit n) "").
  rewrite !string_app_assoc.
  change (String (digit n) "" +:+ ?x) with (String (digit n) x).
  rewrite IH. cbn [before_T]. by rewrite digit_not_T.
Qed.

Lemma before_T_iso_year y rest :
  before_T (iso_year y +:+ rest) = iso_year y +:+ before_T rest.
Proof.
  unfold iso_year. destruct (_ && _); [apply before_T_pad|].
  rewrite !string_app_assoc.
  destruct (y <? 0);
    [change ("-" +:+ ?x) with (String "-" x)
    |change ("+" +:+ ?x) with (String "+" x)];
    cbn [before_T Ascii.eqb Bool.eqb]; by rewrite before_T_pad.
Qed.

Lemma before_T_format t :
  before_T (format_iso (fields_of_time t)) = utc_day t.
Proof.
  rewrite format_iso_chain. unfold utc_day, fields_of_time;
    cbn [f_year f_month f_date f_hours f_minutes f_seconds f_ms].
  rewrite before_T_iso_year.
  change (before_T (String "-" ?x)) with (String "-" (before_T x)).
  rewrite before_T_pad.
  change (before_T (String "-" ?x)) with (String "-" (before_T x)).
  rewrite before_T_pad.
  change (before_T (String "T" ?x)) with "".
  by rewrite string_app_empty_r.
Qed.

Lemma format_after_day t :
  ∃ rest, format_iso (fields_of_time t) = utc_day t +:+ String "T" rest.
Proof.
  eexists. rewrite format_iso_chain. unfold utc_day, fields_of_time;
    cbn [f_year f_month f_date f_hours f_minutes f_seconds f_ms].
  rewrite !string_app_assoc. reflexivity.
Qed.

Lemma daily_date_ok_utc_day t :
  daily_date_ok (utc_day t) = (0 <=? YearFromTime t) && (YearFromTime t <=? 9999).
Proof.
  pose proof (MonthFromTime_range t). pose proof (DateFromTime_range t).
  unfold utc_day, daily_date_ok, iso_year.
  destruct (Z.leb_spec 0 (YearFromTime t));
    [destruct (Z.leb_spec (YearFromTime t) 9999)|]; cbn [andb].
  - rewrite read_digits_field by (cbn; lia). cbn [mbind option_bind].
    change ("-" +:+ ?x) with (String "-" x).
    rewrite expect_head. cbn [mbind option_bind].
    rewrite read_digits_field by (cbn; lia). cbn [mbind option_bind].
    change ("-" +:+ ?x) with (String "-" x).
    rewrite expect_head. cbn [mbind option_bind].
    rewrite <- (string_app_empty_r (pad 2 (DateFromTime t))).
    by rewrite read_digits_field by (cbn; lia).
  - by destruct (YearFromTime t <? 0).
  - by destruct (YearFromTime t <? 0).
Qed.

(** X23. The [date] a log is filed under is the UTC calendar day of its
    [consumed_at]: it is what precedes the 'T' of the ISO string, YYYY-MM-DD
    for that instant.  GET /daily/:date accepts exactly the days whose year
    has four digits, so a log of a year before 0 or after 9999 is stored
    under a date that route refuses.  An invalid [consumedDate] makes
    [toISOString] throw, and nothing is derived. *)
Theorem log_day (t : Z) :
  (∃ time, log_dates (Some t) = Normal (utc_day t +:+ String "T" time, utc_day t)) ∧
  (daily_date_ok (utc_day t) = true ↔ 0 <= YearFromTime t <= 9999) ∧
  (∃ e, log_dates None = Throw e).
Proof.
  split; [|split].
  - destruct (format_after_day t) as [rest Hrest]. exists rest.
    unfold log_dates. cbn [Date_toISOString].
    by rewrite before_T_format, Hrest.
  - rewrite daily_date_ok_utc_day, andb_true_iff, !Z.leb_le. tauto.
  - by eexists.
Qed.

End LogDay.

(* ===================================================================== *)
(** ** A poll that reaches no snapshot *)
(* ===================================================================== *)

Section NoSnapshot.

Context (stripe : StripeClient).
Context (getUser : string → Completion (option AuthUser)).
Implicit Types (t : Table) (p : Profile).

(** X22. A status poll that gets no snapshot repairs nothing.  For a user
    without a subscription id on record (no row, or a NULL or empty id) it
    answers [{status: 'inactive'}] without calling the provider; when the
    provider call throws it answers 500.  Either way the table is left as
    it was, so the middleware decides as before: a row left with an active
    status but without a subscription id keeps passing, while the poll
    says 'inactive'. *)
Theorem poll_without_snapshot (uid : string) (t : Table) :
  (column_truthy (profile_subscription_id (t !! uid)) = false →
   get_status stripe uid t
   = (Normal (json [("status", JString "inactive")]), t, [])) ∧
  (∀ p e,
      t !! uid = Some p →
      column_truthy (subscription_id p) = true →
      subscriptions_retrieve stripe (default "" (subscription_id p)) = Throw e →
      get_status stripe uid t
      = (Normal (error_response 500 "Failed to get subscription status"), t,
         [SubscriptionsRetrieve (default "" (subscription_id p))])) ∧
  ((column_truthy (profile_subscription_id (t !! uid)) = false ∨
    ∃ p e, t !! uid = Some p ∧
           column_truthy (subscription_id p) = true ∧
           subscriptions_retrieve stripe (default "" (subscription_id p))
             = Throw e) →
   ∀ authorization,
     authenticated_subscriber getUser authorization
       (table_after (get_status stripe uid t))
     = authenticated_subscriber getUser authorization t).
Proof.
  split; [|split].
  - apply get_status_no_subscription.
  - intros p e. apply get_status_provider_error.
  - intros [H|(p & e & Hp & Hid & Hr)] authorization.
    + by rewrite get_status_no_subscription.
    + by rewrite (get_status_provider_error _ _ _ p e).
Qed.

End NoSnapshot.

Lemma poll_without_snapshot_witness :
  get_status (sample_stripe sub_active deleted_event) "user_2"
    (sample_table profile_active)
  = (Normal (json [("status", JString "inactive")]),
     sample_table profile_active, []).
Proof.
  apply (poll_without_snapshot (sample_stripe sub_active deleted_event)
           sample_getUser "user_2" (sample_table profile_active)).
  reflexivity.
Defined.

Lemma sample_table_rows (I : Profile → Prop) (p : Profile) :
  I p → I profile_fresh → all_rows I (sample_table p).
Proof.
  intros Hp Hfresh k q. unfold sample_table.
  destruct (decide (k = "user_1")) as [->|Hk1].
  - rewrite lookup_insert_eq. by intros [= <-].
  - rewrite lookup_insert_ne by done.
    destruct (decide (k = "user_2")) as [->|Hk2].
    + rewrite lookup_singleton_eq. by intros [= <-].
    + by rewrite lookup_singleton_ne.
Qed.

Lemma routes_keep_status_canonical_witness :
  all_rows canonical_status
    (table_after
       (route (sample_stripe sub_cancelling deleted_event) sample_env
          (PostCancel "user_1") (sample_table profile_active))) ∧
  all_rows canonical_status
    (snd (fst (setup_intent sample_setup_client defaults_inactive
                 "user_3" "user_3@example.com" (sample_table profile_active)))) ∧
  ¬ all_rows canonical_status
      (snd (fst (setup_intent sample_setup_client profile_new
                   "user_3" "user_3@example.com" (sample_table profile_active)))).
Proof.
  assert (Hrows : all_rows canonical_status (sample_table profile_active))
    by (apply sample_table_rows; unfold canonical_status; cbn; tauto).
  split; [|split].
  - by apply (routes_keep_status_canonical
                (sample_stripe sub_cancelling deleted_event) sample_env
                sample_setup_client defaults_inactive).
  - apply (routes_keep_status_canonical
             (sample_stripe sub_cancelling deleted_event) sample_env
             sample_setup_client defaults_inactive
             (sample_table profile_active) Hrows).
    unfold canonical_status; cbn; tauto.
  - intros Hafter.
    destruct (routes_keep_status_canonical
                (sample_stripe sub_cancelling deleted_event) sample_env
                sample_setup_client profile_new
                (sample_table profile_active) Hrows) as [_ Hsetup].
    destruct (Hsetup "user_3" "user_3@example.com") as [_ Honly].
    destruct (Honly "cus_9" eq_refl eq_refl Hafter)
      as [H|[H|[H|H]]]; discriminate.
Defined.

Lemma routes_keep_terminated_rows_cleared_witness :
  all_rows cleared_when_inactive
    (table_after
       (route (sample_stripe sub_active deleted_event) sample_env
          (PostWebhook "" (JString "good")) (sample_table profile_active))) ∧
  all_rows cleared_when_inactive
    (snd (fst (setup_intent sample_setup_client defaults_inactive
                 "user_3" "user_3@example.com" (sample_table profile_active)))).
Proof.
  assert (Hrows : all_rows cleared_when_inactive (sample_table profile_active)).
  { apply sample_table_rows; unfold cleared_when_inactive; cbn.
    - intros [|]; discriminate.
    - tauto. }
  split.
  - by apply (routes_keep_terminated_rows_cleared
                (sample_stripe sub_active deleted_event) sample_env
                sample_setup_client defaults_inactive).
  - apply (routes_keep_terminated_rows_cleared
             (sample_stripe sub_active deleted_event) sample_env
             sample_setup_client defaults_inactive
             (sample_table profile_active) Hrows).
    unfold cleared_when_inactive; cbn; tauto.
Defined.

(* ===================================================================== *)
(** ** What a poll answers and what it stores *)
(* ===================================================================== *)

Section PollAnswer.

Context (stripe : StripeClient).
Implicit Types (t : Table) (p : Profile) (sub : Subscription).

(** An expiry the normalizer produced is a non-empty string, so the
    routes' [if (expiresAt)] is a test for null. *)
Lemma iso_or_null_truthy v :
  column_truthy (iso_or_null v) = negb (bool_decide (iso_or_null v = None)).
Proof.
  destruct (iso_or_null v) as [s|] eqn:Hs; [|done].
  assert (Hv : timestampToISOString v = Normal (Some s))
    by (by rewrite timestampToISOString_returns, Hs).
  destruct (normalizer_answer v s Hv) as (t & _ & ->).
  pose proof (format_iso_length (fields_of_time t)) as Hlen.
  cbn [column_truthy].
  destruct (format_iso (fields_of_time t)); [|done].
  by destruct (_ && _).
Qed.

(** X24. On a status poll of an active subscription the answer and the
    store agree whenever an expiry could be computed: the row ends with the
    status and the expiry that the response reports.  When none could be
    computed the response says [expires_at: null] while the row keeps the
    expiry it had. *)
Theorem poll_answer_and_store (uid : string) (t : Table) (p : Profile)
  (sub : Subscription) :
  t !! uid = Some p →
  column_truthy (subscription_id p) = true →
  subscriptions_retrieve stripe (default "" (subscription_id p)) = Normal sub →
  sub_status sub = "active" →
  let run := get_status stripe uid t in
  ∃ r p1,
    answer_of run = Normal r ∧ table_after run !! uid = Some p1 ∧
    body_field "status" (res_body r) = Some (JString (computed_status sub)) ∧
    subscription_status p1 = Some (computed_status sub) ∧
    body_field "expires_at" (res_body r)
    = Some (js_of_column (computed_expires_at sub)) ∧
    subscription_expires_at p1
    = match computed_expires_at sub with
      | Some expiresAt => Some expiresAt
      | None => subscription_expires_at p
      end.
Proof.
  intros Hp Hid Hr Hs. cbv zeta.
  destruct (poll_settles stripe uid t p sub Hp Hid Hr Hs)
    as (p1 & Hp1 & _ & Hst & Hex).
  pose proof (iso_or_null_truthy
                (resolve_period_end (sub_current_period_end sub)
                   (sub_billing_cycle_anchor sub))) as Htruthy.
  fold (computed_expires_at sub) in Htruthy.
  revert Hp1. rewrite (get_status_active _ _ _ p sub) by done.
  cbn [table_after answer_of fst snd]. intros Hp1.
  eexists _, p1. split; [reflexivity|]. split; [done|].
  split; [reflexivity|]. split; [done|]. split; [reflexivity|].
  revert Hp1 Hex Htruthy.
  destruct (computed_expires_at sub) as [e|]; intros Hp1 Hex Htruthy.
  - apply Hex. by rewrite Htruthy.
  - clear Hex Htruthy. revert Hp1. cbn [column_truthy andb orb].
    destruct (bool_decide (Some (computed_status sub) = subscription_status p));
      cbn [negb].
    + rewrite Hp. by intros [= <-].
    + rewrite lookup_update_id, decide_True, Hp by done.
      cbn [fmap option_fmap option_map].
      intros [= <-].
      exact (apply_status_update_expiry (computed_status sub) None false p).
Qed.

End PollAnswer.

Lemma poll_answer_and_store_witness :
  subscription_expires_at
    <$> table_after
          (get_status (sample_stripe sub_active deleted_event) "user_1"
             (sample_table profile_cancelling)) !! "user_1"
  = Some (Some "2023-11-14T22:13:20.000Z").
Proof.
  destruct (poll_answer_and_store
              (sample_stripe sub_active deleted_event) "user_1"
              (sample_table profile_cancelling) profile_cancelling sub_active
              eq_refl eq_refl eq_refl eq_refl)
    as (r & p1 & _ & -> & _ & _ & _ & Hexp).
  cbn [fmap option_fmap option_map]. by rewrite Hexp.
Defined.
